(** * extract.py: decoding the Bun standalone module graph

    A shallow embedding of [parse_footer], [extract_modules] and
    [strip_bytecode_prefix] of [src/extract.py], together with the Python
    primitives they rely on (slicing, [bytes.find], [bytes.rfind],
    [struct.unpack_from], [bytes.decode], [str.strip]); and of the scan of
    [get_bun_section] and the write loop of [main].

    Python integers are unbounded, so every offset is a [Z].  A [bytes]
    object is a list of [byte]; a [str] is a list of Unicode code points.
    Exceptions are the [Raise] branch of [result]. *)

From Stdlib Require Import Strings.Byte Strings.Ascii Strings.String.
From Stdlib Require Import ZArith List Bool Lia.
From Stdlib Require Numbers.DecimalString.
From Stdlib Require Numbers.DecimalPos Numbers.DecimalZ.
Import ListNotations.

Local Open Scope Z_scope.

(** ** Exceptions *)

Definition bytes := list byte.
Definition str := list Z.

(** [TrailerMismatch t] is the [AssertionError] of line 76, carrying the
    trailer that was found; [UnknownRecordWidth n] is the [AssertionError]
    of line 103, carrying [modules_ptr_length]; [StructError] is
    [struct.error], raised by [struct.unpack_from]. *)
Inductive exn : Type :=
| TrailerMismatch (trailer : bytes)
| UnknownRecordWidth (modules_ptr_length : Z)
| StructError.

Inductive result (A : Type) : Type :=
| Ok (a : A)
| Raise (e : exn).

Arguments Ok {A} a.
Arguments Raise {A} e.

Definition bind {A B : Type} (c : result A) (k : A -> result B) : result B :=
  match c with
  | Ok a => k a
  | Raise e => Raise e
  end.

Notation "x <- c ;; k" := (bind c (fun x => k))
  (at level 61, c at next level, right associativity).

(** ** Python primitives *)

Module Py.

Definition byte_val (b : byte) : Z := Z.of_N (Byte.to_N b).

Definition len {A : Type} (s : list A) : Z := Z.of_nat (length s).

(** Index normalisation of a slice bound: a negative bound counts from the
    end, and the outcome is clamped to [0, n]. *)
Definition clamp_index (n i : Z) : Z :=
  let j := if i <? 0 then i + n else i in
  if j <? 0 then 0 else if n <? j then n else j.

(** [s[lo:hi]] *)
Definition slice {A : Type} (s : list A) (lo hi : Z) : list A :=
  let l := clamp_index (len s) lo in
  let h := clamp_index (len s) hi in
  firstn (Z.to_nat (h - l)) (skipn (Z.to_nat l) s).

(** [s[lo:]] *)
Definition slice_from {A : Type} (s : list A) (lo : Z) : list A :=
  slice s lo (len s).

(** [s[:hi]] *)
Definition slice_to {A : Type} (s : list A) (hi : Z) : list A :=
  slice s 0 hi.

Fixpoint has_prefix (sub s : bytes) : bool :=
  match sub, s with
  | [], _ => true
  | _ :: _, [] => false
  | x :: sub', y :: s' => Byte.eqb x y && has_prefix sub' s'
  end.

Fixpoint find_at (sub s : bytes) (pos : Z) : Z :=
  if has_prefix sub s then pos
  else match s with
       | [] => -1
       | _ :: s' => find_at sub s' (pos + 1)
       end.

(** [s.find(sub, start)]: lowest index at or after [start] where [sub]
    occurs, [-1] when there is none. *)
Definition find (s sub : bytes) (start : Z) : Z :=
  let st := if start <? 0 then Z.max 0 (start + len s) else start in
  if len s <? st then -1 else find_at sub (skipn (Z.to_nat st) s) st.

Fixpoint rfind_at (sub s : bytes) (pos : Z) : Z :=
  match s with
  | [] => if has_prefix sub [] then pos else -1
  | _ :: s' =>
      let r := rfind_at sub s' (pos + 1) in
      if 0 <=? r then r else if has_prefix sub s then pos else -1
  end.

(** [s.rfind(sub)]: highest index where [sub] occurs, [-1] when there is
    none. *)
Definition rfind (s sub : bytes) : Z := rfind_at sub s 0.

(** [s.split(sep)[0]] for a one-byte separator. *)
Fixpoint split_first (sep : byte) (s : bytes) : bytes :=
  match s with
  | [] => []
  | b :: r => if Byte.eqb b sep then [] else b :: split_first sep r
  end.

Fixpoint le_int (bs : bytes) : Z :=
  match bs with
  | [] => 0
  | b :: r => byte_val b + 256 * le_int r
  end.

(** [sys.maxsize]: the largest value of a C [ssize_t], on a 64-bit
    CPython.  No [bytes] object is longer. *)
Definition PY_SSIZE_T_MAX : Z := 9223372036854775807.

(** [struct.unpack_from("<I", buffer, offset)[0]].  A negative offset is
    taken from the end of the buffer; [struct.error] is raised when the
    four bytes do not lie inside the buffer.

    CPython first converts [offset] to a C [ssize_t], and raises
    [OverflowError] when it does not fit.  That case is left out here:
    an offset inside a buffer always fits, and the offsets of
    [parse_footer] are at most 48 away from the buffer's length.  What is
    stated about an offset beyond the buffer's end is stated for offsets
    up to [PY_SSIZE_T_MAX], where the exception is [struct.error] as
    below. *)
Definition unpack_from_u32 (buffer : bytes) (offset : Z) : result Z :=
  if (offset <? 0) && (0 <? offset + 4) then Raise StructError
  else if (offset <? 0) && (offset + len buffer <? 0) then Raise StructError
  else
    let off := if offset <? 0 then offset + len buffer else offset in
    if len buffer - off <? 4 then Raise StructError
    else Ok (le_int (firstn 4 (skipn (Z.to_nat off) buffer))).

(** [bytes.decode("utf-8", errors="replace")], on byte values.  Every
    maximal ill-formed subsequence becomes one U+FFFD: an invalid start
    byte and a lead byte followed by a byte that cannot continue it cover
    one byte, a sequence broken at its third or fourth byte covers the
    bytes before the break, and a sequence cut by the end of the input
    covers all that is left. *)
Definition REPLACEMENT : Z := 0xFFFD.

Definition is_continuation (b : Z) : bool := (0x80 <=? b) && (b <? 0xC0).

Fixpoint utf8_replace (s : list Z) : str :=
  match s with
  | [] => []
  | b0 :: r0 =>
      if b0 <? 0x80 then b0 :: utf8_replace r0
      else if b0 <? 0xC2 then REPLACEMENT :: utf8_replace r0
      else if b0 <? 0xE0 then
        match r0 with
        | [] => [REPLACEMENT]
        | b1 :: r1 =>
            if is_continuation b1
            then ((b0 - 0xC0) * 64 + (b1 - 0x80)) :: utf8_replace r1
            else REPLACEMENT :: utf8_replace r0
        end
      else if b0 <? 0xF0 then
        match r0 with
        | [] => [REPLACEMENT]
        | b1 :: r1 =>
            if negb (is_continuation b1)
               || (if b1 <? 0xA0 then b0 =? 0xE0 else b0 =? 0xED)
            then REPLACEMENT :: utf8_replace r0
            else
              match r1 with
              | [] => [REPLACEMENT]
              | b2 :: r2 =>
                  if is_continuation b2
                  then ((b0 - 0xE0) * 4096 + (b1 - 0x80) * 64 + (b2 - 0x80))
                         :: utf8_replace r2
                  else REPLACEMENT :: utf8_replace r1
              end
        end
      else if b0 <? 0xF5 then
        match r0 with
        | [] => [REPLACEMENT]
        | b1 :: r1 =>
            if negb (is_continuation b1)
               || (if b1 <? 0x90 then b0 =? 0xF0 else b0 =? 0xF4)
            then REPLACEMENT :: utf8_replace r0
            else
              match r1 with
              | [] => [REPLACEMENT]
              | b2 :: r2 =>
                  if negb (is_continuation b2)
                  then REPLACEMENT :: utf8_replace r1
                  else
                    match r2 with
                    | [] => [REPLACEMENT]
                    | b3 :: r3 =>
                        if is_continuation b3
                        then ((b0 - 0xF0) * 262144 + (b1 - 0x80) * 4096
                              + (b2 - 0x80) * 64 + (b3 - 0x80))
                               :: utf8_replace r3
                        else REPLACEMENT :: utf8_replace r2
                    end
              end
        end
      else REPLACEMENT :: utf8_replace r0
  end.

Definition decode (s : bytes) : str := utf8_replace (map byte_val s).

(** A [str] literal, and a [bytes] literal, of ASCII characters. *)
Definition str_of (s : String.string) : str :=
  map (fun a => Z.of_N (N_of_ascii a)) (String.list_ascii_of_string s).

Definition bytes_of (s : String.string) : bytes :=
  String.list_byte_of_string s.

Arguments str_of s%_string.
Arguments bytes_of s%_string.

(** [str(i)] *)
Definition str_of_int (i : Z) : str :=
  str_of (DecimalString.NilZero.string_of_int (Z.to_int i)).

(** [s.startswith(prefix)] *)
Fixpoint startswith (s prefix : str) : bool :=
  match prefix, s with
  | [], _ => true
  | _ :: _, [] => false
  | x :: prefix', y :: s' => (x =? y) && startswith s' prefix'
  end.

Definition char_in (c : Z) (chars : str) : bool :=
  existsb (Z.eqb c) chars.

Fixpoint lstrip (chars s : str) : str :=
  match s with
  | [] => []
  | c :: r => if char_in c chars then lstrip chars r else s
  end.

Definition rstrip (chars s : str) : str := rev (lstrip chars (rev s)).

(** [s.strip(chars)] *)
Definition strip (chars s : str) : str := rstrip chars (lstrip chars s).

Fixpoint str_eqb (a b : str) : bool :=
  match a, b with
  | [], [] => true
  | x :: a', y :: b' => (x =? y) && str_eqb a' b'
  | _, _ => false
  end.

(** [s.endswith(suffix)] *)
Definition endswith (s suffix : str) : bool :=
  (len suffix <=? len s)
  && str_eqb (skipn (Z.to_nat (len s - len suffix)) s) suffix.

(** [c.isspace()]: the characters that [str.strip()] and [str.split()]
    treat as whitespace. *)
Definition isspace (c : Z) : bool :=
  ((9 <=? c) && (c <=? 13)) || ((28 <=? c) && (c <=? 32))
  || (c =? 0x85) || (c =? 0xA0) || (c =? 0x1680)
  || ((0x2000 <=? c) && (c <=? 0x200A))
  || (c =? 0x2028) || (c =? 0x2029) || (c =? 0x202F)
  || (c =? 0x205F) || (c =? 0x3000).

Fixpoint lstrip_ws (s : str) : str :=
  match s with
  | [] => []
  | c :: r => if isspace c then lstrip_ws r else s
  end.

(** [s.strip()] *)
Definition strip_ws (s : str) : str := rev (lstrip_ws (rev (lstrip_ws s))).

(** [s.split(sep)] for a separator of one character. *)
Fixpoint split_char (sep : Z) (s : str) : list str :=
  match s with
  | [] => [[]]
  | c :: r =>
      if c =? sep then [] :: split_char sep r
      else match split_char sep r with
           | [] => [[c]]
           | h :: t => (c :: h) :: t
           end
  end.

(** [s.split()]: the runs of characters that are not whitespace; [cur]
    is the run being read, last character first. *)
Fixpoint split_ws_from (cur s : str) : list str :=
  match s with
  | [] => match cur with [] => [] | _ :: _ => [rev cur] end
  | c :: r =>
      if isspace c then
        match cur with
        | [] => split_ws_from [] r
        | _ :: _ => rev cur :: split_ws_from [] r
        end
      else split_ws_from (c :: cur) r
  end.

Definition split_ws (s : str) : list str := split_ws_from [] s.

(** [sub in s] *)
Fixpoint contains (s sub : str) : bool :=
  startswith s sub
  || match s with
     | [] => false
     | _ :: r => contains r sub
     end.

(** [l[-1]], when there is one. *)
Fixpoint last_item {A : Type} (l : list A) : option A :=
  match l with
  | [] => None
  | [x] => Some x
  | _ :: r => last_item r
  end.

End Py.

(** ** The decoder of [src/extract.py] *)

Fixpoint bytes_eqb (a b : bytes) : bool :=
  match a, b with
  | [], [] => true
  | x :: a', y :: b' => Byte.eqb x y && bytes_eqb a' b'
  | _, _ => false
  end.

(** [b"\n---- Bun! ----\n"] *)
Definition BUN_TRAILER : bytes :=
  [x0a] ++ Py.bytes_of "---- Bun! ----" ++ [x0a].

(** The dictionary returned by [parse_footer]. *)
Record Footer : Type := mkFooter {
  offset_byte_count : Z;
  entrypoint_id : Z;
  modules_ptr_offset : Z;
  modules_ptr_length : Z
}.

(** One entry of the list returned by [extract_modules]. *)
Record EmbeddedModule : Type := mkModule {
  index : Z;
  path : str;
  contents : bytes;
  is_text : bool
}.

Definition parse_footer (section : bytes) : result Footer :=
  let section_size := Py.len section in
  let trailer := Py.slice_from section (section_size - Py.len BUN_TRAILER) in
  if negb (bytes_eqb trailer BUN_TRAILER) then Raise (TrailerMismatch trailer)
  else
    let u32 := fun off_from_end : Z =>
      Py.unpack_from_u32 section (section_size + off_from_end) in
    obc <- u32 (-48) ;;
    eid <- u32 (-44) ;;
    mpo <- u32 (-40) ;;
    mpl <- u32 (-36) ;;
    Ok (mkFooter obc eid mpo mpl).

(** The candidate chunk sizes, in the order the loop of line 99 tries them. *)
Definition CHUNK_SIZES : list Z := [52; 28; 32].

Fixpoint first_divisor (candidates : list Z) (n : Z) : option Z :=
  match candidates with
  | [] => None
  | cs :: rest => if n mod cs =? 0 then Some cs else first_divisor rest n
  end.

Definition find_chunk_size (modules_ptr_length : Z) : option Z :=
  first_divisor CHUNK_SIZES modules_ptr_length.

(** [b"/$bunfs/root"] *)
Definition BUNFS_ROOT : bytes := Py.bytes_of "/$bunfs/root".

(** Lines 118-137: the path before the root prefix is stripped. *)
Definition resolve_path (section : bytes) (path_off path_len : Z) : str :=
  let search_start := Z.max 0 (path_off - 50) in
  let chunk := Py.slice section search_start (path_off + path_len + 10) in
  let bunfs_idx := Py.rfind chunk BUNFS_ROOT in
  if 0 <=? bunfs_idx then
    let actual_start := search_start + bunfs_idx in
    let null_end := Py.find section [x00] actual_start in
    if 0 <? null_end then
      Py.decode (Py.slice section actual_start null_end)
    else
      Py.decode
        (Py.split_first x00
           (Py.slice section actual_start (actual_start + path_len + 20)))
  else
    Py.decode (Py.slice section path_off (path_off + path_len)).

(** The loop of lines 140-143: the first prefix that matches is cut off. *)
Fixpoint strip_first_prefix (prefixes : list str) (path : str) : str :=
  match prefixes with
  | [] => path
  | prefix :: rest =>
      if Py.startswith path prefix then Py.slice_from path (Py.len prefix)
      else strip_first_prefix rest path
  end.

Definition ROOT_PREFIXES : list str :=
  [Py.str_of "/$bunfs/root/"; Py.str_of "/$bunfs/root"].

(** The characters of ["/\n\t\x00"]. *)
Definition STRIP_CHARS : str := [47; 10; 9; 0].

(** Lines 139-144. *)
Definition strip_path (path : str) : str :=
  Py.strip STRIP_CHARS (strip_first_prefix ROOT_PREFIXES path).

(** [f"module_{i}.js"] *)
Definition placeholder (i : Z) : str :=
  Py.str_of "module_" ++ Py.str_of_int i ++ Py.str_of ".js".

(** Lines 118-146: the path of record [i]. *)
Definition module_path (section : bytes) (path_off path_len i : Z) : str :=
  match strip_path (resolve_path section path_off path_len) with
  | [] => placeholder i
  | p => p
  end.

Definition is_allowed (b : byte) : bool :=
  let v := Py.byte_val b in
  ((32 <=? v) && (v <? 127)) || (v =? 9) || (v =? 10) || (v =? 13).

(** [sum(1 for b in contents[:1000] if ...)] *)
Definition allowed_count (contents : bytes) : Z :=
  fold_left (fun acc b => if is_allowed b then acc + 1 else acc)
            (Py.slice_to contents 1000) 0.

(** Lines 149-152. *)
Definition classify (contents : bytes) : bool := 900 <? allowed_count contents.

(** The body of the loop of line 110. *)
Definition extract_module (section : bytes) (metadata_start chunk_size i : Z)
  : result EmbeddedModule :=
  let meta_off := metadata_start + i * chunk_size in
  path_off <- Py.unpack_from_u32 section meta_off ;;
  path_len <- Py.unpack_from_u32 section (meta_off + 4) ;;
  contents_off <- Py.unpack_from_u32 section (meta_off + 8) ;;
  contents_len <- Py.unpack_from_u32 section (meta_off + 12) ;;
  let path := module_path section path_off path_len i in
  let contents := Py.slice section contents_off (contents_off + contents_len) in
  Ok (mkModule i path contents (classify contents)).

(** [for i in range(...)], with [modules] the list appended to. *)
Fixpoint for_range (body : Z -> result EmbeddedModule) (i : Z) (count : nat)
  (modules : list EmbeddedModule) : result (list EmbeddedModule) :=
  match count with
  | O => Ok modules
  | S count' =>
      m <- body i ;;
      for_range body (i + 1) count' (modules ++ [m])
  end.

Definition extract_modules (section : bytes) (footer : Footer)
  : result (list EmbeddedModule) :=
  let section_size := Py.len section in
  let modules_start := section_size - (offset_byte_count footer + 48) in
  let modules_end := modules_start + modules_ptr_offset footer in
  let metadata_start := modules_end in
  let modules_ptr_length := modules_ptr_length footer in
  match find_chunk_size modules_ptr_length with
  | None => Raise (UnknownRecordWidth modules_ptr_length)
  | Some chunk_size =>
      let num_modules := modules_ptr_length / chunk_size in
      for_range (extract_module section metadata_start chunk_size)
                0 (Z.to_nat num_modules) []
  end.

(** The literal searched for by [strip_bytecode_prefix]. *)
Definition WRAPPER : bytes :=
  Py.bytes_of "(function(exports, require, module, __filename, __dirname) {".

(** [b < 32 and b not in (9, 10, 13)] *)
Definition is_padding (b : byte) : bool :=
  let v := Py.byte_val b in
  (v <? 32) && negb ((v =? 9) || (v =? 10) || (v =? 13)).

(** The condition of the loop of line 176. *)
Definition is_padding_at (js : bytes) (i : Z) : bool :=
  (i <? Py.len js) && is_padding (nth (Z.to_nat i) js x00).

(** The loop of lines 175-177; it runs at most [len(js)] times. *)
Fixpoint skip_padding (fuel : nat) (js : bytes) (i : Z) : Z :=
  match fuel with
  | O => i
  | S fuel' => if is_padding_at js i then skip_padding fuel' js (i + 1) else i
  end.

Definition strip_bytecode_prefix (contents : bytes) : bytes :=
  let pos := Py.find contents WRAPPER 0 in
  if pos <? 0 then contents
  else
    let js := Py.slice_from contents (pos + Py.len WRAPPER) in
    let i := skip_padding (length js) js 0 in
    Py.slice_from js i.

(** ** The loop of [main]

    Lines 247-248 and 255-278, twice.  [write_modules] is the loop with
    every call to the world outside taken to return: the calls of
    [write_bytes] that the loop then makes, in order, each with the path
    that [main] joins to the output directory and the bytes written, and
    the list [text_modules] handed to the prettifier.  [main_loop] is the
    loop with its effects: a call that raises ends it, so what it writes
    is a first part of the list of [write_modules]. *)

(** [footer = parse_footer(section); modules = extract_modules(section, footer)] *)
Definition decode_section (section : bytes) : result (list EmbeddedModule) :=
  footer <- parse_footer section ;;
  extract_modules section footer.

Record Output : Type := mkOutput {
  written : list (str * bytes);
  text_modules : list str
}.

(** The body of the loop of line 255, when [mkdir], [write_bytes] and
    [print] return; [module] is the source's [mod]. *)
Definition write_module (text_only : bool) (out : Output) (module : EmbeddedModule)
  : Output :=
  if text_only && negb (is_text module) then out
  else
    let path := path module in
    let contents := contents module in
    let contents :=
      if is_text module then strip_bytecode_prefix contents else contents in
    let path :=
      if is_text module && negb (Py.endswith path (Py.str_of ".js"))
      then path ++ Py.str_of ".js" else path in
    mkOutput (written out ++ [(path, contents)])
             (if is_text module then text_modules out ++ [path]
              else text_modules out).

Definition write_modules (text_only : bool) (modules : list EmbeddedModule)
  : Output :=
  fold_left (write_module text_only) modules (mkOutput [] []).

(** The loop with its effects.  One iteration calls the world outside
    three times: [out_path.parent.mkdir], [out_path.write_bytes] and
    [print].  Each of them can raise (a path with a null character, a
    parent that is a file, a path that is a directory, a standard output
    that cannot encode the path), and the exception leaves the loop and
    [main].  [io w path contents is_text] stands for the three calls made
    in the world [w], for the path joined to the output directory, the
    bytes to write and the kind printed: it gives the world they leave
    and the exception raised, if any.  [queued] is [text_modules]. *)
Record Loop (World Exception : Type) : Type := mkLoop {
  world : World;
  queued : list str;
  raised : option Exception
}.

Arguments mkLoop {World Exception} world queued raised.
Arguments world {World Exception} l.
Arguments queued {World Exception} l.
Arguments raised {World Exception} l.

Definition loop_body {World Exception : Type}
  (io : World -> str -> bytes -> bool -> World * option Exception)
  (text_only : bool) (w : World) (text_modules : list str)
  (module : EmbeddedModule) : Loop World Exception :=
  if text_only && negb (is_text module) then mkLoop w text_modules None
  else
    let path := path module in
    let contents := contents module in
    let contents :=
      if is_text module then strip_bytecode_prefix contents else contents in
    let path :=
      if is_text module && negb (Py.endswith path (Py.str_of ".js"))
      then path ++ Py.str_of ".js" else path in
    match io w path contents (is_text module) with
    | (w', Some e) => mkLoop w' text_modules (Some e)
    | (w', None) =>
        mkLoop w' (if is_text module then text_modules ++ [path]
                   else text_modules) None
    end.

Fixpoint main_loop {World Exception : Type}
  (io : World -> str -> bytes -> bool -> World * option Exception)
  (text_only : bool) (modules : list EmbeddedModule)
  (w : World) (text_modules : list str) : Loop World Exception :=
  match modules with
  | [] => mkLoop w text_modules None
  | module :: rest =>
      let l := loop_body io text_only w text_modules module in
      match raised l with
      | Some _ => l
      | None => main_loop io text_only rest (world l) (queued l)
      end
  end.

(** ** Locating the section: [get_bun_section]

    Lines 41-67, from the result of [subprocess.run] on: the call of
    [otool] itself is outside the model.  [int] stands for Python's
    [int(text, base)], [None] being a [ValueError]. *)

Inductive exit_message : Type :=
| OtoolFailed (stderr : str)
| SectionNotFound.

Inductive outcome (A : Type) : Type :=
| Returned (a : A)
| SystemExit (message : exit_message)
| ValueError
| IndexError.

Arguments Returned {A} a.
Arguments SystemExit {A} message.
Arguments ValueError {A}.
Arguments IndexError {A}.

Record CompletedProcess : Type := mkProcess {
  returncode : Z;
  stdout : str;
  stderr : str
}.

(** The variables of the loop of line 53. *)
Record ScanState : Type := mkScan {
  in_bun_seg : bool;
  in_bun_sect : bool;
  offset : option Z;
  size : option Z
}.

(** [int(s.split()[-1], base)] *)
Definition last_field (int : Z -> str -> option Z) (base : Z) (s : str)
  : outcome Z :=
  match Py.last_item (Py.split_ws s) with
  | None => IndexError
  | Some token =>
      match int base token with
      | None => ValueError
      | Some v => Returned v
      end
  end.

(** Lines 60-63: the assignment that an [offset] or a [size] line makes. *)
Definition assign_field (int : Z -> str -> option Z) (st : ScanState) (s : str)
  : outcome ScanState :=
  if Py.startswith s (Py.str_of "offset ") then
    match last_field int 10 s with
    | Returned v =>
        Returned (mkScan (in_bun_seg st) (in_bun_sect st) (Some v) (size st))
    | SystemExit m => SystemExit m
    | ValueError => ValueError
    | IndexError => IndexError
    end
  else if Py.startswith s (Py.str_of "size ") then
    match last_field int 16 s with
    | Returned v =>
        Returned (mkScan (in_bun_seg st) (in_bun_sect st) (offset st) (Some v))
    | SystemExit m => SystemExit m
    | ValueError => ValueError
    | IndexError => IndexError
    end
  else Returned st.

(** One iteration: the variables after it, or the pair returned. *)
Definition scan_line (int : Z -> str -> option Z) (st : ScanState) (line : str)
  : outcome (ScanState + Z * Z) :=
  let s := Py.strip_ws line in
  if Py.contains s (Py.str_of "segname __BUN") then
    Returned (inl (mkScan true (in_bun_sect st) (offset st) (size st)))
  else if in_bun_seg st && Py.contains s (Py.str_of "sectname __bun") then
    Returned (inl (mkScan (in_bun_seg st) true (offset st) (size st)))
  else if in_bun_sect st then
    match assign_field int st s with
    | Returned st' =>
        match offset st', size st' with
        | Some o, Some z => Returned (inr (o, z))
        | _, _ => Returned (inl st')
        end
    | SystemExit m => SystemExit m
    | ValueError => ValueError
    | IndexError => IndexError
    end
  else Returned (inl st).

Fixpoint scan_lines (int : Z -> str -> option Z) (st : ScanState)
  (lines : list str) : outcome (Z * Z) :=
  match lines with
  | [] => SystemExit SectionNotFound
  | line :: rest =>
      match scan_line int st line with
      | Returned (inl st') => scan_lines int st' rest
      | Returned (inr found) => Returned found
      | SystemExit m => SystemExit m
      | ValueError => ValueError
      | IndexError => IndexError
      end
  end.

Definition get_bun_section (int : Z -> str -> option Z)
  (result : CompletedProcess) : outcome (Z * Z) :=
  if negb (returncode result =? 0) then SystemExit (OtoolFailed (stderr result))
  else
    scan_lines int (mkScan false false None None)
               (Py.split_char 10 (stdout result)).

(** A reader of plain digit strings, with [0x] allowed in base 16; it
    stands in for [int] where the model is evaluated.  Python's [int]
    accepts more (signs, underscores, other decimal digits). *)
Definition digit_of (c : Z) : option Z :=
  if (48 <=? c) && (c <=? 57) then Some (c - 48)
  else if (97 <=? c) && (c <=? 102) then Some (c - 87)
  else if (65 <=? c) && (c <=? 70) then Some (c - 55)
  else None.

Fixpoint digits_value (base acc : Z) (s : str) : option Z :=
  match s with
  | [] => Some acc
  | c :: r =>
      match digit_of c with
      | Some d => if d <? base then digits_value base (acc * base + d) r
                  else None
      | None => None
      end
  end.

Definition plain_int (base : Z) (token : str) : option Z :=
  match token with
  | [] => None
  | 48 :: 120 :: (_ :: _) as r =>
      if base =? 16 then digits_value 16 0 (skipn 2 r) else None
  | _ => digits_value base 0 token
  end.

(** The part of a listing of [otool -l] that describes the section. *)
Definition sample_listing : str :=
  Py.str_of "Load command 4" ++ [10]
  ++ Py.str_of "      cmd LC_SEGMENT_64" ++ [10]
  ++ Py.str_of "  segname __BUN" ++ [10]
  ++ Py.str_of "Section" ++ [10]
  ++ Py.str_of "  sectname __bun" ++ [10]
  ++ Py.str_of "   segname __BUN" ++ [10]
  ++ Py.str_of "      addr 0x0000000100a04000" ++ [10]
  ++ Py.str_of "      size 0x0000000000001f40" ++ [10]
  ++ Py.str_of "    offset 10502144" ++ [10]
  ++ Py.str_of "     align 2^14 (16384)" ++ [10].

(** ** Synthetic containers

    [pack_u32] is [struct.pack("<I", n)]; it builds the regions on which
    the decoder is evaluated below. *)

Definition byte_of_Z (n : Z) : byte :=
  match Byte.of_N (Z.to_N (n mod 256)) with
  | Some b => b
  | None => x00
  end.

Definition pack_u32 (n : Z) : bytes :=
  [byte_of_Z n; byte_of_Z (n / 256); byte_of_Z (n / 65536);
   byte_of_Z (n / 16777216)].

(** A record of [width] bytes: the four fields, then zero padding. *)
Definition pack_record (width : nat) (po pl co cl : Z) : bytes :=
  pack_u32 po ++ pack_u32 pl ++ pack_u32 co ++ pack_u32 cl
  ++ repeat x00 (width - 16).

(** The 48 bytes that end a region: four fields, sixteen bytes that
    [parse_footer] does not read, and the trailer. *)
Definition pack_footer (f : Footer) : bytes :=
  pack_u32 (offset_byte_count f) ++ pack_u32 (entrypoint_id f)
  ++ pack_u32 (modules_ptr_offset f) ++ pack_u32 (modules_ptr_length f)
  ++ repeat x00 16 ++ BUN_TRAILER.

(** The table of records, each given by its four fields. *)
Definition pack_records (width : nat) (records : list (Z * Z * Z * Z)) : bytes :=
  flat_map (fun r => let '(po, pl, co, cl) := r in
                     pack_record width po pl co cl) records.

(** A container: the data the records point into, the table, and a footer
    that places the table right after the data. *)
Definition container_footer (data : bytes) (width : nat)
  (records : list (Z * Z * Z * Z)) : Footer :=
  mkFooter (Py.len data + Py.len (pack_records width records)) 0
           (Py.len data) (Py.len (pack_records width records)).

Definition build_container (data : bytes) (width : nat)
  (records : list (Z * Z * Z * Z)) : bytes :=
  data ++ pack_records width records
  ++ pack_footer (container_footer data width records).

Definition is_u32 (n : Z) : Prop := 0 <= n < 4294967296.

Definition record_is_u32 (r : Z * Z * Z * Z) : Prop :=
  let '(po, pl, co, cl) := r in
  is_u32 po /\ is_u32 pl /\ is_u32 co /\ is_u32 cl.

Definition sample_footer : Footer := mkFooter 51 0 23 28.

(** A region with one module: the path table, five bytes of content, one
    record of 28 bytes, and the footer. *)
Definition sample_region : bytes :=
  Py.bytes_of "/$bunfs/root/a.js" ++ [x00] ++ Py.bytes_of "hello"
  ++ pack_record 28 0 17 18 5
  ++ pack_footer sample_footer.

(** ** Vocabulary of the statements *)

(** [sub] occurs in [s] at index [k]. *)
Definition occurs_at (sub s : bytes) (k : nat) : Prop :=
  exists p q, s = p ++ sub ++ q /\ length p = k.

(** [s] ends with [t]. *)
Definition ends_with (s t : bytes) : Prop := exists p, s = p ++ t.

(** The little-endian 32-bit value of the four bytes of [s] at [pos]. *)
Definition u32_at (s : bytes) (pos : nat) : Z :=
  Py.byte_val (nth pos s x00)
  + 256 * Py.byte_val (nth (pos + 1) s x00)
  + 65536 * Py.byte_val (nth (pos + 2) s x00)
  + 16777216 * Py.byte_val (nth (pos + 3) s x00).

(** Where record [i] starts, and the module built from its fields. *)
Definition record_at (metadata_start chunk_size i : Z) : nat :=
  Z.to_nat (metadata_start + i * chunk_size).

Definition module_of_record (section : bytes) (metadata_start chunk_size i : Z)
  : EmbeddedModule :=
  let r := record_at metadata_start chunk_size i in
  let contents :=
    Py.slice section (u32_at section (r + 8))
             (u32_at section (r + 8) + u32_at section (r + 12)) in
  mkModule i
    (module_path section (u32_at section r) (u32_at section (r + 4)) i)
    contents (classify contents).

(** A line of the listing that names the segment, one that names the
    section, and one that gives a field whose last word [int] reads as
    [v] in the given base. *)
Definition is_segment_line (line : str) : Prop :=
  Py.contains (Py.strip_ws line) (Py.str_of "segname __BUN") = true.

Definition is_section_line (line : str) : Prop :=
  Py.contains (Py.strip_ws line) (Py.str_of "sectname __bun") = true.

Definition is_field_line (int : Z -> str -> option Z) (name : str) (base : Z)
  (v : option Z) (line : str) : Prop :=
  Py.startswith (Py.strip_ws line) name = true
  /\ exists token,
       Py.last_item (Py.split_ws (Py.strip_ws line)) = Some token
       /\ int base token = v.

(** A line that leaves the offset and the size as they are, and a line
    that is read as a field. *)
Definition is_quiet_line (line : str) : Prop :=
  is_segment_line line \/ is_section_line line
  \/ (Py.startswith (Py.strip_ws line) (Py.str_of "offset ") = false
      /\ Py.startswith (Py.strip_ws line) (Py.str_of "size ") = false).

Definition reads_field (int : Z -> str -> option Z) (name : str) (base v : Z)
  (line : str) : Prop :=
  ~ is_segment_line line /\ ~ is_section_line line
  /\ is_field_line int name base (Some v) line.

(** The path under which [main] writes a module, and the bytes it writes. *)
Definition output_path (m : EmbeddedModule) : str :=
  if is_text m && negb (Py.endswith (path m) (Py.str_of ".js"))
  then path m ++ Py.str_of ".js" else path m.

Definition output_contents (m : EmbeddedModule) : bytes :=
  if is_text m then strip_bytecode_prefix (contents m) else contents m.

(** The writes of a list made one after the other, up to the first that
    raises; a text path is queued for the prettifier once its write has
    returned. *)
Fixpoint perform {World Exception : Type}
  (io : World -> str -> bytes -> bool -> World * option Exception)
  (writes : list (str * bytes * bool)) (w : World) (text_modules : list str)
  : Loop World Exception :=
  match writes with
  | [] => mkLoop w text_modules None
  | (p, c, t) :: rest =>
      match io w p c t with
      | (w', Some e) => mkLoop w' text_modules (Some e)
      | (w', None) =>
          perform io rest w' (if t then text_modules ++ [p] else text_modules)
      end
  end.

(** A world that is the list of the files written, where a path with a
    null character is refused, as [write_bytes] refuses it with a
    [ValueError]. *)
Definition refuse_null (w : list (str * bytes)) (p : str) (c : bytes)
  (t : bool) : list (str * bytes) * option unit :=
  if Py.char_in 0 p then (w, Some tt) else (w ++ [(p, c)], None).

(** The number of padding bytes [js] starts with. *)
Fixpoint leading_padding (js : bytes) : nat :=
  match js with
  | [] => 0
  | b :: r => if is_padding b then S (leading_padding r) else 0
  end.

(** A region of 76 bytes: one record of 28 bytes whose contents are
    declared to be the 1000 bytes from offset 20, and the footer. *)
Definition overlong_footer : Footer := mkFooter 28 0 0 28.

Definition overlong_region : bytes :=
  pack_record 28 0 0 20 1000 ++ pack_footer overlong_footer.

(** A Unicode scalar value, and the byte values of its UTF-8 encoding. *)
Definition is_scalar (cp : Z) : Prop :=
  0 <= cp < 0xD800 \/ 0xE000 <= cp < 0x110000.

Definition utf8_encode (cp : Z) : list Z :=
  if cp <? 0x80 then [cp]
  else if cp <? 0x800 then [0xC0 + cp / 64; 0x80 + cp mod 64]
  else if cp <? 0x10000 then
    [0xE0 + cp / 4096; 0x80 + (cp / 64) mod 64; 0x80 + cp mod 64]
  else
    [0xF0 + cp / 262144; 0x80 + (cp / 4096) mod 64;
     0x80 + (cp / 64) mod 64; 0x80 + cp mod 64].

(** A trail byte, and a byte that can come second after the lead byte
    [b]: a trail byte that makes the sequence neither overlong, nor a
    surrogate, nor larger than U+10FFFF. *)
Definition is_trail (c : Z) : Prop := 0x80 <= c < 0xC0.

Definition continues (b c : Z) : Prop :=
  is_trail c
  /\ (b = 0xE0 -> 0xA0 <= c) /\ (b = 0xED -> c < 0xA0)
  /\ (b = 0xF0 -> 0x90 <= c) /\ (b = 0xF4 -> c < 0x90).

(** What [bytes.decode("utf-8", errors="replace")] does, case by case:
    ASCII bytes stand for themselves and the encoding of a scalar value
    for that value; a byte that cannot start a sequence, and a sequence
    that is cut by the end of the input or broken by a byte that cannot
    come next, become one U+FFFD, and the decoding goes on with the byte
    that broke the sequence. *)
Definition decodes_with_replacement (decode : bytes -> str) : Prop :=
  decode [] = []
  /\ (forall a r : bytes,
        forallb (fun b => Py.byte_val b <? 128) a = true ->
        decode (a ++ r) = map Py.byte_val a ++ decode r)
  /\ (forall (cp : Z) (r : bytes),
        is_scalar cp ->
        decode (map byte_of_Z (utf8_encode cp) ++ r) = cp :: decode r)
  /\ (forall (b : byte) (r : bytes),
        0x80 <= Py.byte_val b < 0xC2 \/ 0xF5 <= Py.byte_val b ->
        decode (b :: r) = 0xFFFD :: decode r)
  /\ (forall b : byte,
        0xC2 <= Py.byte_val b < 0xF5 -> decode [b] = [0xFFFD])
  /\ (forall (b c : byte) (r : bytes),
        0xC2 <= Py.byte_val b < 0xF5 ->
        ~ continues (Py.byte_val b) (Py.byte_val c) ->
        decode (b :: c :: r) = 0xFFFD :: decode (c :: r))
  /\ (forall b c : byte,
        0xE0 <= Py.byte_val b < 0xF5 ->
        continues (Py.byte_val b) (Py.byte_val c) ->
        decode [b; c] = [0xFFFD])
  /\ (forall (b c d : byte) (r : bytes),
        0xE0 <= Py.byte_val b < 0xF5 ->
        continues (Py.byte_val b) (Py.byte_val c) ->
        ~ is_trail (Py.byte_val d) ->
        decode (b :: c :: d :: r) = 0xFFFD :: decode (d :: r))
  /\ (forall b c d : byte,
        0xF0 <= Py.byte_val b < 0xF5 ->
        continues (Py.byte_val b) (Py.byte_val c) ->
        is_trail (Py.byte_val d) ->
        decode [b; c; d] = [0xFFFD])
  /\ (forall (b c d e : byte) (r : bytes),
        0xF0 <= Py.byte_val b < 0xF5 ->
        continues (Py.byte_val b) (Py.byte_val c) ->
        is_trail (Py.byte_val d) ->
        ~ is_trail (Py.byte_val e) ->
        decode (b :: c :: d :: e :: r) = 0xFFFD :: decode (e :: r)).

(** A region of 1015 bytes that is one path entry: the root, [/a], a
    thousand [b] and the null byte that ends it. *)
Definition long_entry_region : bytes :=
  BUNFS_ROOT ++ [x2f; x61] ++ repeat x62 1000 ++ [x00].

(** Settles the comparisons of a goal, with the equations of the
    divisions in it. *)
Ltac decide_tests :=
  repeat match goal with
    | |- context [?a <? ?b] =>
        destruct (Z.ltb_spec a b);
        try (exfalso; Z.to_euclidean_division_equations; lia)
    | |- context [?a <=? ?b] =>
        destruct (Z.leb_spec a b);
        try (exfalso; Z.to_euclidean_division_equations; lia)
    | |- context [?a =? ?b] =>
        destruct (Z.eqb_spec a b);
        try (exfalso; Z.to_euclidean_division_equations; lia)
    end.

Ltac decide_bytes :=
  unfold continues, is_trail in *; unfold Py.is_continuation;
  decide_tests; cbn [andb orb negb]; reflexivity || lia.

(** ** The model on concrete inputs *)

Example decode_euro :
  Py.decode [xe2; x82; xac] = [0x20AC].
Proof. reflexivity. Qed.

Example decode_truncated :
  Py.decode [x61; xe2; x82] = [0x61; 0xFFFD].
Proof. reflexivity. Qed.

Example decode_surrogate :
  Py.decode [xed; xa0; x80] = [0xFFFD; 0xFFFD; 0xFFFD].
Proof. reflexivity. Qed.

Example decode_broken_four :
  Py.decode [xf0; x90; x80; x28] = [0xFFFD; 0x28].
Proof. reflexivity. Qed.

Example decode_astral :
  Py.decode [xf0; x9f; x98; x80] = [0x1F600].
Proof. reflexivity. Qed.

Example str_of_int_42 : Py.str_of_int 42 = Py.str_of "42".
Proof. reflexivity. Qed.

Example strip_example :
  Py.strip (Py.str_of "/") (Py.str_of "//ab/c/") = Py.str_of "ab/c".
Proof. reflexivity. Qed.

Example trailer_length : Py.len BUN_TRAILER = 16.
Proof. reflexivity. Qed.

Example wrapper_length : Py.len WRAPPER = 60.
Proof. reflexivity. Qed.

Example placeholder_7 : placeholder 7 = Py.str_of "module_7.js".
Proof. reflexivity. Qed.

Example sample_listing_located :
  get_bun_section plain_int (mkProcess 0 sample_listing [])
  = Returned (10502144, 8000).
Proof. reflexivity. Qed.

Example sample_region_decodes :
  (footer <- parse_footer sample_region ;;
   extract_modules sample_region footer)
  = Ok [mkModule 0 (Py.str_of "a.js") (Py.bytes_of "hello") false].
Proof. reflexivity. Qed.

Example short_region_wraps :
  parse_footer (repeat x00 10 ++ BUN_TRAILER)
  = Ok (mkFooter 0 755630080 539831597 560887106).
Proof. reflexivity. Qed.

Example strip_skips_padding :
  strip_bytecode_prefix ([x61] ++ WRAPPER ++ [x00; x01; x0a; x00; x62])
  = [x0a; x00; x62].
Proof. reflexivity. Qed.

(** ** Facts about the primitives *)

Lemma clamp_index_nonneg n i :
  0 <= n -> 0 <= i -> Py.clamp_index n i = Z.min n i.
Proof.
  intros Hn Hi. unfold Py.clamp_index.
  destruct (i <? 0) eqn:E1; [apply Z.ltb_lt in E1; lia|].
  rewrite E1.
  destruct (n <? i) eqn:E2;
    [apply Z.ltb_lt in E2 | apply Z.ltb_ge in E2]; lia.
Qed.

Section SliceFacts.

Context {A : Type}.
Implicit Types s : list A.

Lemma len_nonneg s : 0 <= Py.len s.
Proof. unfold Py.len. lia. Qed.

Lemma len_app s t : Py.len (s ++ t) = Py.len s + Py.len t.
Proof. unfold Py.len. rewrite length_app. lia. Qed.

(** With bounds that are not negative a slice is a [firstn] of a [skipn];
    the clamping to the length is what [firstn] and [skipn] do anyway. *)
Lemma slice_nonneg s lo hi :
  0 <= lo -> 0 <= hi ->
  Py.slice s lo hi = firstn (Z.to_nat (hi - lo)) (skipn (Z.to_nat lo) s).
Proof.
  intros Hlo Hhi. unfold Py.slice.
  rewrite !clamp_index_nonneg by (try apply len_nonneg; assumption).
  unfold Py.len. set (n := length s).
  destruct (Z_lt_le_dec (Z.of_nat n) lo) as [E3|E3].
  - rewrite !skipn_all2 by (fold n; lia). now rewrite !firstn_nil.
  - rewrite (Z.min_r _ lo) by lia.
    destruct (Z_lt_le_dec (Z.of_nat n) hi) as [E4|E4].
    + rewrite (Z.min_l _ hi) by lia.
      rewrite !firstn_all2; [reflexivity | |];
        rewrite length_skipn; fold n; lia.
    + now rewrite (Z.min_r _ hi) by lia.
Qed.

Lemma slice_to_firstn s hi :
  0 <= hi -> Py.slice_to s hi = firstn (Z.to_nat hi) s.
Proof.
  intros H. unfold Py.slice_to. rewrite slice_nonneg by lia.
  now rewrite Z.sub_0_r.
Qed.

Lemma slice_from_skipn s lo :
  0 <= lo -> Py.slice_from s lo = skipn (Z.to_nat lo) s.
Proof.
  intros H. unfold Py.slice_from.
  rewrite slice_nonneg by (pose proof (len_nonneg s); lia).
  apply firstn_all2. rewrite length_skipn. unfold Py.len. lia.
Qed.

Lemma nth_error_firstn_lt n s j :
  nth_error (firstn n s) j = if (j <? n)%nat then nth_error s j else None.
Proof.
  revert s j. induction n as [|n IH]; intros s j.
  - destruct j; reflexivity.
  - destruct s as [|x s].
    + destruct j; [reflexivity|]. simpl nth_error.
      now destruct (S j <? S n)%nat.
    + destruct j as [|j]; [reflexivity|]. simpl firstn. simpl nth_error.
      rewrite IH. reflexivity.
Qed.

(** Byte [j] of [s[lo:hi]] is byte [lo + j] of [s], for [j] below
    [hi - lo]; beyond the end of [s] neither exists. *)
Lemma nth_error_slice s lo hi j :
  0 <= lo -> 0 <= hi ->
  nth_error (Py.slice s lo hi) j =
  if Z.of_nat j <? hi - lo then nth_error s (Z.to_nat lo + j) else None.
Proof.
  intros Hlo Hhi. rewrite slice_nonneg by assumption.
  rewrite nth_error_firstn_lt, nth_error_skipn.
  destruct (Z.of_nat j <? hi - lo) eqn:E;
    [apply Z.ltb_lt in E | apply Z.ltb_ge in E].
  - replace (j <? Z.to_nat (hi - lo))%nat with true; [reflexivity|].
    symmetry. apply Nat.ltb_lt. lia.
  - replace (j <? Z.to_nat (hi - lo))%nat with false; [reflexivity|].
    symmetry. apply Nat.ltb_ge. lia.
Qed.

Lemma length_slice s lo hi :
  0 <= lo -> 0 <= hi ->
  Py.len (Py.slice s lo hi) = Z.max 0 (Z.min (hi - lo) (Py.len s - lo)).
Proof.
  intros Hlo Hhi. rewrite slice_nonneg by assumption. unfold Py.len.
  rewrite length_firstn, length_skipn. lia.
Qed.

End SliceFacts.

Section FindFacts.

Variable sub : bytes.

Lemma bytes_eqb_eq (a b : bytes) : bytes_eqb a b = true <-> a = b.
Proof.
  revert b. induction a as [|x a IH]; intros [|y b]; simpl;
    try (split; [discriminate | discriminate]); [tauto|].
  rewrite andb_true_iff, IH. split.
  - intros [H1 H2]. apply byte_dec_bl in H1. congruence.
  - intros H. injection H as -> ->. split; [now apply byte_dec_lb | reflexivity].
Qed.

Lemma has_prefix_iff (s : bytes) :
  Py.has_prefix sub s = true <-> exists q, s = sub ++ q.
Proof.
  revert s. induction sub as [|x sub' IH]; intros s; simpl.
  - split; [intros _; now exists s | reflexivity].
  - destruct s as [|y s].
    + split; [discriminate | intros [q Hq]; discriminate].
    + rewrite andb_true_iff, IH. split.
      * intros [H1 [q ->]]. apply byte_dec_bl in H1. subst. now exists q.
      * intros [q Hq]. injection Hq as -> ->.
        split; [now apply byte_dec_lb | now exists q].
Qed.

Lemma occurs_at_0 (s : bytes) :
  occurs_at sub s 0 <-> Py.has_prefix sub s = true.
Proof.
  rewrite has_prefix_iff. split.
  - intros (p & q & -> & Hp). apply length_zero_iff_nil in Hp. subst.
    now exists q.
  - intros [q ->]. now exists [], q.
Qed.

Lemma occurs_at_S (x : byte) (s : bytes) (k : nat) :
  occurs_at sub (x :: s) (S k) <-> occurs_at sub s k.
Proof.
  split.
  - intros (p & q & E & Hp). destruct p as [|y p]; [discriminate|].
    simpl in E, Hp. injection E as -> ->. exists p, q. split; congruence.
  - intros (p & q & -> & Hp). exists (x :: p), q. simpl. split; congruence.
Qed.

Lemma occurs_at_bound (s : bytes) (k : nat) :
  occurs_at sub s k -> (k + length sub <= length s)%nat.
Proof.
  intros (p & q & -> & <-). rewrite !length_app. lia.
Qed.

Lemma occurs_at_skipn (n : nat) (s : bytes) (k : nat) :
  (n <= length s)%nat ->
  occurs_at sub (skipn n s) k <-> occurs_at sub s (n + k).
Proof.
  intros Hn. split.
  - intros (p & q & E & Hp). exists (firstn n s ++ p), q. split.
    + rewrite <- app_assoc, <- E. symmetry. apply firstn_skipn.
    + rewrite length_app, length_firstn. lia.
  - intros (p & q & -> & Hp). exists (skipn n p), q. split.
    + rewrite skipn_app. replace (n - length p)%nat with 0%nat by lia.
      reflexivity.
    + rewrite length_skipn. lia.
Qed.

(** [find_at] returns the first occurrence, shifted by [pos]. *)
Lemma find_at_spec (s : bytes) (pos : Z) :
  (Py.find_at sub s pos = -1 /\ forall k, ~ occurs_at sub s k)
  \/ (exists k, Py.find_at sub s pos = pos + Z.of_nat k
                /\ occurs_at sub s k
                /\ forall k', (k' < k)%nat -> ~ occurs_at sub s k').
Proof.
  revert pos. induction s as [|x s IH]; intros pos; simpl.
  - destruct (Py.has_prefix sub []) eqn:E.
    + right. exists 0%nat. rewrite occurs_at_0. repeat split; [lia | assumption |].
      intros k' Hk'. lia.
    + left. split; [reflexivity|]. intros k Hk.
      pose proof (occurs_at_bound _ _ Hk) as Hb. simpl in Hb.
      assert (k = 0)%nat by lia. subst. apply occurs_at_0 in Hk. congruence.
  - destruct (Py.has_prefix sub (x :: s)) eqn:E.
    + right. exists 0%nat. rewrite occurs_at_0. repeat split; [lia | assumption |].
      intros k' Hk'. lia.
    + destruct (IH (pos + 1)) as [[Hr Hn] | (k & Hr & Ho & Hm)].
      * left. split; [assumption|]. intros [|k] Hk.
        -- apply occurs_at_0 in Hk. congruence.
        -- apply occurs_at_S in Hk. now apply (Hn k).
      * right. exists (S k). repeat split.
        -- rewrite Hr. lia.
        -- now apply occurs_at_S.
        -- intros [|k'] Hk' Hk''.
           ++ apply occurs_at_0 in Hk''. congruence.
           ++ apply occurs_at_S in Hk''. apply (Hm k'); [lia | assumption].
Qed.

(** [rfind_at] returns the last occurrence, shifted by [pos]. *)
Lemma rfind_at_spec (s : bytes) (pos : Z) :
  0 <= pos ->
  (Py.rfind_at sub s pos = -1 /\ forall k, ~ occurs_at sub s k)
  \/ (exists k, Py.rfind_at sub s pos = pos + Z.of_nat k
                /\ occurs_at sub s k
                /\ forall k', (k < k')%nat -> ~ occurs_at sub s k').
Proof.
  revert pos. induction s as [|x s IH]; intros pos Hpos; simpl.
  - destruct (Py.has_prefix sub []) eqn:E.
    + right. exists 0%nat. rewrite occurs_at_0. repeat split; [lia | assumption |].
      intros k' Hk' Hk''. apply occurs_at_bound in Hk''. simpl in Hk''. lia.
    + left. split; [reflexivity|]. intros k Hk.
      pose proof (occurs_at_bound _ _ Hk) as Hb. simpl in Hb.
      assert (k = 0)%nat by lia. subst. apply occurs_at_0 in Hk. congruence.
  - destruct (IH (pos + 1)) as [[Hr Hn] | (k & Hr & Ho & Hm)]; [lia | |].
    + rewrite Hr. simpl.
      destruct (Py.has_prefix sub (x :: s)) eqn:E.
      * right. exists 0%nat. rewrite occurs_at_0. repeat split; [lia | assumption |].
        intros [|k'] Hk' Hk''; [lia|]. apply occurs_at_S in Hk''.
        now apply (Hn k').
      * left. split; [reflexivity|]. intros [|k] Hk.
        -- apply occurs_at_0 in Hk. congruence.
        -- apply occurs_at_S in Hk. now apply (Hn k).
    + rewrite Hr. replace (0 <=? pos + 1 + Z.of_nat k) with true
        by (symmetry; apply Z.leb_le; lia).
      right. exists (S k). repeat split.
      * lia.
      * now apply occurs_at_S.
      * intros [|k'] Hk' Hk''; [lia|]. apply occurs_at_S in Hk''.
        apply (Hm k'); [lia | assumption].
Qed.

End FindFacts.

(** ** Reading fields *)

Lemma byte_val_range (b : byte) : 0 <= Py.byte_val b < 256.
Proof.
  unfold Py.byte_val. pose proof (Byte.to_N_bounded b). lia.
Qed.

Lemma u32_at_range (s : bytes) (pos : nat) : 0 <= u32_at s pos < 4294967296.
Proof.
  unfold u32_at.
  pose proof (byte_val_range (nth pos s x00)).
  pose proof (byte_val_range (nth (pos + 1) s x00)).
  pose proof (byte_val_range (nth (pos + 2) s x00)).
  pose proof (byte_val_range (nth (pos + 3) s x00)).
  lia.
Qed.

Lemma nth_skipn_add {A : Type} (n k : nat) (s : list A) (d : A) :
  nth k (skipn n s) d = nth (n + k) s d.
Proof.
  revert s. induction n as [|n IH]; intros s; [reflexivity|].
  destruct s as [|x s]; [now destruct k | apply IH].
Qed.

Lemma le_int_four (t : bytes) :
  (4 <= length t)%nat ->
  Py.le_int (firstn 4 t) =
  Py.byte_val (nth 0 t x00) + 256 * Py.byte_val (nth 1 t x00)
  + 65536 * Py.byte_val (nth 2 t x00) + 16777216 * Py.byte_val (nth 3 t x00).
Proof.
  destruct t as [|a [|b [|c [|d t]]]]; simpl length; try lia.
  intros _. cbn [firstn Py.le_int nth]. lia.
Qed.

Lemma unpack_in_bounds (s : bytes) (off : Z) :
  0 <= off -> off + 4 <= Py.len s ->
  Py.unpack_from_u32 s off = Ok (u32_at s (Z.to_nat off)).
Proof.
  intros H0 H4. unfold Py.unpack_from_u32.
  replace (off <? 0) with false by (symmetry; apply Z.ltb_ge; lia).
  cbn [andb].
  replace (Py.len s - off <? 4) with false by (symmetry; apply Z.ltb_ge; lia).
  f_equal. rewrite le_int_four.
  - unfold u32_at. rewrite !nth_skipn_add. now rewrite Nat.add_0_r.
  - rewrite length_skipn. unfold Py.len in H4. lia.
Qed.

Lemma unpack_beyond_end (s : bytes) (off : Z) :
  0 <= off -> Py.len s < off + 4 ->
  Py.unpack_from_u32 s off = Raise StructError.
Proof.
  intros H0 H4. unfold Py.unpack_from_u32.
  replace (off <? 0) with false by (symmetry; apply Z.ltb_ge; lia).
  cbn [andb].
  now replace (Py.len s - off <? 4) with true by (symmetry; apply Z.ltb_lt; lia).
Qed.

Lemma unpack_raises_struct_error (s : bytes) (off : Z) (e : exn) :
  Py.unpack_from_u32 s off = Raise e -> e = StructError.
Proof.
  unfold Py.unpack_from_u32.
  destruct (_ && _); [congruence|].
  destruct (_ && _); [congruence|].
  destruct (_ <? 4); congruence.
Qed.

(** ** The loop *)

Lemma bind_ok {A B : Type} (c : result A) (k : A -> result B) (a : A) :
  c = Ok a -> bind c k = k a.
Proof. now intros ->. Qed.

Lemma bind_raise {A B : Type} (c : result A) (k : A -> result B) (e : exn) :
  c = Raise e -> bind c k = Raise e.
Proof. now intros ->. Qed.

Section LoopFacts.

Variable body : Z -> result EmbeddedModule.

(** When every iteration succeeds the loop returns the modules in index
    order, after those it started with. *)
Lemma for_range_ok (f : Z -> EmbeddedModule) (count : nat) :
  forall (i : Z) (acc : list EmbeddedModule),
  (forall j, i <= j < i + Z.of_nat count -> body j = Ok (f j)) ->
  for_range body i count acc =
  Ok (acc ++ map (fun k => f (i + Z.of_nat k)) (seq 0 count)).
Proof.
  induction count as [|c IH]; intros i acc Hb.
  - simpl. now rewrite app_nil_r.
  - cbn [for_range]. rewrite (bind_ok _ _ (f i)) by (apply Hb; lia).
    rewrite IH by (intros j Hj; apply Hb; lia).
    f_equal. rewrite <- app_assoc. f_equal. cbn [seq map app].
    rewrite Z.add_0_r. f_equal.
    rewrite <- seq_shift, map_map. apply map_ext. intros k.
    f_equal. lia.
Qed.

(** An exception of the loop is an exception of one of its iterations. *)
Lemma for_range_raise (count : nat) :
  forall (i : Z) (acc : list EmbeddedModule) (e : exn),
  for_range body i count acc = Raise e ->
  exists j, i <= j < i + Z.of_nat count /\ body j = Raise e.
Proof.
  induction count as [|c IH]; intros i acc e H; [discriminate|].
  cbn [for_range] in H. destruct (body i) as [m|e'] eqn:E.
  - simpl in H. apply IH in H. destruct H as (j & Hj & Hr).
    exists j. split; [lia | assumption].
  - simpl in H. injection H as ->. exists i. split; [lia | assumption].
Qed.

(** A failing iteration makes the loop fail. *)
Lemma for_range_fails (count : nat) :
  forall (i : Z) (acc : list EmbeddedModule) (j : Z) (e : exn),
  i <= j < i + Z.of_nat count -> body j = Raise e ->
  exists e', for_range body i count acc = Raise e'.
Proof.
  induction count as [|c IH]; intros i acc j e Hj Hb; [lia|].
  cbn [for_range]. destruct (body i) as [m|e'] eqn:E.
  - simpl. destruct (Z.eq_dec i j) as [->|Hne]; [congruence|].
    apply (IH (i + 1) _ j e); [lia | assumption].
  - simpl. now exists e'.
Qed.

End LoopFacts.

Lemma extract_module_raises_struct_error
  (section : bytes) (metadata_start chunk_size i : Z) (e : exn) :
  extract_module section metadata_start chunk_size i = Raise e ->
  e = StructError.
Proof.
  unfold extract_module.
  repeat match goal with
  | |- context [bind (Py.unpack_from_u32 ?s ?o) _] =>
      let E := fresh "E" in
      destruct (Py.unpack_from_u32 s o) eqn:E; simpl;
      [| intros H; injection H as <-;
         now apply unpack_raises_struct_error in E]
  end.
  discriminate.
Qed.

Lemma extract_module_in_bounds
  (section : bytes) (metadata_start chunk_size i : Z) :
  0 <= metadata_start + i * chunk_size ->
  metadata_start + i * chunk_size + 16 <= Py.len section ->
  extract_module section metadata_start chunk_size i =
  Ok (module_of_record section metadata_start chunk_size i).
Proof.
  intros H0 H16. unfold extract_module, module_of_record, record_at.
  set (off := metadata_start + i * chunk_size) in *.
  rewrite (unpack_in_bounds section off) by lia. simpl bind.
  rewrite (unpack_in_bounds section (off + 4)) by lia. simpl bind.
  rewrite (unpack_in_bounds section (off + 8)) by lia. simpl bind.
  rewrite (unpack_in_bounds section (off + 12)) by lia. simpl bind.
  replace (Z.to_nat (off + 4)) with (Z.to_nat off + 4)%nat by lia.
  replace (Z.to_nat (off + 8)) with (Z.to_nat off + 8)%nat by lia.
  replace (Z.to_nat (off + 12)) with (Z.to_nat off + 12)%nat by lia.
  reflexivity.
Qed.

Lemma extract_module_beyond_end
  (section : bytes) (metadata_start chunk_size i : Z) :
  0 <= metadata_start + i * chunk_size ->
  Py.len section < metadata_start + i * chunk_size + 16 ->
  extract_module section metadata_start chunk_size i = Raise StructError.
Proof.
  intros H0 H16.
  destruct (extract_module section metadata_start chunk_size i) as [m|e] eqn:E.
  - exfalso. unfold extract_module in E.
    set (off := metadata_start + i * chunk_size) in *.
    rewrite (unpack_beyond_end section (off + 12)) in E by lia.
    destruct (Py.unpack_from_u32 section off); [|discriminate].
    destruct (Py.unpack_from_u32 section (off + 4)); [|discriminate].
    destruct (Py.unpack_from_u32 section (off + 8)); discriminate.
  - f_equal. now apply extract_module_raises_struct_error in E.
Qed.

(** ** Chunk size inference *)

Lemma first_divisor_none (candidates : list Z) (n : Z) :
  first_divisor candidates n = None <->
  Forall (fun c => n mod c <> 0) candidates.
Proof.
  induction candidates as [|c cs IH]; simpl.
  - split; [constructor | reflexivity].
  - destruct (n mod c =? 0) eqn:E.
    + apply Z.eqb_eq in E. split; [discriminate|].
      intros H. inversion H; subst. contradiction.
    + apply Z.eqb_neq in E. rewrite IH. split.
      * intros H. now constructor.
      * intros H. now inversion H.
Qed.

Lemma first_divisor_some (candidates : list Z) (n w : Z) :
  first_divisor candidates n = Some w <->
  exists earlier later,
    candidates = earlier ++ w :: later
    /\ n mod w = 0
    /\ Forall (fun c => n mod c <> 0) earlier.
Proof.
  induction candidates as [|c cs IH]; simpl.
  - split; [discriminate|]. intros (l1 & l2 & E & _).
    now destruct l1.
  - destruct (n mod c =? 0) eqn:E.
    + apply Z.eqb_eq in E. split.
      * intros H. injection H as <-. exists [], cs. repeat split; auto.
      * intros ([|c' l1] & l2 & Hc & Hw & Hf).
        -- simpl in Hc. congruence.
        -- simpl in Hc. injection Hc as <- ->. inversion Hf; subst.
           contradiction.
    + apply Z.eqb_neq in E. rewrite IH. split.
      * intros (l1 & l2 & -> & Hw & Hf). exists (c :: l1), l2.
        repeat split; auto.
      * intros ([|c' l1] & l2 & Hc & Hw & Hf).
        -- simpl in Hc. injection Hc as <- ->. contradiction.
        -- simpl in Hc. injection Hc as <- ->. inversion Hf; subst.
           now exists l1, l2.
Qed.

(** C3: the candidate widths are tried in the fixed order 52, 28, 32; the
    width inferred is the first candidate that divides
    [modules_ptr_length] exactly; and [extract_modules] raises the
    chunk-size assertion error if and only if no candidate divides it. *)
Theorem C3_chunk_size_inference (section : bytes) (footer : Footer) :
  CHUNK_SIZES = [52; 28; 32]
  /\ (forall w,
        find_chunk_size (modules_ptr_length footer) = Some w <->
        exists earlier later,
          CHUNK_SIZES = earlier ++ w :: later
          /\ modules_ptr_length footer mod w = 0
          /\ Forall (fun c => modules_ptr_length footer mod c <> 0) earlier)
  /\ ((exists n, extract_modules section footer = Raise (UnknownRecordWidth n))
      <-> Forall (fun c => modules_ptr_length footer mod c <> 0) CHUNK_SIZES).
Proof.
  split; [reflexivity|]. split.
  - intros w. apply first_divisor_some.
  - rewrite <- first_divisor_none. fold (find_chunk_size (modules_ptr_length footer)).
    unfold extract_modules.
    destruct (find_chunk_size (modules_ptr_length footer)) as [w|] eqn:E.
    + split; [|discriminate]. intros [n H]. exfalso.
      apply for_range_raise in H. destruct H as (j & _ & H).
      apply extract_module_raises_struct_error in H. discriminate.
    + split; [reflexivity|]. intros _. now eexists.
Qed.

Lemma C3_chunk_size_inference_witness :
  (exists n, extract_modules [] (mkFooter 0 0 0 5) = Raise (UnknownRecordWidth n))
  /\ find_chunk_size 56 = Some 28.
Proof.
  split.
  - apply (proj2 (proj2 (C3_chunk_size_inference [] (mkFooter 0 0 0 5)))).
    repeat constructor; discriminate.
  - apply (proj1 (proj2 (C3_chunk_size_inference [] (mkFooter 0 0 0 56)))).
    exists [52], [32]. repeat split.
    repeat constructor; discriminate.
Defined.

(** C10: when [modules_ptr_length] is 0 the first candidate, 52, is
    selected, and [extract_modules] returns the empty list, for every
    region and whatever the other footer fields are. *)
Theorem C10_empty_index (section : bytes) (footer : Footer) :
  modules_ptr_length footer = 0 ->
  find_chunk_size (modules_ptr_length footer) = Some 52
  /\ extract_modules section footer = Ok [].
Proof.
  intros H. unfold extract_modules. rewrite H. split; reflexivity.
Qed.

Lemma C10_empty_index_witness :
  find_chunk_size 0 = Some 52
  /\ extract_modules [x01; x02] (mkFooter 7 1 9 0) = Ok [].
Proof.
  apply (C10_empty_index [x01; x02] (mkFooter 7 1 9 0)). reflexivity.
Defined.

(** ** Decoding the module index *)

Lemma chunk_size_cases (n w : Z) :
  find_chunk_size n = Some w -> w = 52 \/ w = 28 \/ w = 32.
Proof.
  unfold find_chunk_size, CHUNK_SIZES. cbn [first_divisor].
  destruct (n mod 52 =? 0); [intros H; injection H; lia|].
  destruct (n mod 28 =? 0); [intros H; injection H; lia|].
  destruct (n mod 32 =? 0); [intros H; injection H; lia|].
  discriminate.
Qed.

(** When every record lies inside the region the loop yields the module
    of each record, in order. *)
Lemma extract_modules_in_bounds (section : bytes) (footer : Footer) (w : Z) :
  find_chunk_size (modules_ptr_length footer) = Some w ->
  let metadata_start :=
    Py.len section - (offset_byte_count footer + 48)
    + modules_ptr_offset footer in
  (forall i, 0 <= i < modules_ptr_length footer / w ->
     0 <= metadata_start + i * w
     /\ metadata_start + i * w + 16 <= Py.len section) ->
  extract_modules section footer =
  Ok (map (fun k => module_of_record section metadata_start w (Z.of_nat k))
          (seq 0 (Z.to_nat (modules_ptr_length footer / w)))).
Proof.
  intros Hw ms Hb. unfold extract_modules. rewrite Hw. fold ms.
  rewrite (for_range_ok _ (module_of_record section ms w)).
  - reflexivity.
  - intros j Hj. apply extract_module_in_bounds; apply Hb; lia.
Qed.

(** C1: when a chunk size [w] is inferred and the sixteen field bytes of
    every record lie inside the region, [extract_modules] returns exactly
    [modules_ptr_length / w] modules; module [i] has index [i] and its
    contents are, byte for byte, the region bytes at
    [contents_off .. contents_off + contents_len), the four fields of
    record [i] being the little-endian values at sub-offsets 0, 4, 8 and
    12 of [metadata_start + i * w]; when that range lies inside the region
    the contents are [contents_len] bytes long.  Only those sixteen bytes
    of a record are read, whatever the chunk size. *)
Theorem C1_index_decoding (section : bytes) (footer : Footer) (w : Z) :
  find_chunk_size (modules_ptr_length footer) = Some w ->
  0 <= modules_ptr_length footer ->
  let metadata_start :=
    Py.len section - (offset_byte_count footer + 48)
    + modules_ptr_offset footer in
  (forall i, 0 <= i < modules_ptr_length footer / w ->
     0 <= metadata_start + i * w
     /\ metadata_start + i * w + 16 <= Py.len section) ->
  exists modules,
    extract_modules section footer = Ok modules
    /\ Z.of_nat (length modules) = modules_ptr_length footer / w
    /\ forall i : nat,
         Z.of_nat i < modules_ptr_length footer / w ->
         exists m,
           nth_error modules i = Some m
           /\ index m = Z.of_nat i
           /\ let r := Z.to_nat (metadata_start + Z.of_nat i * w) in
              let path_off := u32_at section r in
              let path_len := u32_at section (r + 4) in
              let contents_off := u32_at section (r + 8) in
              let contents_len := u32_at section (r + 12) in
              path m = module_path section path_off path_len (Z.of_nat i)
              /\ (forall j : nat,
                    nth_error (contents m) j =
                    if Z.of_nat j <? contents_len
                    then nth_error section (Z.to_nat contents_off + j)
                    else None)
              /\ (contents_off + contents_len <= Py.len section ->
                  Py.len (contents m) = contents_len).
Proof.
  intros Hw Hn ms Hb.
  assert (0 < w) as Hpos by (apply chunk_size_cases in Hw; lia).
  assert (0 <= modules_ptr_length footer / w) as Hq
    by (apply Z.div_pos; lia).
  eexists. split; [apply (extract_modules_in_bounds _ _ _ Hw Hb)|].
  fold ms. split.
  - rewrite length_map, length_seq. lia.
  - intros i Hi.
    exists (module_of_record section ms w (Z.of_nat i)).
    split; [|split; [reflexivity|]].
    + rewrite nth_error_map, nth_error_seq.
      replace (i <? _)%nat with true by (symmetry; apply Nat.ltb_lt; lia).
      reflexivity.
    + cbv zeta. unfold module_of_record, record_at. cbn [path contents].
      split; [reflexivity|].
      pose proof (u32_at_range section
                    (Z.to_nat (ms + Z.of_nat i * w) + 8)) as H8.
      pose proof (u32_at_range section
                    (Z.to_nat (ms + Z.of_nat i * w) + 12)) as H12.
      split.
      * intros j. rewrite nth_error_slice by lia.
        now replace (u32_at section (Z.to_nat (ms + Z.of_nat i * w) + 8)
                 + u32_at section (Z.to_nat (ms + Z.of_nat i * w) + 12)
                 - u32_at section (Z.to_nat (ms + Z.of_nat i * w) + 8))
          with (u32_at section (Z.to_nat (ms + Z.of_nat i * w) + 12)) by lia.
      * intros Hin. rewrite length_slice by lia. lia.
Qed.

Lemma C1_index_decoding_witness :
  exists modules,
    extract_modules sample_region sample_footer = Ok modules
    /\ Z.of_nat (length modules) = 1
    /\ exists m, nth_error modules 0 = Some m
                 /\ nth_error (contents m) 4 = nth_error sample_region 22.
Proof.
  destruct (C1_index_decoding sample_region sample_footer 28)
    as (modules & Hrun & Hlen & Hmods).
  - reflexivity.
  - vm_compute. discriminate.
  - intros i Hi.
    assert (i = 0) as ->
      by (change (modules_ptr_length sample_footer / 28) with 1 in Hi; lia).
    vm_compute. split; discriminate.
  - exists modules. split; [exact Hrun|]. split; [exact Hlen|].
    destruct (Hmods 0%nat) as (m & Hm & _ & _ & Hc & _); [reflexivity|].
    exists m. split; [exact Hm|]. exact (Hc 4%nat).
Defined.

(** ** Text classification *)

Lemma count_fold (l : bytes) (a : Z) :
  fold_left (fun acc b => if is_allowed b then acc + 1 else acc) l a =
  a + Z.of_nat (length (filter is_allowed l)).
Proof.
  revert a. induction l as [|b l IH]; intros a; simpl; [lia|].
  rewrite IH. destruct (is_allowed b); simpl length; lia.
Qed.

Lemma allowed_count_filter (contents : bytes) :
  allowed_count contents =
  Z.of_nat (length (filter is_allowed (firstn 1000 contents))).
Proof.
  unfold allowed_count. rewrite slice_to_firstn by lia. rewrite count_fold.
  replace (Z.to_nat 1000) with 1000%nat by reflexivity. lia.
Qed.

Lemma is_allowed_iff (b : byte) :
  is_allowed b = true <->
  32 <= Py.byte_val b <= 126 \/ Py.byte_val b = 9
  \/ Py.byte_val b = 10 \/ Py.byte_val b = 13.
Proof.
  unfold is_allowed. cbv zeta.
  rewrite !orb_true_iff, andb_true_iff, Z.leb_le, Z.ltb_lt, !Z.eqb_eq. lia.
Qed.

Lemma filter_length_bound {A : Type} (f : A -> bool) (l : list A) :
  (length (filter f l) <= length l)%nat.
Proof.
  induction l as [|x l IH]; simpl; [lia|]. destruct (f x); simpl; lia.
Qed.

(** C7: the bytes counted are those of the first 1000 (all of them when
    there are fewer) that are printable ASCII, 32..126, or tab, newline or
    carriage return; the module is text exactly when the count exceeds
    900.  So a 1000-byte buffer with 901 such bytes is text and one with
    900 is binary. *)
Theorem C7_text_threshold (contents : bytes) :
  (classify contents = true <->
   (900 < length (filter is_allowed (firstn 1000 contents)))%nat)
  /\ (forall b, is_allowed b = true <->
        32 <= Py.byte_val b <= 126 \/ Py.byte_val b = 9
        \/ Py.byte_val b = 10 \/ Py.byte_val b = 13)
  /\ (length contents = 1000%nat ->
      length (filter is_allowed contents) = 901%nat ->
      classify contents = true)
  /\ (length contents = 1000%nat ->
      length (filter is_allowed contents) = 900%nat ->
      classify contents = false).
Proof.
  assert (classify contents = true <->
          (900 < length (filter is_allowed (firstn 1000 contents)))%nat) as H.
  { unfold classify. rewrite allowed_count_filter, Z.ltb_lt. lia. }
  split; [exact H|]. split; [exact is_allowed_iff|]. split.
  - intros Hl Hc. apply H. rewrite firstn_all2 by lia. lia.
  - intros Hl Hc. apply not_true_is_false. intros E.
    apply H in E. rewrite firstn_all2 in E by lia. lia.
Qed.

Lemma C7_text_threshold_witness :
  classify (repeat x61 901 ++ repeat x00 99) = true
  /\ classify (repeat x0a 900 ++ repeat x7f 100) = false.
Proof.
  split.
  - apply (C7_text_threshold (repeat x61 901 ++ repeat x00 99));
      vm_compute; reflexivity.
  - apply (C7_text_threshold (repeat x0a 900 ++ repeat x7f 100));
      vm_compute; reflexivity.
Defined.

Lemma for_range_members (body : Z -> result EmbeddedModule) (count : nat) :
  forall (i : Z) (acc modules : list EmbeddedModule),
  for_range body i count acc = Ok modules ->
  forall m, In m modules -> In m acc \/ exists j, body j = Ok m.
Proof.
  induction count as [|c IH]; intros i acc modules H m Hm.
  - injection H as <-. now left.
  - cbn [for_range] in H. destruct (body i) as [m'|e] eqn:E; [|discriminate].
    simpl in H. destruct (IH _ _ _ H m Hm) as [Hin | Hex]; [|now right].
    apply in_app_or in Hin. destruct Hin as [Hin | [<- | []]]; [now left|].
    right. now exists i.
Qed.

Lemma extract_module_is_text
  (section : bytes) (metadata_start chunk_size i : Z) (m : EmbeddedModule) :
  extract_module section metadata_start chunk_size i = Ok m ->
  is_text m = classify (contents m).
Proof.
  unfold extract_module.
  repeat match goal with
  | |- context [bind (Py.unpack_from_u32 ?s ?o) _] =>
      destruct (Py.unpack_from_u32 s o); simpl; [|discriminate]
  end.
  intros H. injection H as <-. reflexivity.
Qed.

(** C9: contents shorter than 901 bytes are never classified as text,
    whatever the bytes are, and so every module that [extract_modules]
    returns with such contents has [is_text] false: the threshold is a
    count above 900, not a fraction of the sample. *)
Theorem C9_short_contents_are_binary :
  (forall contents : bytes,
     (length contents < 901)%nat -> classify contents = false)
  /\ (forall (section : bytes) (footer : Footer) modules m,
        extract_modules section footer = Ok modules ->
        In m modules ->
        (length (contents m) < 901)%nat ->
        is_text m = false).
Proof.
  assert (forall contents : bytes,
            (length contents < 901)%nat -> classify contents = false) as H.
  { intros contents Hl. unfold classify. rewrite allowed_count_filter.
    apply Z.ltb_ge.
    pose proof (filter_length_bound is_allowed (firstn 1000 contents)).
    pose proof (firstn_le_length 1000 contents).
    rewrite length_firstn in *. lia. }
  split; [exact H|].
  intros section footer modules m Hrun Hin Hl.
  unfold extract_modules in Hrun.
  destruct (find_chunk_size (modules_ptr_length footer)); [|discriminate].
  destruct (for_range_members _ _ _ _ _ Hrun m Hin) as [[] | [j Hj]].
  apply extract_module_is_text in Hj. rewrite Hj. now apply H.
Qed.

Lemma C9_short_contents_are_binary_witness :
  (length (repeat x61 500) < 901)%nat
  /\ classify (repeat x61 500) = false
  /\ forallb is_allowed (repeat x61 500) = true.
Proof.
  split; [vm_compute; lia|]. split.
  - apply (proj1 C9_short_contents_are_binary). vm_compute. lia.
  - vm_compute. reflexivity.
Defined.

(** ** Stripping the wrapper *)

Lemma is_padding_iff (b : byte) :
  is_padding b = true <->
  Py.byte_val b < 32 /\ Py.byte_val b <> 9
  /\ Py.byte_val b <> 10 /\ Py.byte_val b <> 13.
Proof.
  unfold is_padding. cbv zeta.
  rewrite andb_true_iff, negb_true_iff, !orb_false_iff, Z.ltb_lt, !Z.eqb_neq.
  tauto.
Qed.

(** The loop stops at the first byte that is not padding; [len(js)]
    iterations are enough for it to stop by its own condition. *)
Lemma skip_padding_spec (rest : bytes) :
  forall (pre : bytes) (fuel : nat),
  (length rest <= fuel)%nat ->
  skip_padding fuel (pre ++ rest) (Py.len pre) =
  Py.len pre + Z.of_nat (leading_padding rest).
Proof.
  induction rest as [|b r IH]; intros pre fuel Hf.
  - rewrite app_nil_r. destruct fuel; simpl; [lia|].
    unfold is_padding_at.
    replace (Py.len pre <? Py.len pre) with false
      by (symmetry; apply Z.ltb_ge; lia).
    simpl. lia.
  - destruct fuel as [|f]; [simpl in Hf; lia|]. cbn [skip_padding].
    unfold is_padding_at.
    replace (Py.len pre <? Py.len (pre ++ b :: r)) with true
      by (symmetry; apply Z.ltb_lt; rewrite len_app; unfold Py.len;
          simpl; lia).
    unfold Py.len at 1. rewrite Nat2Z.id, app_nth2, Nat.sub_diag by lia.
    cbn [nth andb leading_padding].
    destruct (is_padding b); [|lia].
    replace (pre ++ b :: r) with ((pre ++ [b]) ++ r)
      by (now rewrite <- app_assoc).
    replace (Py.len pre + 1) with (Py.len (pre ++ [b]))
      by (rewrite len_app; reflexivity).
    rewrite IH by (simpl in Hf; lia). rewrite len_app.
    unfold Py.len. simpl. lia.
Qed.

Lemma skip_padding_all (js : bytes) :
  skip_padding (length js) js 0 = Z.of_nat (leading_padding js).
Proof.
  exact (skip_padding_spec js [] (length js) (le_n _)).
Qed.

Lemma skip_padding_exit (js : bytes) :
  is_padding_at js (skip_padding (length js) js 0) = false.
Proof.
  rewrite skip_padding_all.
  unfold is_padding_at.
  induction js as [|b r IH].
  - reflexivity.
  - cbn [leading_padding]. destruct (is_padding b) eqn:E.
    + unfold Py.len in *. rewrite Nat2Z.id in *. cbn [length nth].
      replace (Z.of_nat (S (leading_padding r)) <? Z.of_nat (S (length r)))
        with (Z.of_nat (leading_padding r) <? Z.of_nat (length r)); [exact IH|].
      destruct (Z.ltb_spec (Z.of_nat (leading_padding r)) (Z.of_nat (length r)));
        symmetry; [apply Z.ltb_lt | apply Z.ltb_ge]; lia.
    + change (nth (Z.to_nat (Z.of_nat 0)) (b :: r) x00) with b.
      rewrite E. apply andb_false_r.
Qed.

Lemma skipn_leading_padding (js : bytes) :
  exists pad,
    js = pad ++ skipn (leading_padding js) js
    /\ forallb is_padding pad = true
    /\ match skipn (leading_padding js) js with
       | [] => True
       | c :: _ => is_padding c = false
       end.
Proof.
  induction js as [|b r (pad & E & Hp & Hh)].
  - now exists [].
  - cbn [leading_padding]. destruct (is_padding b) eqn:Eb.
    + exists (b :: pad). cbn [skipn forallb app]. rewrite Eb, Hp.
      repeat split; [now f_equal | exact Hh].
    + exists []. now repeat split.
Qed.

Lemma find_prefix (sub q : bytes) : Py.find (sub ++ q) sub 0 = 0.
Proof.
  unfold Py.find. simpl.
  replace (Py.len (sub ++ q) <? 0) with false
    by (symmetry; apply Z.ltb_ge; apply len_nonneg).
  destruct (sub ++ q) eqn:E; simpl.
  - destruct sub; [reflexivity | discriminate].
  - rewrite <- E.
    replace (Py.has_prefix sub (sub ++ q)) with true; [reflexivity|].
    symmetry. apply has_prefix_iff. now exists q.
Qed.

Lemma strip_wrapped (b : bytes) :
  strip_bytecode_prefix (WRAPPER ++ b) = skipn (leading_padding b) b.
Proof.
  assert (Py.slice_from (WRAPPER ++ b) (0 + Py.len WRAPPER) = b) as Hjs.
  { rewrite slice_from_skipn by (vm_compute; discriminate).
    change (Z.to_nat (0 + Py.len WRAPPER)) with (length WRAPPER).
    now rewrite skipn_app, Nat.sub_diag, skipn_all. }
  unfold strip_bytecode_prefix. rewrite find_prefix, Hjs.
  change (0 <? 0) with false. cbv iota zeta.
  rewrite skip_padding_all.
  rewrite slice_from_skipn by lia.
  now rewrite Nat2Z.id.
Qed.

(** C8: stripping [WRAPPER ++ b] returns [b] without the padding bytes it
    starts with (the bytes below 32 other than tab, newline and carriage
    return), so what is returned does not start with such a byte and is
    [b] itself when [b] does not; and contents in which the wrapper does
    not occur are returned as they are. *)
Theorem C8_strip_wrapper :
  (forall b : bytes,
     exists pad,
       b = pad ++ strip_bytecode_prefix (WRAPPER ++ b)
       /\ forallb is_padding pad = true
       /\ match strip_bytecode_prefix (WRAPPER ++ b) with
          | [] => True
          | c :: _ => is_padding c = false
          end)
  /\ (forall b : bytes,
        match b with [] => True | c :: _ => is_padding c = false end ->
        strip_bytecode_prefix (WRAPPER ++ b) = b)
  /\ (forall contents : bytes,
        (forall k, ~ occurs_at WRAPPER contents k) ->
        strip_bytecode_prefix contents = contents)
  /\ (forall c : byte,
        is_padding c = true <->
        Py.byte_val c < 32 /\ Py.byte_val c <> 9
        /\ Py.byte_val c <> 10 /\ Py.byte_val c <> 13).
Proof.
  split; [|split; [|split]].
  - intros b. rewrite strip_wrapped. apply skipn_leading_padding.
  - intros b Hb. rewrite strip_wrapped.
    destruct b as [|c r]; [reflexivity|]. cbn [leading_padding].
    now rewrite Hb.
  - intros contents Hno. unfold strip_bytecode_prefix.
    unfold Py.find. simpl Z.ltb at 1. cbv iota.
    replace (Py.len contents <? 0) with false
      by (symmetry; apply Z.ltb_ge; apply len_nonneg).
    change (skipn (Z.to_nat 0) contents) with contents.
    destruct (find_at_spec WRAPPER contents 0) as [[-> _] | (k & _ & Hk & _)].
    + reflexivity.
    + now apply Hno in Hk.
  - exact is_padding_iff.
Qed.

Lemma C8_strip_wrapper_witness :
  strip_bytecode_prefix (WRAPPER ++ Py.bytes_of "var a = 1;")
  = Py.bytes_of "var a = 1;"
  /\ strip_bytecode_prefix (Py.bytes_of "var a = 1;")
     = Py.bytes_of "var a = 1;".
Proof.
  split.
  - apply (proj1 (proj2 C8_strip_wrapper)). reflexivity.
  - apply (proj1 (proj2 (proj2 C8_strip_wrapper))).
    intros k Hk. apply occurs_at_bound in Hk.
    change (length WRAPPER) with 60%nat in Hk.
    change (length (Py.bytes_of "var a = 1;")) with 10%nat in Hk. lia.
Defined.

(** ** The footer *)

Lemma length_slice_le {A : Type} (s : list A) (lo hi : Z) :
  (length (Py.slice s lo hi) <= length s)%nat.
Proof.
  unfold Py.slice. rewrite length_firstn, length_skipn. lia.
Qed.

(** The slice compared with the trailer is the trailer exactly when the
    section ends with it; a section shorter than the trailer never does. *)
Lemma trailer_slice_iff (s t : bytes) :
  Py.slice_from s (Py.len s - Py.len t) = t <-> ends_with s t.
Proof.
  destruct (Z_lt_le_dec (Py.len s) (Py.len t)) as [Hlt | Hge].
  - split.
    + intros H. pose proof (length_slice_le s (Py.len s - Py.len t) (Py.len s)).
      unfold Py.slice_from in H. rewrite H in H0. unfold Py.len in Hlt. lia.
    + intros [p ->]. rewrite len_app in Hlt. pose proof (len_nonneg p). lia.
  - rewrite slice_from_skipn by lia. split.
    + intros H. exists (firstn (Z.to_nat (Py.len s - Py.len t)) s).
      pattern t at 2. rewrite <- H. symmetry. apply firstn_skipn.
    + intros [p ->]. rewrite len_app.
      replace (Z.to_nat (Py.len p + Py.len t - Py.len t)) with (length p)
        by (unfold Py.len; lia).
      now rewrite skipn_app, Nat.sub_diag, skipn_all.
Qed.

Lemma u32_at_app (p t : bytes) (k : nat) :
  u32_at (p ++ t) (length p + k) = u32_at t k.
Proof.
  unfold u32_at. rewrite !app_nth2 by lia.
  repeat (f_equal; try lia).
Qed.

(** [parse_footer] as a function of the last 48 bytes of the section. *)
Lemma parse_footer_tail (p tail : bytes) :
  length tail = 48%nat ->
  parse_footer (p ++ tail) =
  if bytes_eqb (skipn 32 tail) BUN_TRAILER
  then Ok (mkFooter (u32_at tail 0) (u32_at tail 4)
                    (u32_at tail 8) (u32_at tail 12))
  else Raise (TrailerMismatch (skipn 32 tail)).
Proof.
  intros Hl. unfold parse_footer. cbv zeta.
  assert (Py.len (p ++ tail) = Py.len p + 48) as Hn
    by (rewrite len_app; unfold Py.len; lia).
  pose proof (len_nonneg p) as Hp.
  assert (Py.slice_from (p ++ tail) (Py.len (p ++ tail) - Py.len BUN_TRAILER)
          = skipn 32 tail) as ->.
  { rewrite slice_from_skipn
      by (rewrite Hn; change (Py.len BUN_TRAILER) with 16; lia).
    rewrite Hn. change (Py.len BUN_TRAILER) with 16.
    replace (Z.to_nat (Py.len p + 48 - 16)) with (32 + length p)%nat
      by (unfold Py.len; lia).
    rewrite <- skipn_skipn, skipn_app, Nat.sub_diag, skipn_all.
    reflexivity. }
  destruct (bytes_eqb (skipn 32 tail) BUN_TRAILER); [|reflexivity].
  cbn [negb]. rewrite Hn.
  rewrite (unpack_in_bounds (p ++ tail) (Py.len p + 48 + -48)) by lia.
  rewrite (unpack_in_bounds (p ++ tail) (Py.len p + 48 + -44)) by lia.
  rewrite (unpack_in_bounds (p ++ tail) (Py.len p + 48 + -40)) by lia.
  rewrite (unpack_in_bounds (p ++ tail) (Py.len p + 48 + -36)) by lia.
  cbn [bind].
  replace (Z.to_nat (Py.len p + 48 + -48)) with (length p + 0)%nat
    by (unfold Py.len; lia).
  replace (Z.to_nat (Py.len p + 48 + -44)) with (length p + 4)%nat
    by (unfold Py.len; lia).
  replace (Z.to_nat (Py.len p + 48 + -40)) with (length p + 8)%nat
    by (unfold Py.len; lia).
  replace (Z.to_nat (Py.len p + 48 + -36)) with (length p + 12)%nat
    by (unfold Py.len; lia).
  now rewrite !u32_at_app.
Qed.

Lemma parse_footer_mismatch_iff (section : bytes) :
  (exists t, parse_footer section = Raise (TrailerMismatch t))
  <-> ~ ends_with section BUN_TRAILER.
Proof.
  rewrite <- trailer_slice_iff, <- bytes_eqb_eq. unfold parse_footer. cbv zeta.
  destruct (bytes_eqb _ BUN_TRAILER).
  - cbn [negb]. split; [|intros H; now contradiction H]. intros [t H]. exfalso.
    repeat match type of H with
    | context [bind (Py.unpack_from_u32 ?s ?o) _] =>
        let E := fresh "E" in
        destruct (Py.unpack_from_u32 s o) eqn:E; cbn [bind] in H;
        [| apply unpack_raises_struct_error in E; congruence]
    end.
    discriminate.
  - cbn [negb]. split; [intros _; discriminate | intros _; now eexists].
Qed.

(** C2, as the code has it: [parse_footer] raises the trailer assertion
    error exactly when the section does not end with the sixteen bytes of
    [BUN_TRAILER], and nothing is read before that check.  For a section
    of at least 48 bytes that ends with the trailer it returns the four
    little-endian fields found 48, 44, 40 and 36 bytes before the end; and
    its result is the same for two sections with the same last 48 bytes. *)
Theorem C2_parse_footer :
  (forall section : bytes,
     (exists t, parse_footer section = Raise (TrailerMismatch t))
     <-> ~ ends_with section BUN_TRAILER)
  /\ (forall section : bytes,
        (48 <= length section)%nat ->
        ends_with section BUN_TRAILER ->
        parse_footer section =
        Ok (mkFooter (u32_at section (length section - 48))
                     (u32_at section (length section - 44))
                     (u32_at section (length section - 40))
                     (u32_at section (length section - 36))))
  /\ (forall p1 p2 tail : bytes,
        length tail = 48%nat ->
        parse_footer (p1 ++ tail) = parse_footer (p2 ++ tail)).
Proof.
  split; [exact parse_footer_mismatch_iff|]. split.
  - intros section Hl [p Hp].
    set (n := length section) in *.
    assert (section = firstn (n - 48) section ++ skipn (n - 48) section) as E
      by (symmetry; apply firstn_skipn).
    set (q := firstn (n - 48) section) in *.
    set (tail := skipn (n - 48) section) in *.
    assert (length q = (n - 48)%nat) as Hq
      by (unfold q; rewrite length_firstn; fold n; lia).
    assert (length tail = 48%nat) as Ht
      by (unfold tail; rewrite length_skipn; fold n; lia).
    assert (skipn 32 tail = BUN_TRAILER) as Hs.
    { unfold tail. rewrite skipn_skipn. rewrite Hp.
      assert (length section = (length p + 16)%nat) as Hn
        by (rewrite Hp, length_app; reflexivity).
      fold n in Hn.
      replace (32 + (n - 48))%nat with (length p) by lia.
      now rewrite skipn_app, Nat.sub_diag, skipn_all. }
    rewrite E, (parse_footer_tail q tail Ht), Hs.
    replace (bytes_eqb BUN_TRAILER BUN_TRAILER) with true by reflexivity.
    replace (n - 48)%nat with (length q + 0)%nat by lia.
    replace (n - 44)%nat with (length q + 4)%nat by lia.
    replace (n - 40)%nat with (length q + 8)%nat by lia.
    replace (n - 36)%nat with (length q + 12)%nat by lia.
    now rewrite !u32_at_app.
  - intros p1 p2 tail Ht. now rewrite !parse_footer_tail.
Qed.

Lemma C2_parse_footer_witness :
  parse_footer sample_region = Ok sample_footer
  /\ exists t, parse_footer (Py.bytes_of "not a container") =
               Raise (TrailerMismatch t).
Proof.
  split.
  - apply (proj1 (proj2 C2_parse_footer) sample_region).
    + vm_compute. lia.
    + exists (firstn 83 sample_region). reflexivity.
  - apply (proj1 C2_parse_footer). intros [p Hp].
    apply (f_equal (@length byte)) in Hp. rewrite length_app in Hp.
    change (length (Py.bytes_of "not a container")) with 15%nat in Hp.
    change (length BUN_TRAILER) with 16%nat in Hp. lia.
Defined.

(** A region that is the trailer and nothing else ends with the trailer,
    yet no footer is returned: the first field would start 32 bytes before
    the buffer, and [struct.unpack_from] raises [struct.error]. *)
Lemma C2_counterexample :
  ends_with BUN_TRAILER BUN_TRAILER
  /\ parse_footer BUN_TRAILER = Raise StructError
  /\ forall f, parse_footer BUN_TRAILER <> Ok f.
Proof.
  split; [now exists [] |]. split; [reflexivity|].
  intros f. discriminate.
Qed.

(** ** Offsets outside the region *)

(** C4, as the code has it, for records at offsets that are not
    negative: a record whose sixteen field bytes end beyond the region,
    at offsets that fit a C [ssize_t] (the last of its four fields is read
    at the record's offset plus 12, and [struct.unpack_from] is given no
    offset larger than that one before it fails), makes [extract_modules]
    raise [struct.error], for the whole decode; when every record lies
    inside the region the decode succeeds whatever the content offsets
    are, and contents that would run beyond the region are cut at its end:
    their length is the smaller of [contents_len] and what is left of the
    region after [contents_off]. *)
Theorem C4_offsets_outside_region (section : bytes) (footer : Footer) (w : Z) :
  find_chunk_size (modules_ptr_length footer) = Some w ->
  let metadata_start :=
    Py.len section - (offset_byte_count footer + 48)
    + modules_ptr_offset footer in
  0 <= metadata_start ->
  ((exists i, 0 <= i < modules_ptr_length footer / w
              /\ Py.len section < metadata_start + i * w + 16
              /\ metadata_start + i * w + 12 <= Py.PY_SSIZE_T_MAX) ->
   extract_modules section footer = Raise StructError)
  /\ ((forall i, 0 <= i < modules_ptr_length footer / w ->
                 metadata_start + i * w + 16 <= Py.len section) ->
      exists modules,
        extract_modules section footer = Ok modules
        /\ forall (i : nat) m,
             nth_error modules i = Some m ->
             let r := Z.to_nat (metadata_start + Z.of_nat i * w) in
             let contents_off := u32_at section (r + 8) in
             let contents_len := u32_at section (r + 12) in
             Py.len (contents m) =
             Z.max 0 (Z.min contents_len (Py.len section - contents_off))).
Proof.
  intros Hw ms Hms.
  assert (0 < w) as Hpos by (apply chunk_size_cases in Hw; lia).
  split.
  - intros (i & Hi & Hend & _).
    assert (extract_module section ms w i = Raise StructError) as Hfail
      by (apply extract_module_beyond_end; nia).
    unfold extract_modules. rewrite Hw. fold ms.
    destruct (for_range_fails (extract_module section ms w)
                (Z.to_nat (modules_ptr_length footer / w)) 0 [] i StructError)
      as [e He]; [lia | exact Hfail |].
    rewrite He. f_equal.
    apply for_range_raise in He. destruct He as (j & _ & Hj).
    now apply extract_module_raises_struct_error in Hj.
  - intros Hb. eexists. split.
    + apply (extract_modules_in_bounds _ _ _ Hw).
      intros i Hi. split; [nia | now apply Hb].
    + fold ms. intros i m Hm.
      rewrite nth_error_map, nth_error_seq in Hm.
      destruct (i <? _)%nat; [|discriminate]. simpl in Hm.
      injection Hm as <-. cbv zeta.
      unfold module_of_record, record_at. cbn [contents].
      pose proof (u32_at_range section
                    (Z.to_nat (ms + Z.of_nat i * w) + 8)) as H8.
      pose proof (u32_at_range section
                    (Z.to_nat (ms + Z.of_nat i * w) + 12)) as H12.
      rewrite length_slice by lia. f_equal. f_equal. lia.
Qed.

Lemma C4_offsets_outside_region_witness :
  extract_modules (firstn 10 overlong_region) (mkFooter 0 0 38 28)
  = Raise StructError
  /\ exists modules,
       extract_modules overlong_region overlong_footer = Ok modules
       /\ forall m, nth_error modules 0 = Some m -> Py.len (contents m) = 56.
Proof.
  split.
  - apply (C4_offsets_outside_region (firstn 10 overlong_region)
             (mkFooter 0 0 38 28) 28 eq_refl); [vm_compute; discriminate|].
    exists 0. unfold Py.PY_SSIZE_T_MAX.
    change (Py.len (firstn 10 overlong_region)) with 10.
    cbn [modules_ptr_length offset_byte_count modules_ptr_offset].
    change (28 / 28) with 1. lia.
  - destruct (C4_offsets_outside_region overlong_region overlong_footer 28
                eq_refl) as [_ H]; [vm_compute; discriminate|].
    destruct H as (modules & Hrun & Hlen).
    + intros i Hi.
      assert (i = 0) as ->
        by (change (modules_ptr_length overlong_footer / 28) with 1 in Hi; lia).
      vm_compute. discriminate.
    + exists modules. split; [exact Hrun|]. intros m Hm.
      exact (Hlen 0%nat m Hm).
Defined.

(** The parsed footer of [overlong_region] declares one record, whose
    contents would end at offset 1020 of a region of 76 bytes; the decode
    does not fail, and yields a module with the 56 bytes that exist. *)
Lemma C4_counterexample :
  parse_footer overlong_region = Ok overlong_footer
  /\ Py.unpack_from_u32 overlong_region 8 = Ok 20
  /\ Py.unpack_from_u32 overlong_region 12 = Ok 1000
  /\ Py.len overlong_region = 76
  /\ exists m,
       extract_modules overlong_region overlong_footer = Ok [m]
       /\ contents m = skipn 20 overlong_region
       /\ Py.len (contents m) = 56.
Proof.
  repeat split. eexists. repeat split.
Qed.

(** ** Path resolution *)

Lemma occurs_at_single (c : byte) (s : bytes) (k : nat) :
  occurs_at [c] s k <-> nth_error s k = Some c.
Proof.
  split.
  - intros (p & q & -> & <-).
    now rewrite nth_error_app2, Nat.sub_diag by lia.
  - intros H. apply nth_error_split in H. destruct H as (p & q & -> & Hp).
    now exists p, q.
Qed.

Lemma occurs_at_firstn (sub t : bytes) (m k : nat) :
  occurs_at sub (firstn m t) k -> occurs_at sub t k.
Proof.
  intros (p & q & E & Hp). exists p, (q ++ skipn m t). split; [|exact Hp].
  rewrite <- (firstn_skipn m t) at 1. rewrite E.
  now rewrite <- !app_assoc.
Qed.

Lemma occurs_in_window (sub s : bytes) (m n k : nat) :
  (0 < length sub)%nat ->
  occurs_at sub (firstn m (skipn n s)) k -> occurs_at sub s (n + k).
Proof.
  intros Hs H. apply occurs_at_firstn in H.
  destruct (Nat.le_gt_cases n (length s)) as [Hn | Hn].
  - now apply occurs_at_skipn.
  - apply occurs_at_bound in H. rewrite length_skipn in H. lia.
Qed.

Lemma occurs_at_head (c : byte) (sub s : bytes) (k : nat) :
  occurs_at (c :: sub) s k -> nth_error s k = Some c.
Proof.
  intros (p & q & -> & <-).
  now rewrite nth_error_app2, Nat.sub_diag by lia.
Qed.

(** The cases of [resolve_path]. *)
Lemma resolve_path_cases (section : bytes) (path_off path_len : Z) :
  0 <= path_off -> 0 <= path_len ->
  let search_start := Z.to_nat (Z.max 0 (path_off - 50)) in
  let search_end := Z.to_nat (path_off + path_len + 10) in
  let window := firstn (search_end - search_start) (skipn search_start section) in
  ((forall k, ~ occurs_at BUNFS_ROOT window k) ->
   resolve_path section path_off path_len =
   Py.decode (firstn (Z.to_nat path_len) (skipn (Z.to_nat path_off) section)))
  /\ (forall k : nat,
        occurs_at BUNFS_ROOT window k ->
        (forall k', (k < k')%nat -> ~ occurs_at BUNFS_ROOT window k') ->
        let start := (search_start + k)%nat in
        (forall e : nat,
           (start <= e)%nat ->
           nth_error section e = Some x00 ->
           (forall j, (start <= j < e)%nat -> nth_error section j <> Some x00) ->
           resolve_path section path_off path_len =
           Py.decode (firstn (e - start) (skipn start section)))
        /\ ((forall j, (start <= j)%nat -> nth_error section j <> Some x00) ->
            resolve_path section path_off path_len =
            Py.decode
              (Py.split_first x00
                 (firstn (Z.to_nat (path_len + 20)) (skipn start section))))).
Proof.
  intros Hpo Hpl search_start search_end window.
  unfold resolve_path. cbv zeta.
  set (lo := Z.max 0 (path_off - 50)).
  rewrite (slice_nonneg section lo (path_off + path_len + 10)) by lia.
  replace (Z.to_nat (path_off + path_len + 10 - lo))
    with (search_end - search_start)%nat by (unfold search_end, search_start; lia).
  change (Z.to_nat lo) with search_start. fold window. unfold Py.rfind.
  destruct (rfind_at_spec BUNFS_ROOT window 0 (Z.le_refl 0))
    as [[Hr Hnone] | (k0 & Hr & Hocc & Hlast)]; rewrite Hr.
  - change (0 <=? -1) with false. cbv iota. split.
    + intros _. rewrite slice_nonneg by lia. do 2 f_equal. lia.
    + intros k Hk. now apply Hnone in Hk.
  - split; [intros Hno; now apply Hno in Hocc|].
    intros k Hk Hklast.
    assert (k = k0) as ->.
    { destruct (lt_eq_lt_dec k k0) as [[Hlt | Heq] | Hgt]; [|exact Heq|].
      - now apply Hklast in Hocc.
      - now apply Hlast in Hk. }
    replace (0 <=? 0 + Z.of_nat k0) with true
      by (symmetry; apply Z.leb_le; lia).
    cbv iota. set (start := (search_start + k0)%nat).
    replace (lo + (0 + Z.of_nat k0)) with (Z.of_nat start)
      by (unfold start, search_start; lia).
    assert (length BUNFS_ROOT = 12%nat) as Hroot by reflexivity.
    assert (occurs_at BUNFS_ROOT section start) as Hsec
      by (apply (occurs_in_window BUNFS_ROOT section
                   (search_end - search_start) search_start k0);
          [lia | exact Hocc]).
    pose proof (occurs_at_bound _ _ _ Hsec) as Hbound.
    pose proof (occurs_at_head _ _ _ _ Hsec) as Hslash.
    unfold Py.find.
    replace (Z.of_nat start <? 0) with false
      by (symmetry; apply Z.ltb_ge; lia).
    replace (Py.len section <? Z.of_nat start) with false
      by (symmetry; apply Z.ltb_ge; unfold Py.len; lia).
    rewrite Nat2Z.id.
    destruct (find_at_spec [x00] (skipn start section) (Z.of_nat start))
      as [[Hf Hnonull] | (k2 & Hf & Hocc2 & Hfirst)]; rewrite Hf.
    + change (0 <? -1) with false. cbv iota. split.
      * intros e He Hnull _. exfalso. apply (Hnonull (e - start)%nat).
        apply occurs_at_skipn; [lia|].
        replace (start + (e - start))%nat with e by lia.
        now apply occurs_at_single.
      * intros _. rewrite slice_nonneg by lia. do 3 f_equal; [lia|].
        now rewrite Nat2Z.id.
    + apply occurs_at_skipn in Hocc2; [|lia].
      apply occurs_at_single in Hocc2.
      assert (k2 <> 0)%nat as Hk2.
      { intros ->. rewrite Nat.add_0_r in Hocc2. rewrite Hocc2 in Hslash.
        discriminate. }
      replace (0 <? Z.of_nat start + Z.of_nat k2) with true
        by (symmetry; apply Z.ltb_lt; lia).
      cbv iota. split.
      * intros e He Hnull Hbefore.
        assert (e = start + k2)%nat as ->.
        { destruct (lt_eq_lt_dec e (start + k2)) as [[Hlt | Heq] | Hgt];
            [|exact Heq|].
          - exfalso. apply (Hfirst (e - start)%nat); [lia|].
            apply occurs_at_skipn; [lia|].
            replace (start + (e - start))%nat with e by lia.
            now apply occurs_at_single.
          - exfalso. apply (Hbefore (start + k2)%nat); [lia | exact Hocc2]. }
        rewrite slice_nonneg by lia. do 2 f_equal; [lia|].
        now rewrite Nat2Z.id.
      * intros Hno. exfalso.
        apply (Hno (start + k2)%nat); [lia | exact Hocc2].
Qed.

Lemma rfind_at_last (sub s : bytes) (k : nat) :
  Py.rfind_at sub s 0 = Z.of_nat k ->
  occurs_at sub s k
  /\ forall k', (k < k')%nat -> ~ occurs_at sub s k'.
Proof.
  intros H.
  destruct (rfind_at_spec sub s 0 (Z.le_refl 0))
    as [[Hr _] | (k0 & Hr & Hocc & Hlast)]; [lia|].
  assert (k0 = k) as <- by lia. now split.
Qed.

Lemma rfind_at_none (sub s : bytes) :
  Py.rfind_at sub s 0 = -1 -> forall k, ~ occurs_at sub s k.
Proof.
  intros H.
  destruct (rfind_at_spec sub s 0 (Z.le_refl 0))
    as [[_ Hn] | (k0 & Hr & _ & _)]; [exact Hn | lia].
Qed.

Lemma occurs_at_nth (sub s : bytes) (j d : nat) :
  occurs_at sub s j -> (d < length sub)%nat ->
  nth_error s (j + d) = nth_error sub d.
Proof.
  intros (p & q & -> & <-) Hd.
  rewrite nth_error_app2 by lia.
  replace (length p + d - length p)%nat with d by lia.
  now apply nth_error_app1.
Qed.

(** [split] on a separator that does not occur gives the whole string. *)
Lemma split_first_absent (sep : byte) (s : bytes) :
  ~ In sep s -> Py.split_first sep s = s.
Proof.
  induction s as [|b s IH]; [reflexivity|].
  intros H. cbn [Py.split_first].
  destruct (Byte.eqb b sep) eqn:E.
  - apply byte_dec_bl in E. exfalso. apply H. now left.
  - f_equal. apply IH. intros Hin. apply H. now right.
Qed.

(** [split] stops at the first separator. *)
Lemma split_first_app (sep : byte) (a r : bytes) :
  ~ In sep a -> Py.split_first sep (a ++ sep :: r) = a.
Proof.
  induction a as [|b a IH]; intros H.
  - cbn [app Py.split_first]. now rewrite (byte_dec_lb eq_refl).
  - cbn [app Py.split_first].
    destruct (Byte.eqb b sep) eqn:E.
    + apply byte_dec_bl in E. exfalso. apply H. now left.
    + f_equal. apply IH. intros Hin. apply H. now right.
Qed.

Lemma decode_ascii (a r : bytes) :
  forallb (fun b => Py.byte_val b <? 128) a = true ->
  Py.decode (a ++ r) = map Py.byte_val a ++ Py.decode r.
Proof.
  unfold Py.decode. induction a as [|b a IH]; [reflexivity|].
  cbn [forallb]. intros H. apply andb_true_iff in H. destruct H as [Hb Ha].
  cbn [app map Py.utf8_replace]. rewrite Hb. f_equal. now apply IH.
Qed.

(** Decoding undoes the encoding of a scalar value. *)
Lemma utf8_replace_encode (cp : Z) (r : list Z) :
  is_scalar cp ->
  Py.utf8_replace (utf8_encode cp ++ r) = cp :: Py.utf8_replace r.
Proof.
  intros Hcp. unfold is_scalar in Hcp. unfold utf8_encode.
  destruct (Z.ltb_spec cp 0x80); [|destruct (Z.ltb_spec cp 0x800);
    [|destruct (Z.ltb_spec cp 0x10000)]];
    cbn [app Py.utf8_replace]; unfold Py.is_continuation;
    decide_tests; cbn [andb orb negb];
    try (f_equal; Z.to_euclidean_division_equations; lia).
Qed.

Lemma utf8_encode_bytes (cp : Z) :
  is_scalar cp -> Forall (fun v => 0 <= v < 256) (utf8_encode cp).
Proof.
  intros Hcp. unfold is_scalar in Hcp. unfold utf8_encode.
  destruct (Z.ltb_spec cp 0x80); [|destruct (Z.ltb_spec cp 0x800);
    [|destruct (Z.ltb_spec cp 0x10000)]];
    repeat constructor; Z.to_euclidean_division_equations; lia.
Qed.

Lemma byte_val_of_Z (n : Z) : Py.byte_val (byte_of_Z n) = n mod 256.
Proof.
  unfold byte_of_Z, Py.byte_val.
  pose proof (Z.mod_pos_bound n 256 ltac:(lia)) as Hr.
  destruct (Byte.of_N (Z.to_N (n mod 256))) as [b|] eqn:E.
  - apply Byte.to_of_N in E. rewrite E. lia.
  - apply Byte.of_N_None_iff in E. lia.
Qed.

Lemma decode_encode (cp : Z) (r : bytes) :
  is_scalar cp ->
  Py.decode (map byte_of_Z (utf8_encode cp) ++ r) = cp :: Py.decode r.
Proof.
  intros Hcp. unfold Py.decode. rewrite map_app, map_map.
  rewrite <- (utf8_replace_encode cp _ Hcp). f_equal. f_equal.
  pose proof (utf8_encode_bytes cp Hcp) as Hb.
  induction Hb as [|v l Hv Hl IH]; [reflexivity|].
  cbn [map]. now rewrite byte_val_of_Z, Z.mod_small, IH.
Qed.

Lemma utf8_invalid_start (b : Z) (r : list Z) :
  0x80 <= b < 0xC2 \/ 0xF5 <= b ->
  Py.utf8_replace (b :: r) = Py.REPLACEMENT :: Py.utf8_replace r.
Proof.
  intros Hb. cbn [Py.utf8_replace]. decide_bytes.
Qed.

Lemma utf8_lead_at_end (b : Z) :
  0xC2 <= b < 0xF5 -> Py.utf8_replace [b] = [Py.REPLACEMENT].
Proof.
  intros Hb. cbn [Py.utf8_replace]. decide_bytes.
Qed.

Lemma utf8_broken_second (b c : Z) (r : list Z) :
  0xC2 <= b < 0xF5 -> ~ continues b c ->
  Py.utf8_replace (b :: c :: r) = Py.REPLACEMENT :: Py.utf8_replace (c :: r).
Proof.
  intros Hb Hc. remember (c :: r) as r0 eqn:E. cbn [Py.utf8_replace].
  destruct r0 as [|c' r']; [discriminate|]. injection E as -> ->.
  decide_bytes.
Qed.

Lemma utf8_two_at_end (b c : Z) :
  0xE0 <= b < 0xF5 -> continues b c ->
  Py.utf8_replace [b; c] = [Py.REPLACEMENT].
Proof.
  intros Hb Hc. cbn [Py.utf8_replace]. decide_bytes.
Qed.

Lemma utf8_broken_third (b c d : Z) (r : list Z) :
  0xE0 <= b < 0xF5 -> continues b c -> ~ is_trail d ->
  Py.utf8_replace (b :: c :: d :: r)
  = Py.REPLACEMENT :: Py.utf8_replace (d :: r).
Proof.
  intros Hb Hc Hd. remember (d :: r) as r1 eqn:E.
  remember (c :: r1) as r0 eqn:E0. cbn [Py.utf8_replace].
  destruct r0 as [|c' r0]; [discriminate|]. injection E0 as -> ->.
  destruct r1 as [|d' r']; [discriminate|]. injection E as -> ->.
  decide_bytes.
Qed.

Lemma utf8_three_at_end (b c d : Z) :
  0xF0 <= b < 0xF5 -> continues b c -> is_trail d ->
  Py.utf8_replace [b; c; d] = [Py.REPLACEMENT].
Proof.
  intros Hb Hc Hd. cbn [Py.utf8_replace]. decide_bytes.
Qed.

Lemma utf8_broken_fourth (b c d e : Z) (r : list Z) :
  0xF0 <= b < 0xF5 -> continues b c -> is_trail d -> ~ is_trail e ->
  Py.utf8_replace (b :: c :: d :: e :: r)
  = Py.REPLACEMENT :: Py.utf8_replace (e :: r).
Proof.
  intros Hb Hc Hd He. remember (e :: r) as r2 eqn:E.
  remember (d :: r2) as r1 eqn:E1. remember (c :: r1) as r0 eqn:E0.
  cbn [Py.utf8_replace].
  destruct r0 as [|c' r0]; [discriminate|]. injection E0 as -> ->.
  destruct r1 as [|d' r1]; [discriminate|]. injection E1 as -> ->.
  destruct r2 as [|e' r']; [discriminate|]. injection E as -> ->.
  decide_bytes.
Qed.

(** The model of [bytes.decode] is UTF-8 decoding with replacement. *)
Lemma decode_with_replacement : decodes_with_replacement Py.decode.
Proof.
  unfold decodes_with_replacement, Py.decode.
  split; [reflexivity|].
  split; [exact decode_ascii|].
  split; [exact decode_encode|].
  split; [intros b r H; now apply utf8_invalid_start|].
  split; [intros b H; now apply utf8_lead_at_end|].
  split; [intros b c r Hb Hc; now apply utf8_broken_second|].
  split; [intros b c Hb Hc; now apply utf8_two_at_end|].
  split; [intros b c d r Hb Hc Hd; now apply utf8_broken_third|].
  split; [intros b c d Hb Hc Hd; now apply utf8_three_at_end|].
  intros b c d e r Hb Hc Hd He. now apply utf8_broken_fourth.
Qed.

Lemma forallb_repeat {A : Type} (f : A -> bool) (x : A) (n : nat) :
  f x = true -> forallb f (repeat x n) = true.
Proof.
  intros H. induction n as [|n IH]; [reflexivity|].
  cbn [repeat forallb]. now rewrite H, IH.
Qed.

(** An entry that is the root, [n] bytes [a] and a null byte is read
    whole, however long it is. *)
Lemma resolve_path_long (n : nat) :
  resolve_path (BUNFS_ROOT ++ repeat x61 n ++ [x00]) 0 12 =
  Py.str_of "/$bunfs/root" ++ repeat 97 n.
Proof.
  set (section := BUNFS_ROOT ++ repeat x61 n ++ [x00]).
  destruct (resolve_path_cases section 0 12) as [_ H]; [lia | lia |].
  cbv zeta in H.
  change (Z.to_nat (Z.max 0 (0 - 50))) with 0%nat in H.
  change (Z.to_nat (0 + 12 + 10)) with 22%nat in H.
  assert (forall j c, nth_error (repeat x61 n ++ [x00]) j = Some c ->
            c = x61 \/ c = x00) as Hrest.
  { intros j c Hj. apply nth_error_In in Hj. apply in_app_or in Hj.
    destruct Hj as [Hj | [Hj | []]]; [left | right; now symmetry].
    now apply repeat_spec in Hj. }
  destruct (H 0%nat) as [Hfound _].
  - exists [], (firstn 10 (repeat x61 n ++ [x00])). now split.
  - intros k Hk Hocc.
    apply (occurs_in_window BUNFS_ROOT section (22 - 0) 0 k) in Hocc;
      [|simpl; lia].
    pose proof (occurs_at_nth _ _ _ 0 Hocc ltac:(simpl; lia)) as H0.
    pose proof (occurs_at_nth _ _ _ 1 Hocc ltac:(simpl; lia)) as H1.
    rewrite Nat.add_0_l, Nat.add_0_r in H0. rewrite Nat.add_0_l in H1.
    cbn [nth_error BUNFS_ROOT] in H0, H1.
    destruct k as [|k]; [lia|].
    do 11 (destruct k as [|k]; [discriminate|]).
    unfold section in H0.
    change (nth_error (repeat x61 n ++ [x00]) k = Some x2f) in H0.
    apply Hrest in H0. destruct H0; discriminate.
  - rewrite (Hfound (12 + n)%nat).
    + replace (12 + n - (0 + 0))%nat with (length (BUNFS_ROOT ++ repeat x61 n))
        by (rewrite length_app, repeat_length; reflexivity).
      cbn [Nat.add skipn]. unfold section. rewrite app_assoc.
      rewrite firstn_app, Nat.sub_diag, firstn_all, firstn_O, app_nil_r.
      rewrite <- (app_nil_r (BUNFS_ROOT ++ repeat x61 n)), decode_ascii.
      * rewrite app_nil_r, map_app, map_repeat. reflexivity.
      * rewrite forallb_app. apply andb_true_iff. split; [reflexivity|].
        now apply forallb_repeat.
    + lia.
    + unfold section. rewrite app_assoc, nth_error_app2
        by (rewrite length_app, repeat_length; simpl; lia).
      rewrite length_app, repeat_length.
      now replace (12 + n - (length BUNFS_ROOT + n))%nat with 0%nat
        by (simpl; lia).
    + intros j Hj Hx. unfold section in Hx.
      rewrite app_assoc, nth_error_app1 in Hx
        by (rewrite length_app, repeat_length; simpl; lia).
      apply nth_error_In in Hx. apply in_app_or in Hx.
      destruct Hx as [Hx | Hx].
      * repeat (destruct Hx as [Hx | Hx]; [discriminate|]). destruct Hx.
      * apply repeat_spec in Hx. discriminate.
Qed.

(** C5, as the code has it.  The marker [BUNFS_ROOT] is searched for in
    the window that starts 50 bytes before [path_off] (at 0 when that is
    negative) and ends 10 bytes after [path_off + path_len], and its last
    occurrence there is taken.  When the marker does not occur in the
    window the path is the decoding of
    [section[path_off : path_off + path_len]].  When it occurs, at section
    index [start], the path is the decoding of the bytes from [start] up
    to the first null byte at or after it, wherever in the section that
    byte is: the scan has no bound but the end of the section, and an
    entry of the root followed by [n] bytes and a null byte is read with
    all its [12 + n] bytes for a declared length of 12.  Only when the
    section has no null byte at all from [start] on is the path taken
    from the [path_len + 20] bytes at [start]; they are split at the
    first null byte, which leaves them whole, since there is none.

    [split(b"\x00")[0]] is what comes before the first null byte, or the
    whole string without one.  The decoding is total, and is UTF-8
    decoding with replacement. *)
Theorem C5_path_resolution :
  (forall (section : bytes) (path_off path_len : Z),
     0 <= path_off -> 0 <= path_len ->
     let search_start := Z.to_nat (Z.max 0 (path_off - 50)) in
     let search_end := Z.to_nat (path_off + path_len + 10) in
     let window :=
       firstn (search_end - search_start) (skipn search_start section) in
     ((forall k, ~ occurs_at BUNFS_ROOT window k) ->
      resolve_path section path_off path_len =
      Py.decode (firstn (Z.to_nat path_len) (skipn (Z.to_nat path_off) section)))
     /\ (forall k : nat,
           occurs_at BUNFS_ROOT window k ->
           (forall k', (k < k')%nat -> ~ occurs_at BUNFS_ROOT window k') ->
           let start := (search_start + k)%nat in
           (forall e : nat,
              (start <= e)%nat ->
              nth_error section e = Some x00 ->
              (forall j, (start <= j < e)%nat ->
                         nth_error section j <> Some x00) ->
              resolve_path section path_off path_len =
              Py.decode (firstn (e - start) (skipn start section)))
           /\ ((forall j, (start <= j)%nat -> nth_error section j <> Some x00) ->
               let rest :=
                 firstn (Z.to_nat (path_len + 20)) (skipn start section) in
               resolve_path section path_off path_len =
               Py.decode (Py.split_first x00 rest)
               /\ Py.split_first x00 rest = rest)))
  /\ (forall n : nat,
        resolve_path (BUNFS_ROOT ++ repeat x61 n ++ [x00]) 0 12 =
        Py.str_of "/$bunfs/root" ++ repeat 97 n)
  /\ (forall (sep : byte) (a r : bytes),
        ~ In sep a ->
        Py.split_first sep (a ++ sep :: r) = a /\ Py.split_first sep a = a)
  /\ decodes_with_replacement Py.decode.
Proof.
  split; [|split; [exact resolve_path_long|];
           split; [|exact decode_with_replacement]].
  - intros section path_off path_len Hpo Hpl search_start search_end window.
    destruct (resolve_path_cases section path_off path_len Hpo Hpl)
      as [Hnone Hfound].
    split; [exact Hnone|].
    intros k Hk Hlast start.
    destruct (Hfound k Hk Hlast) as [Hnull Hrest].
    split; [exact Hnull|].
    intros Hno rest. fold search_start start rest in Hrest.
    split; [exact (Hrest Hno)|].
    apply split_first_absent.
    intros Hin. apply In_nth_error in Hin. destruct Hin as [j Hj].
    assert (j < Z.to_nat (path_len + 20))%nat as Hlt.
    { assert (nth_error rest j <> None) as Hs by (rewrite Hj; discriminate).
      apply nth_error_Some in Hs. unfold rest in Hs.
      rewrite length_firstn in Hs. lia. }
    unfold rest in Hj. rewrite nth_error_firstn in Hj.
    replace (j <? Z.to_nat (path_len + 20))%nat with true in Hj
      by (symmetry; apply Nat.ltb_lt; exact Hlt).
    rewrite nth_error_skipn in Hj.
    now apply (Hno (start + j)%nat ltac:(lia)).
  - intros sep a r Ha. split.
    + now apply split_first_app.
    + now apply split_first_absent.
Qed.

Lemma C5_path_resolution_witness :
  resolve_path sample_region 0 17 = Py.str_of "/$bunfs/root/a.js"
  /\ resolve_path (Py.bytes_of "lib/b.js") 0 8 = Py.str_of "lib/b.js"
  /\ resolve_path (BUNFS_ROOT ++ [x2f; x61] ++ repeat xff 40) 0 14
     = Py.str_of "/$bunfs/root/a" ++ repeat 0xFFFD 20
  /\ Py.split_first x00 (Py.bytes_of "a.js" ++ x00 :: Py.bytes_of "b")
     = Py.bytes_of "a.js"
  /\ Py.decode (map byte_of_Z (utf8_encode 0x20AC) ++ [xff; xe2; x41; xc3])
     = [0x20AC; 0xFFFD; 0xFFFD; 0x41; 0xFFFD]
  /\ Py.decode [xe0; x80; xed; xa0; xf0; x9f; x98; x41; xe2; x82]
     = [0xFFFD; 0xFFFD; 0xFFFD; 0xFFFD; 0xFFFD; 0x41; 0xFFFD].
Proof.
  destruct C5_path_resolution as (Hcases & _ & Hsplit & Hdecode).
  destruct Hdecode
    as (_ & Hascii & Hvalid & Hstart & Hlead & Hsecond & Htwo & _ & _
        & Hfourth).
  split; [|split; [|split; [|split; [|split]]]].
  - destruct (Hcases sample_region 0 17) as [_ H]; [lia | lia |].
    destruct (H 0%nat) as [H1 _].
    + apply rfind_at_last. reflexivity.
    + apply rfind_at_last. reflexivity.
    + apply (H1 17%nat); [lia | reflexivity |].
      intros j Hj.
      do 17 (destruct j as [|j]; [vm_compute; discriminate|]). lia.
  - destruct (Hcases (Py.bytes_of "lib/b.js") 0 8) as [H _];
      [lia | lia |].
    apply H. apply rfind_at_none. reflexivity.
  - destruct (Hcases (BUNFS_ROOT ++ [x2f; x61] ++ repeat xff 40) 0 14)
      as [_ H]; [lia | lia |].
    destruct (H 0%nat) as [_ H2].
    + apply rfind_at_last. reflexivity.
    + apply rfind_at_last. reflexivity.
    + destruct H2 as [H2 H3].
      * intros j _ Hj. apply nth_error_In in Hj.
        repeat (destruct Hj as [Hj | Hj]; [discriminate|]). destruct Hj.
      * etransitivity; [exact H2|]. cbv zeta in H3. rewrite H3. reflexivity.
  - apply Hsplit. intros Hin.
    repeat (destruct Hin as [Hin | Hin]; [discriminate|]). destruct Hin.
  - rewrite Hvalid by (left; lia).
    rewrite (Hstart xff) by (right; vm_compute; discriminate).
    rewrite (Hsecond xe2 x41).
    + change [x41; xc3] with ([x41] ++ [xc3]).
      rewrite (Hascii [x41] [xc3] eq_refl).
      now rewrite (Hlead xc3)
        by (vm_compute; split; (discriminate || reflexivity)).
    + vm_compute; split; (discriminate || reflexivity).
    + change (Py.byte_val xe2) with 226. change (Py.byte_val x41) with 65.
      unfold continues, is_trail. lia.
  - rewrite (Hsecond xe0 x80).
    2: vm_compute; split; (discriminate || reflexivity).
    2: { change (Py.byte_val xe0) with 224. change (Py.byte_val x80) with 128.
         unfold continues, is_trail. lia. }
    rewrite (Hstart x80) by (left; vm_compute; split; (discriminate || reflexivity)).
    rewrite (Hsecond xed xa0).
    2: vm_compute; split; (discriminate || reflexivity).
    2: { change (Py.byte_val xed) with 237. change (Py.byte_val xa0) with 160.
         unfold continues, is_trail. lia. }
    rewrite (Hstart xa0) by (left; vm_compute; split; (discriminate || reflexivity)).
    rewrite (Hfourth xf0 x9f x98 x41).
    2: vm_compute; split; (discriminate || reflexivity).
    2: { change (Py.byte_val xf0) with 240. change (Py.byte_val x9f) with 159.
         unfold continues, is_trail. lia. }
    2: { change (Py.byte_val x98) with 152. unfold is_trail. lia. }
    2: { change (Py.byte_val x41) with 65. unfold is_trail. lia. }
    change [x41; xe2; x82] with ([x41] ++ [xe2; x82]).
    rewrite (Hascii [x41] [xe2; x82] eq_refl).
    rewrite (Htwo xe2 x82).
    + reflexivity.
    + vm_compute; split; (discriminate || reflexivity).
    + change (Py.byte_val xe2) with 226. change (Py.byte_val x82) with 130.
      unfold continues, is_trail. lia.
Defined.

(** The entry of [long_entry_region] is declared with its first 14
    bytes.  No null byte lies within the [14 + 20] bytes at the marker,
    the first one is at index 1014, and the path is read up to it: 1014
    characters, not the 34 of the bounded read.  No bound will do: an
    entry of the root, [n] bytes and a null byte gives a path of
    [12 + n] characters for a declared length of 12. *)
Lemma C5_counterexample :
  Py.find (Py.slice long_entry_region 0 (0 + 14 + 20)) [x00] 0 = -1
  /\ Py.find long_entry_region [x00] 0 = 1014
  /\ resolve_path long_entry_region 0 14 =
     Py.str_of "/$bunfs/root/a" ++ repeat 98 1000
  /\ Py.len (resolve_path long_entry_region 0 14) = 1014
  /\ resolve_path long_entry_region 0 14 <>
     Py.decode (Py.split_first x00
                  (Py.slice long_entry_region 0 (0 + 14 + 20)))
  /\ Py.len (Py.decode (Py.split_first x00
                          (Py.slice long_entry_region 0 (0 + 14 + 20)))) = 34
  /\ forall n : nat,
       Py.len (resolve_path (BUNFS_ROOT ++ repeat x61 n ++ [x00]) 0 12)
       = 12 + Z.of_nat n.
Proof.
  repeat split; try (vm_compute; reflexivity).
  - intros H. apply (f_equal (@length Z)) in H. vm_compute in H. discriminate.
  - intros n. rewrite resolve_path_long. unfold Py.len.
    rewrite length_app, repeat_length.
    change (length (Py.str_of "/$bunfs/root")) with 12%nat. lia.
Qed.

(** ** The placeholder *)

Lemma slice_nil {A : Type} (lo hi : Z) : Py.slice (@nil A) lo hi = [].
Proof.
  unfold Py.slice. now rewrite skipn_nil, firstn_nil.
Qed.

Lemma resolve_path_nil (path_off path_len : Z) :
  resolve_path [] path_off path_len = [].
Proof.
  unfold resolve_path. cbv zeta. now rewrite !slice_nil.
Qed.

(** C6, as the code has it: [module_path] is a total function of the
    section, the two path fields and the index, so path recovery yields a
    string on every input; the string is never empty; when nothing is
    left after the root prefix and the separators are stripped it is
    [module_<i>.js], the decimal index between [module_] and [.js]; and
    that is what an empty section gives for every offset and length. *)
Theorem C6_placeholder (section : bytes) (path_off path_len i : Z) :
  (strip_path (resolve_path section path_off path_len) = [] ->
   module_path section path_off path_len i =
   Py.str_of "module_" ++ Py.str_of_int i ++ Py.str_of ".js")
  /\ (strip_path (resolve_path section path_off path_len) <> [] ->
      module_path section path_off path_len i =
      strip_path (resolve_path section path_off path_len))
  /\ module_path section path_off path_len i <> []
  /\ module_path [] path_off path_len i =
     Py.str_of "module_" ++ Py.str_of_int i ++ Py.str_of ".js".
Proof.
  unfold module_path. rewrite resolve_path_nil.
  destruct (strip_path (resolve_path section path_off path_len)) as [|c p].
  - repeat split; try reflexivity; [congruence | discriminate].
  - repeat split; try reflexivity; discriminate.
Qed.

Lemma C6_placeholder_witness :
  module_path [x2f; x00; x0a; x09] 0 4 12 = Py.str_of "module_12.js"
  /\ module_path (Py.bytes_of "/$bunfs/root/a.js") 0 17 12 = Py.str_of "a.js".
Proof.
  split.
  - apply (proj1 (C6_placeholder [x2f; x00; x0a; x09] 0 4 12)). reflexivity.
  - apply (proj1 (proj2 (C6_placeholder
                           (Py.bytes_of "/$bunfs/root/a.js") 0 17 12))).
    vm_compute. discriminate.
Defined.

(** Record 3 of an empty section: nothing is left after stripping, and
    the path returned is [module_3.js], which is not [module_3]. *)
Lemma C6_counterexample :
  strip_path (resolve_path [] 0 0) = []
  /\ module_path [] 0 0 3 = Py.str_of "module_3.js"
  /\ module_path [] 0 0 3 <> Py.str_of "module_3".
Proof.
  repeat split. discriminate.
Qed.

(** ** What every successful decode has *)

Lemma for_range_ok_inv (body : Z -> result EmbeddedModule) (count : nat) :
  forall (i : Z) (acc modules : list EmbeddedModule),
  for_range body i count acc = Ok modules ->
  exists ms,
    modules = acc ++ ms
    /\ length ms = count
    /\ forall k m, nth_error ms k = Some m -> body (i + Z.of_nat k) = Ok m.
Proof.
  induction count as [|c IH]; intros i acc modules H.
  - injection H as <-. exists []. rewrite app_nil_r. repeat split.
    intros [|k] m Hk; discriminate.
  - cbn [for_range] in H. destruct (body i) as [m0|e] eqn:E; [|discriminate].
    cbn [bind] in H. apply IH in H. destruct H as (ms & -> & Hl & Hb).
    exists (m0 :: ms). rewrite <- app_assoc. repeat split.
    + simpl. now rewrite Hl.
    + intros [|k] m Hk.
      * injection Hk as <-. now rewrite Z.add_0_r.
      * replace (i + Z.of_nat (S k)) with (i + 1 + Z.of_nat k) by lia.
        now apply Hb.
Qed.

Lemma unpack_ok_range (s : bytes) (off v : Z) :
  Py.unpack_from_u32 s off = Ok v -> 0 <= v < 4294967296.
Proof.
  unfold Py.unpack_from_u32.
  destruct (_ && _); [discriminate|].
  destruct (_ && _); [discriminate|].
  destruct (_ <? 4); [discriminate|].
  intros H. injection H as <-.
  set (t := skipn _ s). clearbody t.
  destruct t as [|a [|b [|c [|d t]]]]; cbn [firstn Py.le_int];
    repeat match goal with
    | |- context [Py.byte_val ?x] =>
        lazymatch goal with
        | _ : 0 <= Py.byte_val x < 256 |- _ => fail
        | _ => pose proof (byte_val_range x)
        end
    end; lia.
Qed.

Lemma extract_module_ok_inv
  (section : bytes) (metadata_start chunk_size i : Z) (m : EmbeddedModule) :
  extract_module section metadata_start chunk_size i = Ok m ->
  exists path_off path_len contents_off contents_len,
    0 <= path_off < 4294967296
    /\ 0 <= path_len < 4294967296
    /\ 0 <= contents_off < 4294967296
    /\ 0 <= contents_len < 4294967296
    /\ m = mkModule i (module_path section path_off path_len i)
             (Py.slice section contents_off (contents_off + contents_len))
             (classify
                (Py.slice section contents_off (contents_off + contents_len))).
Proof.
  unfold extract_module. cbv zeta.
  set (off := metadata_start + i * chunk_size).
  destruct (Py.unpack_from_u32 section off) as [po|] eqn:E1; [|discriminate].
  cbn [bind].
  destruct (Py.unpack_from_u32 section (off + 4)) as [pl|] eqn:E2;
    [|discriminate].
  cbn [bind].
  destruct (Py.unpack_from_u32 section (off + 8)) as [co|] eqn:E3;
    [|discriminate].
  cbn [bind].
  destruct (Py.unpack_from_u32 section (off + 12)) as [cl|] eqn:E4;
    [|discriminate].
  cbn [bind]. intros H. injection H as <-.
  apply unpack_ok_range in E1, E2, E3, E4.
  exists po, pl, co, cl. repeat split; lia.
Qed.

Lemma extract_modules_ok_inv
  (section : bytes) (footer : Footer) (modules : list EmbeddedModule) :
  extract_modules section footer = Ok modules ->
  exists w,
    find_chunk_size (modules_ptr_length footer) = Some w
    /\ length modules = Z.to_nat (modules_ptr_length footer / w)
    /\ forall i m,
         nth_error modules i = Some m ->
         extract_module section
           (Py.len section - (offset_byte_count footer + 48)
            + modules_ptr_offset footer) w (Z.of_nat i) = Ok m.
Proof.
  unfold extract_modules.
  destruct (find_chunk_size (modules_ptr_length footer)) as [w|]; [|discriminate].
  intros H. apply for_range_ok_inv in H. destruct H as (ms & -> & Hl & Hb).
  exists w. repeat split; [exact Hl|]. intros i m Hm.
  apply Hb in Hm. exact Hm.
Qed.

(** X1: whenever [extract_modules] returns, for records read at any
    offsets, the list has [modules_ptr_length // chunk_size] entries for
    the chunk size inferred, entry [i] carries index [i], and its
    [is_text] is the classification of its own contents. *)
Theorem X1_count_and_indices
  (section : bytes) (footer : Footer) (modules : list EmbeddedModule) :
  extract_modules section footer = Ok modules ->
  exists w,
    find_chunk_size (modules_ptr_length footer) = Some w
    /\ length modules = Z.to_nat (modules_ptr_length footer / w)
    /\ forall i m,
         nth_error modules i = Some m ->
         index m = Z.of_nat i /\ is_text m = classify (contents m).
Proof.
  intros H. apply extract_modules_ok_inv in H.
  destruct H as (w & Hw & Hl & Hb). exists w. repeat split; try assumption.
  - apply Hb in H. apply extract_module_ok_inv in H.
    destruct H as (po & pl & co & cl & _ & _ & _ & _ & ->). reflexivity.
  - apply Hb in H. now apply extract_module_is_text in H.
Qed.

Lemma X1_count_and_indices_witness :
  exists modules,
    extract_modules sample_region sample_footer = Ok modules
    /\ length modules = 1%nat
    /\ forall m, nth_error modules 0 = Some m -> index m = 0.
Proof.
  eexists. split; [reflexivity|].
  destruct (X1_count_and_indices sample_region sample_footer _ eq_refl)
    as (w & Hw & Hl & Hm).
  split; [reflexivity|]. intros m H. now apply (Hm 0%nat m).
Defined.

Lemma slice_infix {A : Type} (s : list A) (lo hi : Z) :
  exists a b, s = a ++ Py.slice s lo hi ++ b.
Proof.
  unfold Py.slice.
  set (l := Z.to_nat (Py.clamp_index (Py.len s) lo)).
  set (n := Z.to_nat (_ - _)).
  exists (firstn l s), (skipn n (skipn l s)).
  now rewrite firstn_skipn, firstn_skipn.
Qed.

(** X2: the contents of every module that [extract_modules] returns are a
    contiguous piece of the section, whatever offsets and lengths the
    records declare: no byte is made up, and a module is never longer
    than the section. *)
Theorem X2_contents_lie_in_section
  (section : bytes) (footer : Footer) (modules : list EmbeddedModule)
  (m : EmbeddedModule) :
  extract_modules section footer = Ok modules ->
  In m modules ->
  (exists a b, section = a ++ contents m ++ b)
  /\ (length (contents m) <= length section)%nat.
Proof.
  intros H Hin. apply extract_modules_ok_inv in H.
  destruct H as (w & _ & _ & Hb).
  apply In_nth_error in Hin. destruct Hin as [i Hi].
  apply Hb in Hi. apply extract_module_ok_inv in Hi.
  destruct Hi as (po & pl & co & cl & _ & _ & _ & _ & ->). cbn [contents].
  split; [apply slice_infix | apply length_slice_le].
Qed.

Lemma X2_contents_lie_in_section_witness :
  exists m,
    extract_modules overlong_region overlong_footer = Ok [m]
    /\ (exists a b, overlong_region = a ++ contents m ++ b)
    /\ (length (contents m) <= 76)%nat.
Proof.
  eexists. split; [reflexivity|].
  apply (X2_contents_lie_in_section overlong_region overlong_footer _ _ eq_refl).
  now left.
Defined.

(** ** The shape of a module path *)

Lemma lstrip_head (chars s : str) (c : Z) (r : str) :
  Py.lstrip chars s = c :: r -> Py.char_in c chars = false.
Proof.
  induction s as [|a s IH]; simpl; [discriminate|].
  destruct (Py.char_in a chars) eqn:E; [exact IH|].
  intros H. injection H as <- <-. exact E.
Qed.

Lemma lstrip_keeps_last (chars l : str) (c : Z) :
  Py.char_in c chars = false ->
  exists q, Py.lstrip chars (l ++ [c]) = q ++ [c].
Proof.
  intros Hc. induction l as [|a l IH]; simpl.
  - rewrite Hc. now exists [].
  - destruct (Py.char_in a chars); [exact IH | now exists (a :: l)].
Qed.

(** What [strip] returns is empty or starts and ends with a character
    that is not stripped. *)
Lemma strip_ends (chars s : str) :
  Py.strip chars s = []
  \/ (exists c, hd_error (Py.strip chars s) = Some c
                /\ Py.char_in c chars = false)
     /\ (exists c, hd_error (rev (Py.strip chars s)) = Some c
                   /\ Py.char_in c chars = false).
Proof.
  unfold Py.strip, Py.rstrip.
  destruct (Py.lstrip chars s) as [|d x] eqn:Ex; [now left|].
  pose proof (lstrip_head _ _ _ _ Ex) as Hd.
  cbn [rev]. destruct (lstrip_keeps_last chars (rev x) d Hd) as [q Hq].
  right. rewrite rev_involutive, Hq, rev_app_distr. cbn [rev app hd_error].
  split; [now exists d|].
  destruct q as [|e q].
  - exists d. now split.
  - exists e. split; [reflexivity|]. now apply (lstrip_head _ _ _ _ Hq).
Qed.

Lemma char_in_strip_chars (c : Z) :
  Py.char_in c STRIP_CHARS = false <-> c <> 47 /\ c <> 10 /\ c <> 9 /\ c <> 0.
Proof.
  unfold Py.char_in, STRIP_CHARS. cbn [existsb].
  rewrite !orb_false_iff, !Z.eqb_neq. tauto.
Qed.

Lemma module_path_ends (section : bytes) (path_off path_len i : Z) :
  (exists c, hd_error (module_path section path_off path_len i) = Some c
             /\ c <> 47 /\ c <> 10 /\ c <> 9 /\ c <> 0)
  /\ (exists c,
        hd_error (rev (module_path section path_off path_len i)) = Some c
        /\ c <> 47 /\ c <> 10 /\ c <> 9 /\ c <> 0).
Proof.
  unfold module_path, strip_path.
  destruct (strip_ends STRIP_CHARS
              (strip_first_prefix ROOT_PREFIXES
                 (resolve_path section path_off path_len)))
    as [-> | [(c & Hc & Hin) (d & Hd & Hdin)]].
  - unfold placeholder. split.
    + exists 109. repeat split; discriminate.
    + exists 115. rewrite !rev_app_distr. repeat split; discriminate.
  - destruct (Py.strip _ _) as [|x r]; [discriminate|].
    apply char_in_strip_chars in Hin, Hdin.
    split; [now exists c | now exists d].
Qed.

(** X3: the path of every module that [extract_modules] returns is not
    empty and neither starts nor ends with a slash, a newline, a tab or a
    null character; in particular it is never an absolute path. *)
Theorem X3_path_shape
  (section : bytes) (footer : Footer) (modules : list EmbeddedModule)
  (m : EmbeddedModule) :
  extract_modules section footer = Ok modules ->
  In m modules ->
  (exists c, hd_error (path m) = Some c
             /\ c <> 47 /\ c <> 10 /\ c <> 9 /\ c <> 0)
  /\ (exists c, hd_error (rev (path m)) = Some c
                /\ c <> 47 /\ c <> 10 /\ c <> 9 /\ c <> 0).
Proof.
  intros H Hin. apply extract_modules_ok_inv in H.
  destruct H as (w & _ & _ & Hb).
  apply In_nth_error in Hin. destruct Hin as [i Hi].
  apply Hb in Hi. apply extract_module_ok_inv in Hi.
  destruct Hi as (po & pl & co & cl & _ & _ & _ & _ & ->). cbn [path].
  apply module_path_ends.
Qed.

Lemma X3_path_shape_witness :
  exists m,
    extract_modules sample_region sample_footer = Ok [m]
    /\ path m = Py.str_of "a.js"
    /\ exists c, hd_error (path m) = Some c /\ c <> 47.
Proof.
  eexists. split; [reflexivity|]. split; [reflexivity|].
  destruct (X3_path_shape sample_region sample_footer _ _ eq_refl
              (or_introl eq_refl)) as [(c & Hc & H47 & _) _].
  exists c. now split.
Defined.

(** ** Which chunk size a table gets *)

Lemma find_chunk_size_52 (n : Z) :
  find_chunk_size n = Some 52 <-> n mod 52 = 0.
Proof.
  unfold find_chunk_size, CHUNK_SIZES. cbn [first_divisor].
  destruct (n mod 52 =? 0) eqn:E52;
    [apply Z.eqb_eq in E52 | apply Z.eqb_neq in E52].
  - tauto.
  - destruct (n mod 28 =? 0); [split; [discriminate | contradiction]|].
    destruct (n mod 32 =? 0); split; try discriminate; contradiction.
Qed.

Lemma find_chunk_size_28 (n : Z) :
  find_chunk_size n = Some 28 <-> n mod 52 <> 0 /\ n mod 28 = 0.
Proof.
  unfold find_chunk_size, CHUNK_SIZES. cbn [first_divisor].
  destruct (n mod 52 =? 0) eqn:E52;
    [apply Z.eqb_eq in E52 | apply Z.eqb_neq in E52].
  - split; [discriminate | tauto].
  - destruct (n mod 28 =? 0) eqn:E28;
      [apply Z.eqb_eq in E28 | apply Z.eqb_neq in E28]; [tauto|].
    destruct (n mod 32 =? 0); split; try discriminate; tauto.
Qed.

Lemma find_chunk_size_32 (n : Z) :
  find_chunk_size n = Some 32 <->
  n mod 52 <> 0 /\ n mod 28 <> 0 /\ n mod 32 = 0.
Proof.
  unfold find_chunk_size, CHUNK_SIZES. cbn [first_divisor].
  destruct (n mod 52 =? 0) eqn:E52;
    [apply Z.eqb_eq in E52 | apply Z.eqb_neq in E52].
  - split; [discriminate | tauto].
  - destruct (n mod 28 =? 0) eqn:E28;
      [apply Z.eqb_eq in E28 | apply Z.eqb_neq in E28].
    + split; [discriminate | tauto].
    + destruct (n mod 32 =? 0) eqn:E32;
        [apply Z.eqb_eq in E32 | apply Z.eqb_neq in E32]; [tauto|].
      split; [discriminate | tauto].
Qed.

(** X4: the chunk size is inferred from the length of the table alone, so
    a table of [n] records is read with the width it was written with in
    these cases only: always for 52-byte records; for 28-byte records
    when [n] is not a multiple of 13; for 32-byte records when [n] is a
    multiple of neither 13 nor 7.  A table of [13 * k] records of 28 bytes
    is read with chunk size 52, and a decode that returns gives [7 * k]
    modules. *)
Theorem X4_chunk_size_ambiguity :
  (forall n, find_chunk_size (52 * n) = Some 52)
  /\ (forall n, find_chunk_size (28 * n) = Some 28 <-> n mod 13 <> 0)
  /\ (forall n, find_chunk_size (32 * n) = Some 32 <->
                n mod 13 <> 0 /\ n mod 7 <> 0)
  /\ (forall (section : bytes) (footer : Footer) modules k,
        0 <= k ->
        modules_ptr_length footer = 28 * (13 * k) ->
        extract_modules section footer = Ok modules ->
        find_chunk_size (modules_ptr_length footer) = Some 52
        /\ length modules = Z.to_nat (7 * k)).
Proof.
  split; [|split; [|split]].
  - intros n. apply find_chunk_size_52.
    rewrite Z.mul_comm. apply Z.mod_mul. lia.
  - intros n. rewrite find_chunk_size_28.
    pose proof (Z.mod_pos_bound (28 * n) 52 ltac:(lia)).
    pose proof (Z.mod_pos_bound (28 * n) 28 ltac:(lia)).
    pose proof (Z.mod_pos_bound n 13 ltac:(lia)).
    pose proof (Z.div_mod (28 * n) 52 ltac:(lia)).
    pose proof (Z.div_mod (28 * n) 28 ltac:(lia)).
    pose proof (Z.div_mod n 13 ltac:(lia)).
    lia.
  - intros n. rewrite find_chunk_size_32.
    pose proof (Z.mod_pos_bound (32 * n) 52 ltac:(lia)).
    pose proof (Z.mod_pos_bound (32 * n) 28 ltac:(lia)).
    pose proof (Z.mod_pos_bound (32 * n) 32 ltac:(lia)).
    pose proof (Z.mod_pos_bound n 13 ltac:(lia)).
    pose proof (Z.mod_pos_bound n 7 ltac:(lia)).
    pose proof (Z.div_mod (32 * n) 52 ltac:(lia)).
    pose proof (Z.div_mod (32 * n) 28 ltac:(lia)).
    pose proof (Z.div_mod (32 * n) 32 ltac:(lia)).
    pose proof (Z.div_mod n 13 ltac:(lia)).
    pose proof (Z.div_mod n 7 ltac:(lia)).
    lia.
  - intros section footer modules k Hk Hlen Hrun.
    assert (find_chunk_size (modules_ptr_length footer) = Some 52) as H52.
    { apply find_chunk_size_52. rewrite Hlen.
      replace (28 * (13 * k)) with (7 * k * 52) by lia.
      apply Z.mod_mul. lia. }
    split; [exact H52|].
    apply extract_modules_ok_inv in Hrun.
    destruct Hrun as (w & Hw & Hl & _).
    rewrite H52 in Hw. injection Hw as <-. rewrite Hl, Hlen.
    replace (28 * (13 * k)) with (7 * k * 52) by lia.
    now rewrite Z.div_mul by lia.
Qed.

Lemma X4_chunk_size_ambiguity_witness :
  find_chunk_size (28 * 13) = Some 52
  /\ exists modules,
       extract_modules (repeat x00 400) (mkFooter 352 0 0 364) = Ok modules
       /\ length modules = 7%nat.
Proof.
  split; [reflexivity|].
  destruct (extract_modules (repeat x00 400) (mkFooter 352 0 0 364))
    as [modules|e] eqn:E; [|vm_compute in E; discriminate].
  exists modules. split; [reflexivity|].
  apply (proj2 (proj2 (proj2 X4_chunk_size_ambiguity))
           (repeat x00 400) (mkFooter 352 0 0 364) modules 1);
    [lia | reflexivity | exact E].
Defined.

(** ** Records at negative offsets *)

Lemma unpack_from_end (s : bytes) (off : Z) :
  - Py.len s <= off <= -4 ->
  Py.unpack_from_u32 s off = Py.unpack_from_u32 s (off + Py.len s).
Proof.
  intros H. unfold Py.unpack_from_u32.
  replace (off <? 0) with true by (symmetry; apply Z.ltb_lt; lia).
  replace (0 <? off + 4) with false by (symmetry; apply Z.ltb_ge; lia).
  replace (off + Py.len s <? 0) with false by (symmetry; apply Z.ltb_ge; lia).
  cbn [andb]. reflexivity.
Qed.

Lemma for_range_ext (body1 body2 : Z -> result EmbeddedModule) (count : nat) :
  forall (i : Z) (acc : list EmbeddedModule),
  (forall j, i <= j < i + Z.of_nat count -> body1 j = body2 j) ->
  for_range body1 i count acc = for_range body2 i count acc.
Proof.
  induction count as [|c IH]; intros i acc H; [reflexivity|].
  cbn [for_range]. rewrite (H i) by lia.
  destruct (body2 i) as [m|e]; [|reflexivity]. cbn [bind].
  apply IH. intros j Hj. apply H. lia.
Qed.

Lemma extract_module_from_end
  (section : bytes) (metadata_start chunk_size i : Z) :
  - Py.len section <= metadata_start + i * chunk_size <= -16 ->
  extract_module section metadata_start chunk_size i =
  extract_module section (metadata_start + Py.len section) chunk_size i.
Proof.
  intros H. unfold extract_module. cbv zeta.
  set (off := metadata_start + i * chunk_size) in *.
  replace (metadata_start + Py.len section + i * chunk_size)
    with (off + Py.len section) by (unfold off; lia).
  rewrite (unpack_from_end section off) by lia.
  rewrite (unpack_from_end section (off + 4)) by lia.
  rewrite (unpack_from_end section (off + 8)) by lia.
  rewrite (unpack_from_end section (off + 12)) by lia.
  replace (off + 4 + Py.len section) with (off + Py.len section + 4) by lia.
  replace (off + 8 + Py.len section) with (off + Py.len section + 8) by lia.
  replace (off + 12 + Py.len section) with (off + Py.len section + 12) by lia.
  reflexivity.
Qed.

(** X5: a negative record offset is not an error.  When every record
    offset [metadata_start + i * chunk_size] lies between [-len(section)]
    and [-16], [struct.unpack_from] counts it from the end of the
    section, and [extract_modules] returns what it returns for the footer
    whose [offset_byte_count] is smaller by the length of the section. *)
Theorem X5_negative_offsets_wrap (section : bytes) (footer : Footer) (w : Z) :
  find_chunk_size (modules_ptr_length footer) = Some w ->
  let metadata_start :=
    Py.len section - (offset_byte_count footer + 48)
    + modules_ptr_offset footer in
  (forall i, 0 <= i < modules_ptr_length footer / w ->
     - Py.len section <= metadata_start + i * w <= -16) ->
  extract_modules section footer =
  extract_modules section
    (mkFooter (offset_byte_count footer - Py.len section)
              (entrypoint_id footer) (modules_ptr_offset footer)
              (modules_ptr_length footer)).
Proof.
  intros Hw ms Hb. unfold extract_modules.
  cbn [offset_byte_count modules_ptr_offset modules_ptr_length].
  rewrite Hw. fold ms.
  replace (Py.len section - (offset_byte_count footer - Py.len section + 48)
           + modules_ptr_offset footer) with (ms + Py.len section)
    by (unfold ms; lia).
  apply for_range_ext. intros j Hj.
  apply extract_module_from_end. apply Hb. lia.
Qed.

Lemma X5_negative_offsets_wrap_witness :
  extract_modules sample_region (mkFooter 150 0 23 28)
  = Ok [mkModule 0 (Py.str_of "a.js") (Py.bytes_of "hello") false].
Proof.
  rewrite (X5_negative_offsets_wrap sample_region (mkFooter 150 0 23 28) 28
             eq_refl).
  - reflexivity.
  - intros i Hi.
    assert (i = 0) as ->
      by (change (modules_ptr_length (mkFooter 150 0 23 28) / 28) with 1 in Hi;
          lia).
    vm_compute. split; discriminate.
Defined.

(** ** More on the classification *)

Lemma forallb_filter_id {A : Type} (f : A -> bool) (l : list A) :
  forallb f l = true -> filter f l = l.
Proof.
  induction l as [|x l IH]; simpl; [reflexivity|].
  intros H. apply andb_true_iff in H. destruct H as [Hx Hl].
  rewrite Hx. f_equal. now apply IH.
Qed.

Lemma forallb_firstn {A : Type} (f : A -> bool) (n : nat) (l : list A) :
  forallb f l = true -> forallb f (firstn n l) = true.
Proof.
  revert l. induction n as [|n IH]; intros [|x l]; simpl; try reflexivity.
  intros H. apply andb_true_iff in H. destruct H as [Hx Hl].
  rewrite Hx. now apply IH.
Qed.

(** X6: the classification reads the first 1000 bytes only: whatever
    follows them does not change it. *)
Theorem X6_classify_reads_1000 (contents extra : bytes) :
  (1000 <= length contents)%nat ->
  classify (contents ++ extra) = classify contents.
Proof.
  intros H. unfold classify. rewrite !allowed_count_filter.
  rewrite firstn_app. replace (1000 - length contents)%nat with 0%nat by lia.
  now rewrite firstn_O, app_nil_r.
Qed.

Lemma X6_classify_reads_1000_witness :
  classify (repeat x61 1000 ++ repeat x00 5000) = true.
Proof.
  rewrite (X6_classify_reads_1000 (repeat x61 1000) (repeat x00 5000)).
  - vm_compute. reflexivity.
  - rewrite repeat_length. lia.
Defined.

(** X7: contents made of allowed bytes only (printable ASCII, tab,
    newline, carriage return) are text exactly when they are at least 901
    bytes long. *)
Theorem X7_printable_contents (contents : bytes) :
  forallb is_allowed contents = true ->
  (classify contents = true <-> (901 <= length contents)%nat).
Proof.
  intros H. unfold classify. rewrite allowed_count_filter.
  rewrite forallb_filter_id by (now apply forallb_firstn).
  rewrite length_firstn, Z.ltb_lt. lia.
Qed.

Lemma X7_printable_contents_witness :
  classify (repeat x61 901) = true /\ classify (repeat x61 900) = false.
Proof.
  split.
  - apply (X7_printable_contents (repeat x61 901)).
    + vm_compute. reflexivity.
    + rewrite repeat_length. lia.
  - apply not_true_is_false. intros H.
    apply (X7_printable_contents (repeat x61 900)) in H.
    + rewrite repeat_length in H. lia.
    + vm_compute. reflexivity.
Defined.

(** ** More on the wrapper *)

Lemma slice_from_suffix {A : Type} (s : list A) (lo : Z) :
  0 <= lo -> exists p, s = p ++ Py.slice_from s lo.
Proof.
  intros H. rewrite slice_from_skipn by assumption.
  exists (firstn (Z.to_nat lo) s). symmetry. apply firstn_skipn.
Qed.

Lemma find_at_nonneg_or_none (sub s : bytes) (pos : Z) :
  0 <= pos -> Py.find_at sub s pos = -1 \/ 0 <= Py.find_at sub s pos.
Proof.
  intros H. destruct (find_at_spec sub s pos) as [[-> _] | (k & -> & _)];
    [now left | right; lia].
Qed.

Lemma skip_padding_nonneg (js : bytes) : 0 <= skip_padding (length js) js 0.
Proof. rewrite skip_padding_all. lia. Qed.

Lemma strip_is_suffix (contents : bytes) :
  exists dropped, contents = dropped ++ strip_bytecode_prefix contents.
Proof.
  unfold strip_bytecode_prefix.
  destruct (Py.find contents WRAPPER 0 <? 0) eqn:E; [now exists []|].
  apply Z.ltb_ge in E. cbv zeta.
  destruct (slice_from_suffix contents
              (Py.find contents WRAPPER 0 + Py.len WRAPPER)) as [p Hp].
  { change (Py.len WRAPPER) with 60. lia. }
  set (js := Py.slice_from contents _) in *.
  destruct (slice_from_suffix js (skip_padding (length js) js 0)
              (skip_padding_nonneg js)) as [q Hq].
  exists (p ++ q). rewrite <- app_assoc, <- Hq. exact Hp.
Qed.

(** X8: [strip_bytecode_prefix] only ever drops a prefix: what it returns
    is a suffix of its argument, so the bytes kept are kept in place and
    none is added. *)
Theorem X8_strip_returns_suffix (contents : bytes) :
  exists dropped, contents = dropped ++ strip_bytecode_prefix contents.
Proof. apply strip_is_suffix. Qed.

Lemma X8_strip_returns_suffix_witness :
  exists dropped,
    Py.bytes_of "// @bun" ++ WRAPPER ++ [x00; x61] =
    dropped ++ strip_bytecode_prefix
                 (Py.bytes_of "// @bun" ++ WRAPPER ++ [x00; x61]).
Proof. apply X8_strip_returns_suffix. Defined.

(** X9: when the wrapper first occurs after some bytes [before], those
    bytes are dropped with it: the result is what follows the first
    occurrence, without the padding bytes it starts with, and it does not
    start with a padding byte. *)
Theorem X9_strip_at_first_wrapper (before b : bytes) :
  (forall k, (k < length before)%nat ->
             ~ occurs_at WRAPPER (before ++ WRAPPER ++ b) k) ->
  strip_bytecode_prefix (before ++ WRAPPER ++ b)
  = skipn (leading_padding b) b
  /\ match strip_bytecode_prefix (before ++ WRAPPER ++ b) with
     | [] => True
     | c :: _ => is_padding c = false
     end.
Proof.
  intros Hfirst.
  assert (Py.find (before ++ WRAPPER ++ b) WRAPPER 0 = Py.len before) as Hfind.
  { unfold Py.find. cbn [Z.ltb Z.compare].
    replace (Py.len (before ++ WRAPPER ++ b) <? 0) with false
      by (symmetry; apply Z.ltb_ge; apply len_nonneg).
    change (skipn (Z.to_nat 0) (before ++ WRAPPER ++ b))
      with (before ++ WRAPPER ++ b).
    assert (occurs_at WRAPPER (before ++ WRAPPER ++ b) (length before)) as Hocc
      by (now exists before, b).
    destruct (find_at_spec WRAPPER (before ++ WRAPPER ++ b) 0)
      as [[_ Hnone] | (k & -> & Hk & Hmin)].
    - now apply Hnone in Hocc.
    - destruct (lt_eq_lt_dec k (length before)) as [[Hlt | Heq] | Hgt].
      + now apply Hfirst in Hk.
      + unfold Py.len. lia.
      + now apply Hmin in Hocc. }
  assert (Py.slice_from (before ++ WRAPPER ++ b) (Py.len before + Py.len WRAPPER)
          = b) as Hjs.
  { rewrite slice_from_skipn
      by (pose proof (len_nonneg before); change (Py.len WRAPPER) with 60; lia).
    replace (Z.to_nat (Py.len before + Py.len WRAPPER))
      with (length before + length WRAPPER)%nat by (unfold Py.len; lia).
    rewrite app_assoc, <- length_app.
    now rewrite skipn_app, Nat.sub_diag, skipn_all. }
  assert (strip_bytecode_prefix (before ++ WRAPPER ++ b)
          = skipn (leading_padding b) b) as Hres.
  { unfold strip_bytecode_prefix. rewrite Hfind, Hjs.
    replace (Py.len before <? 0) with false
      by (symmetry; apply Z.ltb_ge; apply len_nonneg).
    cbv iota zeta. rewrite skip_padding_all.
    rewrite slice_from_skipn by lia. now rewrite Nat2Z.id. }
  split; [exact Hres|]. rewrite Hres.
  destruct (skipn_leading_padding b) as (pad & _ & _ & H). exact H.
Qed.

Lemma X9_strip_at_first_wrapper_witness :
  strip_bytecode_prefix
    (Py.bytes_of "// @bun" ++ WRAPPER ++ [x00; x01] ++ Py.bytes_of "var a;")
  = Py.bytes_of "var a;".
Proof.
  destruct (X9_strip_at_first_wrapper (Py.bytes_of "// @bun")
              ([x00; x01] ++ Py.bytes_of "var a;")) as [H _].
  - intros k Hk Hocc.
    pose proof (occurs_at_bound _ _ _ Hocc) as Hb.
    replace k with (k + 0)%nat in Hocc by lia.
    apply occurs_at_skipn in Hocc; [|lia].
    apply occurs_at_0 in Hocc.
    do 7 (destruct k as [|k]; [vm_compute in Hocc; discriminate|]).
    simpl in Hk. lia.
  - etransitivity; [exact H | reflexivity].
Defined.

(** ** Recovering a path written under the root *)

Lemma startswith_nil (s : str) : Py.startswith s [] = true.
Proof. now destruct s. Qed.

Lemma strip_path_root (t : str) :
  strip_path (Py.str_of "/$bunfs/root" ++ t) = Py.strip STRIP_CHARS t.
Proof.
  unfold strip_path, ROOT_PREFIXES. cbn [strip_first_prefix].
  destruct t as [|c t]; [reflexivity|].
  assert (Py.startswith (Py.str_of "/$bunfs/root" ++ c :: t)
            (Py.str_of "/$bunfs/root/") = (47 =? c)) as ->
    by (cbn; rewrite startswith_nil, andb_true_r; reflexivity).
  assert (Py.startswith (Py.str_of "/$bunfs/root" ++ c :: t)
            (Py.str_of "/$bunfs/root") = true) as -> by reflexivity.
  rewrite !slice_from_skipn by (vm_compute; discriminate).
  destruct (47 =? c) eqn:E.
  - apply Z.eqb_eq in E. subst c. reflexivity.
  - reflexivity.
Qed.

Lemma occurs_at_iff (sub s : bytes) (j : nat) :
  occurs_at sub s j <->
  (j + length sub <= length s)%nat /\ firstn (length sub) (skipn j s) = sub.
Proof.
  split.
  - intros H. split; [now apply occurs_at_bound|].
    destruct H as (p & q & -> & <-).
    rewrite skipn_app, Nat.sub_diag, skipn_all. cbn [app skipn].
    rewrite firstn_app, Nat.sub_diag, firstn_all. cbn [firstn].
    apply app_nil_r.
  - intros [Hb Hf]. exists (firstn j s), (skipn (length sub) (skipn j s)).
    split.
    + rewrite <- Hf at 1. now rewrite firstn_skipn, firstn_skipn.
    + rewrite length_firstn. lia.
Qed.

(** An occurrence that fits inside the middle part of a concatenation is
    an occurrence in that part. *)
Lemma occurs_at_middle (sub p e q : bytes) (j : nat) :
  occurs_at sub (p ++ e ++ q) j ->
  (length p <= j)%nat -> (j + length sub <= length p + length e)%nat ->
  occurs_at sub e (j - length p).
Proof.
  intros H Hp He. apply occurs_at_iff in H. destruct H as [_ Hf].
  apply occurs_at_iff. split; [lia|].
  rewrite <- Hf at 2.
  rewrite skipn_app. rewrite (skipn_all2 p) by lia. cbn [app].
  rewrite skipn_app, firstn_app.
  replace (length sub - length (skipn (j - length p) e))%nat with 0%nat
    by (rewrite length_skipn; lia).
  now rewrite firstn_O, app_nil_r.
Qed.

(** An occurrence that fits inside a window of the section is an
    occurrence in the window. *)
Lemma occurs_at_window (sub s : bytes) (lo n j : nat) :
  occurs_at sub s j ->
  (lo <= j)%nat -> (j + length sub <= lo + n)%nat ->
  occurs_at sub (firstn n (skipn lo s)) (j - lo).
Proof.
  intros H Hlo Hn. apply occurs_at_iff in H. destruct H as [Hb Hf].
  apply occurs_at_iff. split.
  - rewrite length_firstn, length_skipn. lia.
  - rewrite skipn_firstn_comm, skipn_skipn, firstn_firstn.
    replace (j - lo + lo)%nat with j by lia.
    now replace (Nat.min (length sub) (n - (j - lo))) with (length sub) by lia.
Qed.

Lemma forallb_nth_error {A : Type} (f : A -> bool) (l : list A) (k : nat) (x : A) :
  forallb f l = true -> nth_error l k = Some x -> f x = true.
Proof.
  intros H Hk. apply nth_error_In in Hk.
  rewrite forallb_forall in H. now apply H.
Qed.

(** X10: a path written as [/$bunfs/root/<name>] and a null byte is
    recovered as [name] without the separators around it (the
    placeholder when nothing is left), for ASCII names without a null
    byte and with no second occurrence of the root in the entry.  The
    declared offset and length need not be exact: it is enough that the
    window from 50 bytes before [path_off] to 10 bytes after
    [path_off + path_len] covers the root and ends at most 12 bytes after
    the entry. *)
Theorem X10_path_round_trip
  (before name after : bytes) (path_off path_len i : Z) :
  let entry := BUNFS_ROOT ++ [x2f] ++ name in
  let section := before ++ entry ++ [x00] ++ after in
  forallb (fun b => (0 <? Py.byte_val b) && (Py.byte_val b <? 128)) name
  = true ->
  (forall k, (0 < k)%nat -> ~ occurs_at BUNFS_ROOT entry k) ->
  0 <= path_off -> 0 <= path_len ->
  path_off - 50 <= Py.len before ->
  Py.len before + 2 <= path_off + path_len <= Py.len before + Py.len entry + 2 ->
  module_path section path_off path_len i =
  match Py.strip STRIP_CHARS (map Py.byte_val name) with
  | [] => placeholder i
  | p => p
  end.
Proof.
  intros entry section Hname Honce Hpo Hpl Hlo Hhi.
  assert (length BUNFS_ROOT = 12%nat) as Hroot by reflexivity.
  assert (length entry = (13 + length name)%nat) as Hentry
    by (unfold entry; rewrite !length_app, Hroot; simpl; lia).
  assert (forallb (fun b => (0 <? Py.byte_val b) && (Py.byte_val b <? 128))
            entry = true) as Hbytes.
  { unfold entry. rewrite !forallb_app, Hname. reflexivity. }
  set (S0 := length before).
  set (E := (S0 + length entry)%nat).
  assert (occurs_at BUNFS_ROOT section S0) as Hocc.
  { exists before, ([x2f] ++ name ++ [x00] ++ after). split; [|reflexivity].
    unfold section, entry. now rewrite <- !app_assoc. }
  assert (nth_error section E = Some x00) as Hnull.
  { unfold section. rewrite app_assoc, nth_error_app2
      by (rewrite length_app; unfold E, S0; lia).
    rewrite length_app.
    now replace (E - (length before + length entry))%nat with 0%nat
      by (unfold E, S0; lia). }
  assert (forall j, (S0 <= j < E)%nat -> nth_error section j <> Some x00)
    as Hnonnull.
  { intros j Hj Hx. unfold section in Hx.
    rewrite nth_error_app2 in Hx by (fold S0; lia).
    rewrite nth_error_app1 in Hx by (fold S0; unfold E in Hj; lia).
    apply (forallb_nth_error _ _ _ _ Hbytes) in Hx. discriminate. }
  pose proof (resolve_path_cases section path_off path_len Hpo Hpl) as Hcases.
  cbv zeta in Hcases.
  set (lo := Z.to_nat (Z.max 0 (path_off - 50))) in *.
  set (hi := Z.to_nat (path_off + path_len + 10)) in *.
  set (window := firstn (hi - lo) (skipn lo section)) in *.
  assert (lo <= S0)%nat as Hlo' by (unfold lo, S0, Py.len in *; lia).
  assert (S0 + 12 <= hi <= E + 12)%nat as Hhi'
    by (unfold hi, E, S0, Py.len in *; lia).
  destruct Hcases as [_ Hfound].
  destruct (Hfound (S0 - lo)%nat) as [Hpath _].
  - apply occurs_at_window; [exact Hocc | lia | lia].
  - intros k' Hk' Hw.
    pose proof (occurs_at_bound _ _ _ Hw) as Hwb.
    unfold window in Hwb. rewrite length_firstn in Hwb.
    apply occurs_in_window in Hw; [|lia].
    set (j := (lo + k')%nat) in *.
    destruct (le_lt_dec (j + 12) E) as [Hin | Hout].
    + apply (Honce (j - S0)%nat); [lia|].
      unfold section in Hw.
      apply (occurs_at_middle BUNFS_ROOT before entry ([x00] ++ after) j Hw);
        fold S0; unfold E in Hin; lia.
    + pose proof (occurs_at_nth _ _ j (E - j) Hw ltac:(lia)) as Hd.
      replace (j + (E - j))%nat with E in Hd by lia.
      rewrite Hnull in Hd.
      assert (E - j < 12)%nat as Hlt by lia. revert Hd.
      generalize (E - j)%nat as d, Hlt. intros d Hd12.
      do 12 (destruct d as [|d]; [discriminate|]). lia.
  - unfold module_path.
    replace (lo + (S0 - lo))%nat with S0 in Hpath by lia.
    rewrite (Hpath E); [|unfold E; lia | exact Hnull | exact Hnonnull].
    assert (firstn (E - S0) (skipn S0 section) = entry) as ->.
    { unfold section, S0. rewrite skipn_app, Nat.sub_diag, skipn_all.
      cbn [app skipn]. replace (E - length before)%nat with (length entry)
        by (unfold E, S0; lia).
      now rewrite firstn_app, Nat.sub_diag, firstn_all, firstn_O, app_nil_r. }
    rewrite <- (app_nil_r entry), decode_ascii.
    + rewrite app_nil_r. unfold entry. rewrite !map_app.
      change (map Py.byte_val BUNFS_ROOT) with (Py.str_of "/$bunfs/root").
      rewrite strip_path_root. reflexivity.
    + rewrite forallb_forall in Hbytes. apply forallb_forall.
      intros b Hb. apply Hbytes in Hb. apply andb_true_iff in Hb. tauto.
Qed.

Lemma X10_path_round_trip_witness :
  module_path sample_region 0 17 0 = Py.str_of "a.js"
  /\ module_path sample_region 5 3 0 = Py.str_of "a.js".
Proof.
  assert (forall k, (0 < k)%nat ->
            ~ occurs_at BUNFS_ROOT
                (BUNFS_ROOT ++ [x2f] ++ Py.bytes_of "a.js") k) as Honce
    by (apply rfind_at_last; reflexivity).
  split.
  - apply (X10_path_round_trip [] (Py.bytes_of "a.js")
             (Py.bytes_of "hello" ++ pack_record 28 0 17 18 5
              ++ pack_footer sample_footer) 0 17 0);
      [reflexivity | exact Honce | lia | lia
      | vm_compute; discriminate
      | vm_compute; split; discriminate].
  - apply (X10_path_round_trip [] (Py.bytes_of "a.js")
             (Py.bytes_of "hello" ++ pack_record 28 0 17 18 5
              ++ pack_footer sample_footer) 5 3 0);
      [reflexivity | exact Honce | lia | lia
      | vm_compute; discriminate
      | vm_compute; split; discriminate].
Defined.

(** ** What [main] writes *)

Lemma str_eqb_refl (a : str) : Py.str_eqb a a = true.
Proof.
  induction a as [|x a IH]; [reflexivity|]. simpl. now rewrite Z.eqb_refl.
Qed.

Lemma endswith_app (p suffix : str) : Py.endswith (p ++ suffix) suffix = true.
Proof.
  unfold Py.endswith. rewrite len_app.
  replace (Py.len suffix <=? Py.len p + Py.len suffix) with true
    by (symmetry; apply Z.leb_le; pose proof (len_nonneg p); lia).
  replace (Z.to_nat (Py.len p + Py.len suffix - Py.len suffix))
    with (length p) by (unfold Py.len; lia).
  rewrite skipn_app, Nat.sub_diag, skipn_all. cbn [app skipn andb].
  apply str_eqb_refl.
Qed.

(** Every call of [write_bytes] comes from a module that is not skipped,
    with the path and the bytes the loop computes for it. *)
Lemma written_inv (text_only : bool) (modules : list EmbeddedModule) :
  forall (out : Output) (p : str) (c : bytes),
  In (p, c) (written (fold_left (write_module text_only) modules out)) ->
  In (p, c) (written out)
  \/ exists m,
       In m modules
       /\ (text_only = true -> is_text m = true)
       /\ p = (if is_text m && negb (Py.endswith (path m) (Py.str_of ".js"))
               then path m ++ Py.str_of ".js" else path m)
       /\ c = (if is_text m then strip_bytecode_prefix (contents m)
               else contents m).
Proof.
  induction modules as [|m modules IH]; intros out p c H; [now left|].
  cbn [fold_left] in H. apply IH in H. destruct H as [H | (m' & Hin & H)].
  - unfold write_module in H.
    destruct (text_only && negb (is_text m)) eqn:E; [now left|].
    cbn [written] in H. apply in_app_or in H.
    destruct H as [H | [H | []]]; [now left|].
    injection H as <- <-. right. exists m. repeat split; [now left|].
    intros ->. cbn [andb] in E. now apply negb_false_iff in E.
  - right. exists m'. split; [now right | exact H].
Qed.

Lemma text_modules_inv (text_only : bool) (modules : list EmbeddedModule) :
  forall (out : Output) (p : str),
  In p (text_modules (fold_left (write_module text_only) modules out)) ->
  In p (text_modules out)
  \/ exists m,
       In m modules /\ is_text m = true
       /\ p = (if negb (Py.endswith (path m) (Py.str_of ".js"))
               then path m ++ Py.str_of ".js" else path m).
Proof.
  induction modules as [|m modules IH]; intros out p H; [now left|].
  cbn [fold_left] in H. apply IH in H. destruct H as [H | (m' & Hin & H)].
  - unfold write_module in H.
    destruct (text_only && negb (is_text m)) eqn:E; [now left|].
    cbn [text_modules] in H. destruct (is_text m) eqn:Et; [|now left].
    apply in_app_or in H. destruct H as [H | [H | []]]; [now left|].
    subst p. right. exists m. repeat split; [now left | exact Et].
  - right. exists m'. split; [now right | exact H].
Qed.

Lemma write_modules_fold (text_only : bool) (modules : list EmbeddedModule) :
  forall out : Output,
  written (fold_left (write_module text_only) modules out) =
  written out
  ++ map (fun m => (output_path m, output_contents m))
         (filter (fun m => negb text_only || is_text m) modules)
  /\ text_modules (fold_left (write_module text_only) modules out) =
     text_modules out ++ map output_path (filter is_text modules).
Proof.
  induction modules as [|m modules IH]; intros out.
  - cbn. now rewrite !app_nil_r.
  - cbn [fold_left filter]. destruct (IH (write_module text_only out m))
      as [-> ->].
    unfold write_module, output_path, output_contents.
    destruct text_only; destruct (is_text m) eqn:Et;
      cbn [andb negb orb written text_modules map]; rewrite ?Et;
      cbn [andb negb orb]; rewrite <- ?app_assoc; split; reflexivity.
Qed.

Lemma loop_body_eq {World Exception : Type}
  (io : World -> str -> bytes -> bool -> World * option Exception)
  (text_only : bool) (w : World) (q : list str) (m : EmbeddedModule) :
  loop_body io text_only w q m =
  if text_only && negb (is_text m) then mkLoop w q None
  else match io w (output_path m) (output_contents m) (is_text m) with
       | (w', Some e) => mkLoop w' q (Some e)
       | (w', None) =>
           mkLoop w' (if is_text m then q ++ [output_path m] else q) None
       end.
Proof. reflexivity. Qed.

(** X11: the loop of [main] goes through the modules in the order of
    the list, all of them, or the text modules only when [text_only] is
    set, and for each one makes the directories, writes the file and
    prints the line, under the module's path (with [.js] added to a text
    module's path that lacks it) and with its contents (stripped of the
    wrapper for a text module).  The first of these calls that raises
    ends the loop: the modules after it are not written.  The paths and
    bytes are those of [write_modules], of which the loop therefore
    writes a first part; when nothing raises it writes them all, and the
    prettifier gets the paths of the text modules, in order. *)
Theorem X11_main_output {World Exception : Type}
  (io : World -> str -> bytes -> bool -> World * option Exception)
  (text_only : bool) (modules : list EmbeddedModule)
  (w : World) (text_modules0 : list str) :
  let writes :=
    map (fun m => (output_path m, output_contents m, is_text m))
        (filter (fun m => negb text_only || is_text m) modules) in
  main_loop io text_only modules w text_modules0 =
  perform io writes w text_modules0
  /\ map fst writes = written (write_modules text_only modules)
  /\ (raised (main_loop io text_only modules w text_modules0) = None ->
      queued (main_loop io text_only modules w text_modules0) =
      text_modules0 ++ text_modules (write_modules text_only modules)).
Proof.
  intros writes.
  assert (main_loop io text_only modules w text_modules0 =
          perform io writes w text_modules0) as Hrun.
  { unfold writes. clear writes. revert w text_modules0.
    induction modules as [|m modules IH]; intros w q; [reflexivity|].
    cbn [main_loop filter]. rewrite loop_body_eq.
    destruct (negb text_only || is_text m) eqn:E.
    - replace (text_only && negb (is_text m)) with false
        by (destruct text_only, (is_text m); (discriminate || reflexivity)).
      cbn [map perform].
      destruct (io w (output_path m) (output_contents m) (is_text m))
        as [w' [e|]]; cbn [raised world queued]; [reflexivity | apply IH].
    - replace (text_only && negb (is_text m)) with true
        by (destruct text_only, (is_text m); (discriminate || reflexivity)).
      cbn [raised world queued]. apply IH. }
  split; [exact Hrun|]. split.
  - unfold write_modules.
    destruct (write_modules_fold text_only modules (mkOutput [] [])) as [-> _].
    unfold writes. rewrite map_map. reflexivity.
  - unfold write_modules.
    destruct (write_modules_fold text_only modules (mkOutput [] [])) as [_ ->].
    cbn [text_modules app]. clear Hrun writes. revert w text_modules0.
    induction modules as [|m modules IH]; intros w q.
    + intros _. cbn. now rewrite app_nil_r.
    + cbn [main_loop filter]. rewrite loop_body_eq.
      destruct (is_text m) eqn:Et.
      * rewrite andb_false_r.
        destruct (io w (output_path m) (output_contents m) true)
          as [w' [e|]]; cbn [raised world queued]; [discriminate|].
        intros H. rewrite (IH _ _ H). cbn [map]. now rewrite <- app_assoc.
      * destruct text_only; cbn [andb negb].
        -- cbn [raised world queued]. apply IH.
        -- destruct (io w (output_path m) (output_contents m) false)
             as [w' [e|]]; cbn [raised world queued]; [discriminate|].
           apply IH.
Qed.

Lemma X11_main_output_witness :
  main_loop refuse_null false
    [mkModule 0 (Py.str_of "a") (WRAPPER ++ [x00; x61]) true;
     mkModule 1 [120; 0; 121] [x62] false;
     mkModule 2 (Py.str_of "c") [x63] false] [] []
  = mkLoop [(Py.str_of "a.js", [x61])] [Py.str_of "a.js"] (Some tt)
  /\ queued (main_loop refuse_null true
               [mkModule 0 (Py.str_of "a") [x61] true;
                mkModule 1 [120; 0; 121] [x62] false;
                mkModule 2 (Py.str_of "c.js") [x63] true] [] [])
     = [Py.str_of "a.js"; Py.str_of "c.js"].
Proof.
  split.
  - etransitivity; [apply (X11_main_output refuse_null) | reflexivity].
  - etransitivity;
      [apply (X11_main_output refuse_null); reflexivity | reflexivity].
Defined.

(** X12: every path handed to the prettifier ends in [.js], and so does
    every path written when [text_only] is set. *)
Theorem X12_text_paths_end_in_js
  (text_only : bool) (modules : list EmbeddedModule) :
  (forall p, In p (text_modules (write_modules text_only modules)) ->
             Py.endswith p (Py.str_of ".js") = true)
  /\ (text_only = true ->
      forall p c, In (p, c) (written (write_modules text_only modules)) ->
                  Py.endswith p (Py.str_of ".js") = true).
Proof.
  assert (forall m, is_text m = true ->
            Py.endswith
              (if negb (Py.endswith (path m) (Py.str_of ".js"))
               then path m ++ Py.str_of ".js" else path m)
              (Py.str_of ".js") = true) as Hjs.
  { intros m _.
    destruct (Py.endswith (path m) (Py.str_of ".js")) eqn:E; cbn [negb].
    - exact E.
    - apply endswith_app. }
  split.
  - intros p H. apply text_modules_inv in H.
    destruct H as [[] | (m & _ & Ht & ->)]. now apply Hjs.
  - intros -> p c H. apply written_inv in H.
    destruct H as [[] | (m & _ & Ht & -> & _)].
    rewrite (Ht eq_refl). cbn [andb]. apply Hjs. now apply Ht.
Qed.

Lemma X12_text_paths_end_in_js_witness :
  In (Py.str_of "a.js", [x61])
     (written (write_modules true
                 [mkModule 0 (Py.str_of "a") [x61] true;
                  mkModule 1 (Py.str_of "b.js") [x62] true]))
  /\ Py.endswith (Py.str_of "a.js") (Py.str_of ".js") = true.
Proof.
  assert (In (Py.str_of "a.js", [x61])
            (written (write_modules true
                        [mkModule 0 (Py.str_of "a") [x61] true;
                         mkModule 1 (Py.str_of "b.js") [x62] true]))) as Hin
    by (now left).
  split; [exact Hin|].
  exact (proj2 (X12_text_paths_end_in_js true _) eq_refl _ _ Hin).
Defined.

Lemma decode_section_inv (section : bytes) (modules : list EmbeddedModule) :
  decode_section section = Ok modules ->
  exists footer,
    parse_footer section = Ok footer
    /\ extract_modules section footer = Ok modules.
Proof.
  unfold decode_section. destruct (parse_footer section) as [f|e];
    [|discriminate].
  cbn [bind]. intros H. now exists f.
Qed.

Lemma infix_of_suffix (section c x : bytes) :
  (exists a b, section = a ++ c ++ b) -> (exists d, c = d ++ x) ->
  exists a b, section = a ++ x ++ b.
Proof.
  intros (a & b & ->) (d & ->). exists (a ++ d), b.
  now rewrite <- !app_assoc.
Qed.

(** X13: whatever the section holds, each file that [main] writes from
    it is filled with a contiguous piece of the section, and is written
    under a path that is not empty and does not start with a slash, so
    that joining it to the output directory never replaces the
    directory. *)
Theorem X13_files_written
  (section : bytes) (modules : list EmbeddedModule) (text_only : bool)
  (p : str) (c : bytes) :
  decode_section section = Ok modules ->
  In (p, c) (written (write_modules text_only modules)) ->
  (exists a b, section = a ++ c ++ b)
  /\ (exists ch, hd_error p = Some ch /\ ch <> 47).
Proof.
  intros Hdec Hin. apply decode_section_inv in Hdec.
  destruct Hdec as (footer & _ & Hrun).
  apply written_inv in Hin. destruct Hin as [[] | (m & Hm & _ & -> & ->)].
  apply extract_modules_ok_inv in Hrun. destruct Hrun as (w & _ & _ & Hb).
  apply In_nth_error in Hm. destruct Hm as [i Hi].
  apply Hb in Hi. apply extract_module_ok_inv in Hi.
  destruct Hi as (po & pl & co & cl & _ & _ & _ & _ & ->).
  cbn [path contents is_text]. split.
  - destruct (classify _).
    + apply (infix_of_suffix _ _ _ (slice_infix section co (co + cl))).
      apply strip_is_suffix.
    + apply slice_infix.
  - destruct (module_path_ends section po pl (Z.of_nat i))
      as [(ch & Hch & H47 & _) _].
    exists ch. split; [|exact H47].
    destruct (_ && _); [|exact Hch].
    destruct (module_path section po pl (Z.of_nat i));
      [discriminate | exact Hch].
Qed.

Lemma X13_files_written_witness :
  (exists a b, sample_region = a ++ Py.bytes_of "hello" ++ b)
  /\ (exists ch, hd_error (Py.str_of "a.js") = Some ch /\ ch <> 47).
Proof.
  apply (X13_files_written sample_region _ false
           (Py.str_of "a.js") (Py.bytes_of "hello") eq_refl).
  now left.
Defined.

(** ** Regions shorter than a footer *)

Lemma unpack_cases (s : bytes) (off : Z) :
  (((0 <= off /\ off + 4 <= Py.len s) \/ - Py.len s <= off <= -4)
   /\ exists v, Py.unpack_from_u32 s off = Ok v)
  \/ (~ ((0 <= off /\ off + 4 <= Py.len s) \/ - Py.len s <= off <= -4)
      /\ Py.unpack_from_u32 s off = Raise StructError).
Proof.
  unfold Py.unpack_from_u32.
  destruct (Z.ltb_spec off 0) as [Hneg | Hpos]; cbn [andb].
  - destruct (Z.ltb_spec 0 (off + 4)); [right; split; [lia | reflexivity]|].
    destruct (Z.ltb_spec (off + Py.len s) 0);
      [right; split; [lia | reflexivity]|].
    replace (Py.len s - (off + Py.len s) <? 4) with false
      by (symmetry; apply Z.ltb_ge; lia).
    left. split; [lia | now eexists].
  - destruct (Z.ltb_spec (Py.len s - off) 4).
    + right. split; [lia | reflexivity].
    + left. split; [lia | now eexists].
Qed.

(** X14: a region that ends with the trailer but is shorter than the 48
    bytes of a footer is not rejected as such.  [parse_footer] raises
    [struct.error] for most lengths, but for the lengths 24 to 32, 36, 40
    and 44 all four negative offsets wrap around to the end of the buffer
    and a footer is returned. *)
Theorem X14_short_regions (section : bytes) :
  ends_with section BUN_TRAILER ->
  (length section < 48)%nat ->
  let n := length section in
  ((24 <= n <= 32)%nat \/ n = 36%nat \/ n = 40%nat \/ n = 44%nat ->
   exists footer, parse_footer section = Ok footer)
  /\ (~ ((24 <= n <= 32)%nat \/ n = 36%nat \/ n = 40%nat \/ n = 44%nat) ->
      parse_footer section = Raise StructError).
Proof.
  intros Hend Hshort n.
  assert (16 <= n)%nat as H16.
  { destruct Hend as [p Hp]. unfold n. rewrite Hp, length_app.
    change (length BUN_TRAILER) with 16%nat. lia. }
  unfold parse_footer. cbv zeta.
  apply trailer_slice_iff in Hend. apply bytes_eqb_eq in Hend.
  rewrite Hend. cbn [negb].
  assert (Py.len section = Z.of_nat n) as Hn by reflexivity.
  destruct (unpack_cases section (Py.len section + -48))
    as [[H1 [v1 ->]] | [H1 ->]];
  destruct (unpack_cases section (Py.len section + -44))
    as [[H2 [v2 ->]] | [H2 ->]];
  destruct (unpack_cases section (Py.len section + -40))
    as [[H3 [v3 ->]] | [H3 ->]];
  destruct (unpack_cases section (Py.len section + -36))
    as [[H4 [v4 ->]] | [H4 ->]];
  cbn [bind]; rewrite Hn in *;
  (split; [intros Hsz; first [now eexists | exfalso; lia]
          | intros Hsz; first [reflexivity | exfalso; lia]]).
Qed.

Lemma X14_short_regions_witness :
  (exists footer, parse_footer (repeat x00 10 ++ BUN_TRAILER) = Ok footer)
  /\ parse_footer (repeat x00 30 ++ BUN_TRAILER) = Raise StructError.
Proof.
  split.
  - apply (X14_short_regions (repeat x00 10 ++ BUN_TRAILER)).
    + now exists (repeat x00 10).
    + vm_compute. lia.
    + left. vm_compute. lia.
  - apply (X14_short_regions (repeat x00 30 ++ BUN_TRAILER)).
    + now exists (repeat x00 30).
    + vm_compute. lia.
    + vm_compute. lia.
Defined.

(** ** Containers built from their parts *)

Lemma u32_at_pack (n : Z) (rest : bytes) :
  is_u32 n -> u32_at (pack_u32 n ++ rest) 0 = n.
Proof.
  unfold is_u32. intros H. unfold u32_at, pack_u32. cbn [app nth Nat.add].
  rewrite !byte_val_of_Z. Z.to_euclidean_division_equations. lia.
Qed.

Lemma length_pack_u32 (n : Z) : length (pack_u32 n) = 4%nat.
Proof. reflexivity. Qed.

Lemma length_pack_record (width : nat) (po pl co cl : Z) :
  (16 <= width)%nat -> length (pack_record width po pl co cl) = width.
Proof.
  intros H. unfold pack_record.
  rewrite !length_app, !length_pack_u32, repeat_length. lia.
Qed.

Lemma length_pack_records (width : nat) (records : list (Z * Z * Z * Z)) :
  (16 <= width)%nat ->
  length (pack_records width records) = (length records * width)%nat.
Proof.
  intros H. induction records as [|[[[po pl] co] cl] rs IH]; [reflexivity|].
  unfold pack_records in *. cbn [flat_map length].
  rewrite length_app, IH, length_pack_record by assumption. lia.
Qed.

Lemma u32_at_shift (p t : bytes) (n k : nat) :
  length p = n -> u32_at (p ++ t) (n + k) = u32_at t k.
Proof. intros <-. apply u32_at_app. Qed.

(** The fields of record [i] of a table, read back. *)
Lemma u32_at_pack_record (width : nat) (po pl co cl : Z) (rest : bytes) :
  record_is_u32 (po, pl, co, cl) ->
  u32_at (pack_record width po pl co cl ++ rest) 0 = po
  /\ u32_at (pack_record width po pl co cl ++ rest) 4 = pl
  /\ u32_at (pack_record width po pl co cl ++ rest) 8 = co
  /\ u32_at (pack_record width po pl co cl ++ rest) 12 = cl.
Proof.
  intros (Hpo & Hpl & Hco & Hcl). unfold pack_record.
  rewrite <- !app_assoc. repeat split.
  - now apply u32_at_pack.
  - rewrite (u32_at_shift (pack_u32 po) _ 4 0 eq_refl). now apply u32_at_pack.
  - rewrite (u32_at_shift (pack_u32 po) _ 4 4 eq_refl).
    rewrite (u32_at_shift (pack_u32 pl) _ 4 0 eq_refl). now apply u32_at_pack.
  - rewrite (u32_at_shift (pack_u32 po) _ 4 8 eq_refl).
    rewrite (u32_at_shift (pack_u32 pl) _ 4 4 eq_refl).
    rewrite (u32_at_shift (pack_u32 co) _ 4 0 eq_refl). now apply u32_at_pack.
Qed.

Lemma u32_at_pack_records (width : nat) (records : list (Z * Z * Z * Z))
  (rest : bytes) :
  (16 <= width)%nat ->
  Forall record_is_u32 records ->
  forall i po pl co cl,
  nth_error records i = Some (po, pl, co, cl) ->
  u32_at (pack_records width records ++ rest) (i * width) = po
  /\ u32_at (pack_records width records ++ rest) (i * width + 4) = pl
  /\ u32_at (pack_records width records ++ rest) (i * width + 8) = co
  /\ u32_at (pack_records width records ++ rest) (i * width + 12) = cl.
Proof.
  intros Hw Hall. induction Hall as [|[[[po0 pl0] co0] cl0] rs Hr Hrs IH];
    intros i po pl co cl Hi; [now destruct i|].
  unfold pack_records in *. cbn [flat_map]. rewrite <- app_assoc.
  destruct i as [|i].
  - injection Hi as -> -> -> ->. cbn [Nat.mul Nat.add].
    now apply u32_at_pack_record.
  - cbn [nth_error] in Hi. specialize (IH i po pl co cl Hi).
    pose proof (length_pack_record width po0 pl0 co0 cl0 Hw) as Hl.
    replace (S i * width)%nat with (width + i * width)%nat by lia.
    rewrite <- !Nat.add_assoc.
    rewrite !(u32_at_shift _ _ width _ Hl).
    exact IH.
Qed.

Lemma parse_pack_footer (p : bytes) (f : Footer) :
  is_u32 (offset_byte_count f) -> is_u32 (entrypoint_id f) ->
  is_u32 (modules_ptr_offset f) -> is_u32 (modules_ptr_length f) ->
  parse_footer (p ++ pack_footer f) = Ok f.
Proof.
  intros H1 H2 H3 H4. rewrite parse_footer_tail by reflexivity.
  change (skipn 32 (pack_footer f)) with BUN_TRAILER.
  change (bytes_eqb BUN_TRAILER BUN_TRAILER) with true. cbv iota.
  unfold pack_footer.
  rewrite (u32_at_pack _ _ H1).
  rewrite (u32_at_shift (pack_u32 (offset_byte_count f)) _ 4 0 eq_refl).
  rewrite (u32_at_pack _ _ H2).
  rewrite (u32_at_shift (pack_u32 (offset_byte_count f)) _ 4 4 eq_refl).
  rewrite (u32_at_shift (pack_u32 (entrypoint_id f)) _ 4 0 eq_refl).
  rewrite (u32_at_pack _ _ H3).
  rewrite (u32_at_shift (pack_u32 (offset_byte_count f)) _ 4 8 eq_refl).
  rewrite (u32_at_shift (pack_u32 (entrypoint_id f)) _ 4 4 eq_refl).
  rewrite (u32_at_shift (pack_u32 (modules_ptr_offset f)) _ 4 0 eq_refl).
  rewrite (u32_at_pack _ _ H4).
  now destruct f.
Qed.

Lemma firstn_skipn_app_l {A : Type} (l1 l2 : list A) (n m : nat) :
  (m + n <= length l1)%nat ->
  firstn n (skipn m (l1 ++ l2)) = firstn n (skipn m l1).
Proof.
  intros H. rewrite skipn_app, firstn_app.
  replace (m - length l1)%nat with 0%nat by lia.
  replace (n - length (skipn m l1))%nat with 0%nat
    by (rewrite length_skipn; lia).
  now rewrite firstn_O, app_nil_r.
Qed.

(** X15: a container laid out as data, a table of records of a width
    that the inference selects for the table's length, and a footer that
    points at the table, decodes to one module per record, in order:
    module [i] has index [i], the path recovered from the record's path
    fields, and as contents the slice the record declares, which is the
    piece of the data itself when it lies inside the data. *)
Theorem X15_container_round_trip
  (data : bytes) (width : nat) (records : list (Z * Z * Z * Z)) :
  (16 <= width)%nat ->
  find_chunk_size (Z.of_nat (length records * width)) = Some (Z.of_nat width) ->
  Forall record_is_u32 records ->
  is_u32 (Py.len data + Z.of_nat (length records * width)) ->
  let region := build_container data width records in
  exists modules,
    decode_section region = Ok modules
    /\ length modules = length records
    /\ forall i po pl co cl,
         nth_error records i = Some (po, pl, co, cl) ->
         exists m,
           nth_error modules i = Some m
           /\ index m = Z.of_nat i
           /\ path m = module_path region po pl (Z.of_nat i)
           /\ contents m = Py.slice region co (co + cl)
           /\ (co + cl <= Py.len data ->
               contents m = firstn (Z.to_nat cl) (skipn (Z.to_nat co) data)).
Proof.
  intros Hw Hsize Hall Hfit region.
  set (tbl := pack_records width records).
  set (f := container_footer data width records).
  assert (Py.len tbl = Z.of_nat (length records * width)) as Htbl
    by (unfold Py.len, tbl; now rewrite length_pack_records).
  assert (parse_footer region = Ok f) as Hparse.
  { unfold region, build_container. fold tbl f. rewrite app_assoc.
    unfold is_u32 in Hfit. pose proof (len_nonneg data).
    apply parse_pack_footer; unfold f, container_footer, is_u32;
      cbn [offset_byte_count entrypoint_id modules_ptr_offset
           modules_ptr_length]; fold tbl; rewrite ?Htbl; lia. }
  assert (Py.len region = Py.len data + Py.len tbl + 48) as Hlen.
  { unfold region, build_container. fold tbl f. rewrite !len_app.
    change (Py.len (pack_footer f)) with 48. lia. }
  assert (modules_ptr_length f / Z.of_nat width
          = Z.of_nat (length records)) as Hcount.
  { unfold f, container_footer. cbn [modules_ptr_length]. fold tbl.
    rewrite Htbl, Nat2Z.inj_mul. apply Z.div_mul. lia. }
  assert (Py.len region - (offset_byte_count f + 48) + modules_ptr_offset f
          = Py.len data) as Hms.
  { unfold f, container_footer.
    cbn [offset_byte_count modules_ptr_offset]. fold tbl. lia. }
  assert (find_chunk_size (modules_ptr_length f) = Some (Z.of_nat width))
    as Hcs.
  { unfold f, container_footer. cbn [modules_ptr_length]. fold tbl.
    now rewrite Htbl. }
  pose proof (extract_modules_in_bounds region f (Z.of_nat width) Hcs) as Hrun.
  cbv zeta in Hrun. rewrite Hms, Hcount, Nat2Z.id in Hrun.
  eexists. split.
  { unfold decode_section. rewrite Hparse. cbn [bind]. apply Hrun.
    intros i Hi. pose proof (len_nonneg data). rewrite Hlen, Htbl.
    rewrite Nat2Z.inj_mul. nia. }
  split; [now rewrite length_map, length_seq|].
  intros i po pl co cl Hi.
  assert (i < length records)%nat as Hlt
    by (apply nth_error_Some; congruence).
  exists (module_of_record region (Py.len data) (Z.of_nat width) (Z.of_nat i)).
  split.
  { rewrite nth_error_map, nth_error_seq.
    replace (i <? length records)%nat with true
      by (symmetry; now apply Nat.ltb_lt).
    reflexivity. }
  split; [reflexivity|].
  unfold module_of_record, record_at.
  replace (Z.to_nat (Py.len data + Z.of_nat i * Z.of_nat width))
    with (length data + i * width)%nat by (unfold Py.len; lia).
  cbv zeta. cbn [path contents].
  destruct (u32_at_pack_records width records (pack_footer f) Hw Hall
              i po pl co cl Hi) as (Hpo & Hpl & Hco & Hcl).
  fold tbl in Hpo, Hpl, Hco, Hcl.
  assert (region = data ++ tbl ++ pack_footer f) as Hregion by reflexivity.
  assert (forall k v, u32_at (tbl ++ pack_footer f) k = v ->
                      u32_at region (length data + k) = v) as Hfield.
  { intros k v <-. rewrite Hregion.
    apply (u32_at_shift data _ (length data) _ eq_refl). }
  rewrite <- !Nat.add_assoc.
  rewrite (Hfield _ _ Hpo), (Hfield _ _ Hpl), (Hfield _ _ Hco),
    (Hfield _ _ Hcl).
  split; [reflexivity|]. split; [reflexivity|].
  intros Hin.
  assert (record_is_u32 (po, pl, co, cl)) as (_ & _ & Hco32 & Hcl32).
  { rewrite Forall_forall in Hall. apply Hall.
    now apply nth_error_In in Hi. }
  unfold is_u32 in Hco32, Hcl32.
  rewrite slice_nonneg by lia.
  replace (co + cl - co) with cl by lia.
  rewrite Hregion. apply firstn_skipn_app_l. unfold Py.len in Hin. lia.
Qed.

Lemma X15_container_round_trip_witness :
  exists modules,
    decode_section
      (build_container (Py.bytes_of "hello world") 52 [(0, 0, 0, 5); (0, 0, 6, 5)])
    = Ok modules
    /\ length modules = 2%nat
    /\ exists m, nth_error modules 1 = Some m
                 /\ contents m = Py.bytes_of "world".
Proof.
  destruct (X15_container_round_trip (Py.bytes_of "hello world") 52
              [(0, 0, 0, 5); (0, 0, 6, 5)])
    as (modules & Hrun & Hlen & Hmods).
  - lia.
  - reflexivity.
  - repeat constructor; unfold is_u32; lia.
  - unfold is_u32. split; vm_compute; [discriminate | reflexivity].
  - exists modules. split; [exact Hrun|]. split; [exact Hlen|].
    destruct (Hmods 1%nat 0 0 6 5 eq_refl) as (m & Hm & _ & _ & _ & Hc).
    exists m. split; [exact Hm|]. apply Hc. vm_compute. discriminate.
Defined.

(** ** Locating the section *)

Lemma startswith_iff (s prefix : str) :
  Py.startswith s prefix = true <-> exists q, s = prefix ++ q.
Proof.
  revert s. induction prefix as [|x prefix IH]; intros s.
  - rewrite startswith_nil. split; [intros _; now exists s | reflexivity].
  - destruct s as [|y s]; cbn [Py.startswith].
    + split; [discriminate | intros [q Hq]; discriminate].
    + rewrite andb_true_iff, Z.eqb_eq, IH. split.
      * intros [-> [q ->]]. now exists q.
      * intros [q Hq]. injection Hq as -> ->. split; [reflexivity | now exists q].
Qed.

Lemma contains_iff (s sub : str) :
  Py.contains s sub = true <-> exists p q, s = p ++ sub ++ q.
Proof.
  induction s as [|c s IH].
  - cbn [Py.contains]. rewrite orb_false_r, startswith_iff. split.
    + intros [q Hq]. now exists [], q.
    + intros (p & q & H). destruct p as [|x p]; [now exists q | discriminate].
  - cbn [Py.contains]. rewrite orb_true_iff, startswith_iff, IH. split.
    + intros [[q Hq] | (p & q & ->)]; [now exists [], q | now exists (c :: p), q].
    + intros ([|x p] & q & H).
      * left. now exists q.
      * right. injection H as -> ->. now exists p, q.
Qed.

Lemma contains_infix (s x sub : str) :
  (exists p q, s = p ++ x ++ q) ->
  Py.contains x sub = true -> Py.contains s sub = true.
Proof.
  intros (p & q & ->) H. apply contains_iff in H. destruct H as (p' & q' & ->).
  apply contains_iff. exists (p ++ p'), (q' ++ q). now rewrite <- !app_assoc.
Qed.

(** The first line is what comes before the first separator, and every
    line is a piece of the text. *)
Lemma split_char_pieces (sep : Z) (s : str) :
  exists h t,
    Py.split_char sep s = h :: t
    /\ (exists q, s = h ++ q)
    /\ forall line, In line t -> exists p q, s = p ++ line ++ q.
Proof.
  induction s as [|c s (h & t & E & [q Hq] & Ht)].
  - exists [], []. repeat split; [now exists [] | intros line []].
  - cbn [Py.split_char]. destruct (c =? sep).
    + exists [], (Py.split_char sep s). repeat split; [now exists (c :: s)|].
      rewrite E. intros line [<- | Hin].
      * exists [c], q. now rewrite Hq.
      * destruct (Ht line Hin) as (p' & q' & ->). now exists (c :: p'), q'.
    + rewrite E. exists (c :: h), t. repeat split.
      * exists q. now rewrite Hq.
      * intros line Hin. destruct (Ht line Hin) as (p' & q' & ->).
        now exists (c :: p'), q'.
Qed.

Lemma split_char_infix (sep : Z) (s line : str) :
  In line (Py.split_char sep s) -> exists p q, s = p ++ line ++ q.
Proof.
  destruct (split_char_pieces sep s) as (h & t & -> & [q Hq] & Ht).
  intros [<- | Hin]; [now exists [], q | now apply Ht].
Qed.

Lemma lstrip_ws_suffix (s : str) : exists p, s = p ++ Py.lstrip_ws s.
Proof.
  induction s as [|c s [p Hp]]; [now exists []|]. cbn [Py.lstrip_ws].
  destruct (Py.isspace c); [|now exists []].
  exists (c :: p). cbn [app]. now f_equal.
Qed.

Lemma strip_ws_infix (s : str) : exists p q, s = p ++ Py.strip_ws s ++ q.
Proof.
  unfold Py.strip_ws. destruct (lstrip_ws_suffix s) as [p Hp].
  destruct (lstrip_ws_suffix (rev (Py.lstrip_ws s))) as [p' Hp'].
  exists p, (rev p').
  rewrite <- rev_app_distr, <- Hp', rev_involutive. exact Hp.
Qed.

(** A word that a stripped line contains occurs in the whole output. *)
Lemma line_contains (out line sub : str) :
  In line (Py.split_char 10 out) ->
  Py.contains (Py.strip_ws line) sub = true ->
  Py.contains out sub = true.
Proof.
  intros Hin H.
  apply (contains_infix out line); [now apply (split_char_infix 10)|].
  apply (contains_infix line (Py.strip_ws line)); [apply strip_ws_infix | exact H].
Qed.

Lemma split_ws_from_nonempty (s cur : str) :
  cur <> [] -> Py.split_ws_from cur s <> [].
Proof.
  revert cur. induction s as [|c s IH]; intros cur Hcur; cbn [Py.split_ws_from].
  - destruct cur; [contradiction | discriminate].
  - destruct (Py.isspace c).
    + destruct cur; [contradiction | discriminate].
    + apply IH. discriminate.
Qed.

Lemma last_item_some {A : Type} (l : list A) :
  l <> [] -> exists x, Py.last_item l = Some x.
Proof.
  induction l as [|a l IH]; [contradiction|]. intros _.
  destruct l as [|b l]; [now exists a|]. apply IH. discriminate.
Qed.

(** A line that starts with a word has a last word: [s.split()[-1]]
    never raises here. *)
Lemma last_field_cases (int : Z -> str -> option Z) (base : Z) (s : str)
  (c : Z) (prefix : str) :
  Py.startswith s (c :: prefix) = true -> Py.isspace c = false ->
  exists token,
    Py.last_item (Py.split_ws s) = Some token
    /\ last_field int base s =
       match int base token with
       | Some v => Returned v
       | None => ValueError
       end.
Proof.
  intros Hs Hc. apply startswith_iff in Hs. destruct Hs as [q ->].
  destruct (last_item_some (Py.split_ws ((c :: prefix) ++ q))) as [token Ht].
  - unfold Py.split_ws. cbn [app Py.split_ws_from]. rewrite Hc.
    apply split_ws_from_nonempty. discriminate.
  - exists token. split; [exact Ht|]. unfold last_field. rewrite Ht.
    now destruct (int base token).
Qed.

Lemma assign_field_cases (int : Z -> str -> option Z) (st : ScanState) (s : str) :
  (Py.startswith s (Py.str_of "offset ") = true
   /\ exists token,
        Py.last_item (Py.split_ws s) = Some token
        /\ assign_field int st s =
           match int 10 token with
           | Some v => Returned (mkScan (in_bun_seg st) (in_bun_sect st)
                                        (Some v) (size st))
           | None => ValueError
           end)
  \/ (Py.startswith s (Py.str_of "size ") = true
      /\ exists token,
           Py.last_item (Py.split_ws s) = Some token
           /\ assign_field int st s =
              match int 16 token with
              | Some v => Returned (mkScan (in_bun_seg st) (in_bun_sect st)
                                           (offset st) (Some v))
              | None => ValueError
              end)
  \/ assign_field int st s = Returned st.
Proof.
  unfold assign_field.
  destruct (Py.startswith s (Py.str_of "offset ")) eqn:Eo.
  - left. split; [reflexivity|].
    destruct (last_field_cases int 10 s _ _ Eo eq_refl) as (token & Ht & ->).
    exists token. split; [exact Ht|]. now destruct (int 10 token).
  - destruct (Py.startswith s (Py.str_of "size ")) eqn:Es.
    + right. left. split; [reflexivity|].
      destruct (last_field_cases int 16 s _ _ Es eq_refl) as (token & Ht & ->).
      exists token. split; [exact Ht|]. now destruct (int 16 token).
    + right. right. reflexivity.
Qed.

(** What one iteration does to the variables. *)
Lemma scan_line_step (int : Z -> str -> option Z) (st st' : ScanState)
  (line : str) :
  scan_line int st line = Returned (inl st') ->
  (is_segment_line line
   /\ st' = mkScan true (in_bun_sect st) (offset st) (size st))
  \/ (in_bun_seg st = true /\ is_section_line line
      /\ st' = mkScan (in_bun_seg st) true (offset st) (size st))
  \/ (in_bun_sect st = false /\ st' = st)
  \/ (in_bun_sect st = true
      /\ in_bun_seg st' = in_bun_seg st /\ in_bun_sect st' = true
      /\ (offset st' = offset st
          \/ exists v, offset st' = Some v
                       /\ is_field_line int (Py.str_of "offset ") 10 (Some v) line)
      /\ (size st' = size st
          \/ exists v, size st' = Some v
                       /\ is_field_line int (Py.str_of "size ") 16 (Some v) line)).
Proof.
  unfold scan_line, is_segment_line, is_section_line, is_field_line. cbv zeta.
  set (s := Py.strip_ws line).
  destruct (Py.contains s (Py.str_of "segname __BUN")) eqn:Eseg.
  { intros H. injection H as <-. now left. }
  destruct (in_bun_seg st && Py.contains s (Py.str_of "sectname __bun")) eqn:Esect.
  { apply andb_true_iff in Esect. destruct Esect as [Hseg Hsect].
    intros H. injection H as <-. right. left. now repeat split. }
  destruct (in_bun_sect st) eqn:Ein.
  2:{ intros H. injection H as <-. right. right. left. now split. }
  intros H. right. right. right. split; [reflexivity|].
  destruct (assign_field_cases int st s)
    as [(Ho & token & Ht & Ha) | [(Hs & token & Ht & Ha) | Ha]];
    rewrite Ha in H.
  - destruct (int 10 token) as [v|] eqn:Ev; [|discriminate].
    cbn [offset size] in H. destruct (size st) eqn:Esz; [discriminate|].
    injection H as <-. cbn [in_bun_seg in_bun_sect offset size].
    repeat split; try assumption; [|now left].
    right. exists v. repeat split; try assumption. now exists token.
  - destruct (int 16 token) as [v|] eqn:Ev; [|discriminate].
    cbn [offset size] in H. destruct (offset st) eqn:Eoff.
    + discriminate.
    + injection H as <-. cbn [in_bun_seg in_bun_sect offset size].
      repeat split; try assumption; [now left|].
      right. exists v. repeat split; try assumption. now exists token.
  - destruct (offset st) eqn:Eoff; destruct (size st) eqn:Esz;
      try discriminate; injection H as <-;
      (repeat split; [assumption | now left | now left]).
Qed.

Lemma scan_line_found (int : Z -> str -> option Z) (st : ScanState)
  (line : str) (o z : Z) :
  scan_line int st line = Returned (inr (o, z)) ->
  in_bun_sect st = true
  /\ (offset st = Some o
      \/ is_field_line int (Py.str_of "offset ") 10 (Some o) line)
  /\ (size st = Some z
      \/ is_field_line int (Py.str_of "size ") 16 (Some z) line).
Proof.
  unfold scan_line, is_field_line. cbv zeta.
  set (s := Py.strip_ws line).
  destruct (Py.contains s (Py.str_of "segname __BUN")); [discriminate|].
  destruct (in_bun_seg st && Py.contains s (Py.str_of "sectname __bun"));
    [discriminate|].
  destruct (in_bun_sect st) eqn:Ein; [|discriminate].
  intros H. split; [reflexivity|].
  destruct (assign_field_cases int st s)
    as [(Ho & token & Ht & Ha) | [(Hs & token & Ht & Ha) | Ha]];
    rewrite Ha in H.
  - destruct (int 10 token) as [v|] eqn:Ev; [|discriminate].
    cbn [offset size] in H. destruct (size st) eqn:Esz; [|discriminate].
    injection H as <- <-. split; [|now left].
    right. split; [assumption | now exists token].
  - destruct (int 16 token) as [v|] eqn:Ev; [|discriminate].
    cbn [offset size] in H. destruct (offset st) eqn:Eoff; [|discriminate].
    injection H as <- <-. split; [now left|].
    right. split; [assumption | now exists token].
  - destruct (offset st) eqn:Eoff; destruct (size st) eqn:Esz;
      try discriminate.
    injection H as <- <-. split; now left.
Qed.

(** An iteration raises nothing but the [ValueError] of a field that
    [int] does not read. *)
Lemma scan_line_raises (int : Z -> str -> option Z) (st : ScanState)
  (line : str) :
  (exists r, scan_line int st line = Returned r)
  \/ (scan_line int st line = ValueError
      /\ (is_field_line int (Py.str_of "offset ") 10 None line
          \/ is_field_line int (Py.str_of "size ") 16 None line)).
Proof.
  unfold scan_line, is_field_line. cbv zeta.
  set (s := Py.strip_ws line).
  destruct (Py.contains s (Py.str_of "segname __BUN")); [left; now eexists|].
  destruct (in_bun_seg st && Py.contains s (Py.str_of "sectname __bun"));
    [left; now eexists|].
  destruct (in_bun_sect st); [|left; now eexists].
  destruct (assign_field_cases int st s)
    as [(Ho & token & Ht & Ha) | [(Hs & token & Ht & Ha) | Ha]];
    rewrite Ha.
  - destruct (int 10 token) as [v|] eqn:Ev.
    + left. cbn [offset size]. destruct (size st); now eexists.
    + right. split; [reflexivity|]. left. split; [assumption | now exists token].
  - destruct (int 16 token) as [v|] eqn:Ev.
    + left. cbn [offset size]. destruct (offset st); now eexists.
    + right. split; [reflexivity|]. right. split; [assumption | now exists token].
  - left. destruct (offset st), (size st); now eexists.
Qed.

Lemma scan_no_section (int : Z -> str -> option Z) (lines : list str) :
  forall st,
  in_bun_sect st = false ->
  Forall (fun line => ~ is_section_line line) lines ->
  scan_lines int st lines = SystemExit SectionNotFound.
Proof.
  induction lines as [|line rest IH]; intros st Hst Hall; [reflexivity|].
  inversion Hall as [|? ? Hline Hrest]; subst. cbn [scan_lines].
  destruct (scan_line int st line) as [[st'|[o z]]| | |] eqn:E.
  - apply IH; [|exact Hrest].
    apply scan_line_step in E.
    destruct E as [[_ ->] | [(_ & Hs & _) | [[_ ->] | (Hin & _)]]];
      try assumption; try reflexivity; [contradiction | congruence].
  - apply scan_line_found in E. destruct E as [Hin _]. congruence.
  - destruct (scan_line_raises int st line) as [[r Hr] | [Hr _]]; congruence.
  - destruct (scan_line_raises int st line) as [[r Hr] | [Hr _]];
      [congruence|].
    unfold scan_line in E. cbv zeta in E.
    destruct (Py.contains _ _); [discriminate|].
    destruct (_ && _); [discriminate|]. now rewrite Hst in E.
  - destruct (scan_line_raises int st line) as [[r Hr] | [Hr _]]; congruence.
Qed.

Lemma scan_no_segment (int : Z -> str -> option Z) (lines : list str) :
  forall st,
  in_bun_seg st = false -> in_bun_sect st = false ->
  Forall (fun line => ~ is_segment_line line) lines ->
  scan_lines int st lines = SystemExit SectionNotFound.
Proof.
  induction lines as [|line rest IH]; intros st Hseg Hsect Hall; [reflexivity|].
  inversion Hall as [|? ? Hline Hrest]; subst. cbn [scan_lines].
  unfold scan_line. cbv zeta.
  replace (Py.contains (Py.strip_ws line) (Py.str_of "segname __BUN")) with false
    by (symmetry; now apply not_true_is_false).
  rewrite Hseg, Hsect. cbn [andb]. now apply IH.
Qed.

(** X16: when [otool] fails the function exits with its error output; and
    when the words [segname __BUN], or the words [sectname __bun], occur
    nowhere in what [otool] printed, no line is read as an offset or a
    size and the function exits with "section not found", whatever the
    rest of the output is. *)
Theorem X16_section_not_found
  (int : Z -> str -> option Z) (result : CompletedProcess) :
  (returncode result <> 0 ->
   get_bun_section int result = SystemExit (OtoolFailed (stderr result)))
  /\ (returncode result = 0 ->
      Py.contains (stdout result) (Py.str_of "segname __BUN") = false
      \/ Py.contains (stdout result) (Py.str_of "sectname __bun") = false ->
      get_bun_section int result = SystemExit SectionNotFound).
Proof.
  unfold get_bun_section. split.
  - intros H. apply Z.eqb_neq in H. now rewrite H.
  - intros -> [H | H]; cbn [Z.eqb negb].
    + apply scan_no_segment; try reflexivity.
      apply Forall_forall. intros line Hin Hline.
      apply (line_contains (stdout result)) in Hline; [congruence | exact Hin].
    + apply scan_no_section; try reflexivity.
      apply Forall_forall. intros line Hin Hline.
      apply (line_contains (stdout result)) in Hline; [congruence | exact Hin].
Qed.

Lemma X16_section_not_found_witness :
  get_bun_section plain_int
    (mkProcess 0 (Py.str_of "  segname __TEXT" ++ [10]
                  ++ Py.str_of "    offset 4096" ++ [10]) [])
  = SystemExit SectionNotFound
  /\ get_bun_section plain_int (mkProcess 1 [] (Py.str_of "no such file"))
     = SystemExit (OtoolFailed (Py.str_of "no such file")).
Proof.
  split.
  - apply (proj2 (X16_section_not_found plain_int _)); [reflexivity|].
    left. reflexivity.
  - apply (proj1 (X16_section_not_found plain_int
                    (mkProcess 1 [] (Py.str_of "no such file")))).
    discriminate.
Defined.

Lemma scan_lines_raises (int : Z -> str -> option Z) (lines : list str) :
  forall st,
  scan_lines int st lines <> IndexError
  /\ (scan_lines int st lines = ValueError ->
      Exists (fun line =>
                is_field_line int (Py.str_of "offset ") 10 None line
                \/ is_field_line int (Py.str_of "size ") 16 None line) lines).
Proof.
  induction lines as [|line rest IH]; intros st.
  - split; discriminate.
  - cbn [scan_lines].
    destruct (scan_line_raises int st line) as [[[st'|[o z]] ->] | [-> Hline]].
    + destruct (IH st') as [H1 H2]. split; [exact H1|].
      intros H. apply Exists_cons_tl. now apply H2.
    + split; discriminate.
    + split; [discriminate|]. intros _. now apply Exists_cons_hd.
Qed.

(** X17: the function never raises [IndexError]: every line whose last
    word is taken has one.  It raises [ValueError] only for an output
    with a line that starts with [offset ] or [size ] and whose last word
    [int] rejects. *)
Theorem X17_scan_exceptions
  (int : Z -> str -> option Z) (result : CompletedProcess) :
  get_bun_section int result <> IndexError
  /\ (get_bun_section int result = ValueError ->
      Exists (fun line =>
                is_field_line int (Py.str_of "offset ") 10 None line
                \/ is_field_line int (Py.str_of "size ") 16 None line)
             (Py.split_char 10 (stdout result))).
Proof.
  unfold get_bun_section. destruct (negb (returncode result =? 0)).
  - split; discriminate.
  - apply scan_lines_raises.
Qed.

Lemma X17_scan_exceptions_witness :
  get_bun_section plain_int
    (mkProcess 0 (Py.str_of "segname __BUN" ++ [10]
                  ++ Py.str_of "sectname __bun" ++ [10]
                  ++ Py.str_of "offset n/a") [])
  = ValueError
  /\ Exists (fun line =>
               is_field_line plain_int (Py.str_of "offset ") 10 None line
               \/ is_field_line plain_int (Py.str_of "size ") 16 None line)
            [Py.str_of "segname __BUN"; Py.str_of "sectname __bun";
             Py.str_of "offset n/a"].
Proof.
  split; [reflexivity|].
  apply (proj2 (X17_scan_exceptions plain_int
                  (mkProcess 0 (Py.str_of "segname __BUN" ++ [10]
                                ++ Py.str_of "sectname __bun" ++ [10]
                                ++ Py.str_of "offset n/a") []))).
  reflexivity.
Defined.

Lemma scan_in_section (int : Z -> str -> option Z) (o z : Z)
  (lines : list str) :
  forall st,
  in_bun_sect st = true ->
  scan_lines int st lines = Returned (o, z) ->
  (offset st = Some o
   \/ Exists (is_field_line int (Py.str_of "offset ") 10 (Some o)) lines)
  /\ (size st = Some z
      \/ Exists (is_field_line int (Py.str_of "size ") 16 (Some z)) lines).
Proof.
  induction lines as [|line rest IH]; intros st Hst H; [discriminate|].
  cbn [scan_lines] in H.
  destruct (scan_line int st line) as [[st'|[o' z']]| | |] eqn:E;
    try discriminate.
  - apply scan_line_step in E.
    assert (in_bun_sect st' = true
            /\ (offset st' = offset st
                \/ exists v, offset st' = Some v
                     /\ is_field_line int (Py.str_of "offset ") 10 (Some v) line)
            /\ (size st' = size st
                \/ exists v, size st' = Some v
                     /\ is_field_line int (Py.str_of "size ") 16 (Some v) line))
      as (Hst' & Hoff & Hsize).
    { destruct E as [[_ ->] | [(_ & _ & ->) | [[Hf _] | (_ & _ & Hs & Ho & Hz)]]];
        cbn [in_bun_sect offset size]; try congruence;
        repeat split; try assumption; now left. }
    destruct (IH st' Hst' H) as [Ho Hz]. split.
    + destruct Ho as [Ho | Ho]; [|right; now apply Exists_cons_tl].
      destruct Hoff as [Hoff | (v & Hv & Hline)]; [left; congruence|].
      right. apply Exists_cons_hd. congruence.
    + destruct Hz as [Hz | Hz]; [|right; now apply Exists_cons_tl].
      destruct Hsize as [Hsize | (v & Hv & Hline)]; [left; congruence|].
      right. apply Exists_cons_hd. congruence.
  - injection H as -> ->. apply scan_line_found in E.
    destruct E as (_ & Ho & Hz). split.
    + destruct Ho; [now left | right; now apply Exists_cons_hd].
    + destruct Hz; [now left | right; now apply Exists_cons_hd].
Qed.

Lemma scan_before_section (int : Z -> str -> option Z) (o z : Z)
  (lines : list str) :
  forall st,
  in_bun_sect st = false -> offset st = None -> size st = None ->
  scan_lines int st lines = Returned (o, z) ->
  exists before sect after,
    lines = before ++ sect :: after
    /\ (in_bun_seg st = true \/ Exists is_segment_line before)
    /\ is_section_line sect
    /\ Exists (is_field_line int (Py.str_of "offset ") 10 (Some o)) after
    /\ Exists (is_field_line int (Py.str_of "size ") 16 (Some z)) after.
Proof.
  induction lines as [|line rest IH]; intros st Hst Hoff Hsize H;
    [discriminate|].
  cbn [scan_lines] in H.
  destruct (scan_line int st line) as [[st'|[o' z']]| | |] eqn:E;
    try discriminate.
  - apply scan_line_step in E.
    destruct E as [[Hseg ->] | [(Hseg & Hsect & ->) | [[_ ->] | (Hin & _)]]].
    + destruct (IH (mkScan true (in_bun_sect st) (offset st) (size st))
                  Hst Hoff Hsize H)
        as (before & sect & after & -> & _ & Hs & Ho & Hz).
      exists (line :: before), sect, after. repeat split; try assumption.
      right. now apply Exists_cons_hd.
    + apply scan_in_section in H; [|reflexivity].
      cbn [offset size] in H. rewrite Hoff, Hsize in H.
      destruct H as [[Ho | Ho] [Hz | Hz]]; try discriminate.
      exists [], line, rest. repeat split; try assumption. now left.
    + destruct (IH _ Hst Hoff Hsize H)
        as (before & sect & after & -> & Hb & Hs & Ho & Hz).
      exists (line :: before), sect, after. repeat split; try assumption.
      destruct Hb as [Hb | Hb]; [now left | right; now apply Exists_cons_tl].
    + congruence.
  - apply scan_line_found in E. destruct E as [Hin _]. congruence.
Qed.

(** X18: a pair that the function returns is read off the output of
    [otool]: some line names the segment, a later line names the
    section, and after that line come a line that starts with [offset ],
    whose last word [int] reads in base 10 as the offset returned, and a
    line that starts with [size ], whose last word it reads in base 16 as
    the size returned. *)
Theorem X18_located_pair
  (int : Z -> str -> option Z) (result : CompletedProcess) (o z : Z) :
  get_bun_section int result = Returned (o, z) ->
  returncode result = 0
  /\ exists before sect after,
       Py.split_char 10 (stdout result) = before ++ sect :: after
       /\ Exists is_segment_line before
       /\ is_section_line sect
       /\ Exists (is_field_line int (Py.str_of "offset ") 10 (Some o)) after
       /\ Exists (is_field_line int (Py.str_of "size ") 16 (Some z)) after.
Proof.
  unfold get_bun_section.
  destruct (returncode result =? 0) eqn:E; cbn [negb]; [|discriminate].
  intros H. split; [now apply Z.eqb_eq|].
  apply scan_before_section in H; try reflexivity.
  destruct H as (before & sect & after & Hl & [Hb | Hb] & Hrest);
    [discriminate|].
  now exists before, sect, after.
Qed.

Lemma X18_located_pair_witness :
  get_bun_section plain_int (mkProcess 0 sample_listing [])
  = Returned (10502144, 8000)
  /\ exists before sect after,
       Py.split_char 10 sample_listing = before ++ sect :: after
       /\ Exists is_segment_line before
       /\ is_section_line sect.
Proof.
  split; [reflexivity|].
  destruct (X18_located_pair plain_int (mkProcess 0 sample_listing [])
              10502144 8000 eq_refl)
    as (_ & before & sect & after & Hl & Hb & Hs & _).
  now exists before, sect, after.
Defined.

(** ** Fields are 32-bit values *)

Lemma parse_footer_ok_inv (section : bytes) (f : Footer) :
  parse_footer section = Ok f ->
  is_u32 (offset_byte_count f) /\ is_u32 (entrypoint_id f)
  /\ is_u32 (modules_ptr_offset f) /\ is_u32 (modules_ptr_length f).
Proof.
  unfold parse_footer, is_u32. cbv zeta.
  destruct (negb _); [discriminate|].
  destruct (Py.unpack_from_u32 section (Py.len section + -48)) as [a|] eqn:E1;
    [|discriminate]. cbn [bind].
  destruct (Py.unpack_from_u32 section (Py.len section + -44)) as [b|] eqn:E2;
    [|discriminate]. cbn [bind].
  destruct (Py.unpack_from_u32 section (Py.len section + -40)) as [c|] eqn:E3;
    [|discriminate]. cbn [bind].
  destruct (Py.unpack_from_u32 section (Py.len section + -36)) as [d|] eqn:E4;
    [|discriminate]. cbn [bind].
  intros H. injection H as <-.
  cbn [offset_byte_count entrypoint_id modules_ptr_offset modules_ptr_length].
  apply unpack_ok_range in E1, E2, E3, E4. repeat split; lia.
Qed.

(** X19: every field of a footer that [parse_footer] returns is a 32-bit
    value, also when it was read from a wrapped-around offset; so the
    decode of a parsed footer never returns more than 153391689 modules,
    the largest table of 28-byte records that a 32-bit length allows. *)
Theorem X19_parsed_footer_bounds (section : bytes) (footer : Footer) :
  parse_footer section = Ok footer ->
  (is_u32 (offset_byte_count footer) /\ is_u32 (entrypoint_id footer)
   /\ is_u32 (modules_ptr_offset footer) /\ is_u32 (modules_ptr_length footer))
  /\ forall region modules,
       extract_modules region footer = Ok modules ->
       Py.len modules <= 153391689.
Proof.
  intros H. apply parse_footer_ok_inv in H. split; [exact H|].
  destruct H as (_ & _ & _ & Hlen). unfold is_u32 in Hlen.
  intros region modules Hrun. apply extract_modules_ok_inv in Hrun.
  destruct Hrun as (w & Hw & Hcount & _).
  apply chunk_size_cases in Hw.
  assert (modules_ptr_length footer / w < 153391690)
    by (apply Z.div_lt_upper_bound; lia).
  unfold Py.len. rewrite Hcount. lia.
Qed.

Lemma X19_parsed_footer_bounds_witness :
  is_u32 (modules_ptr_length sample_footer)
  /\ forall modules,
       extract_modules sample_region sample_footer = Ok modules ->
       Py.len modules <= 153391689.
Proof.
  destruct (X19_parsed_footer_bounds sample_region sample_footer eq_refl)
    as [(_ & _ & _ & Hl) Hb].
  split; [exact Hl | exact (Hb sample_region)].
Defined.

(** ** Placeholders of different records *)

Lemma str_of_inj (a b : string) : Py.str_of a = Py.str_of b -> a = b.
Proof.
  unfold Py.str_of. intros H.
  rewrite <- (string_of_list_ascii_of_string a).
  rewrite <- (string_of_list_ascii_of_string b). f_equal.
  revert H. generalize (list_ascii_of_string a) as la.
  generalize (list_ascii_of_string b) as lb. clear a b.
  intros lb la. revert lb.
  induction la as [|x la IH]; intros [|y lb] H; try discriminate;
    [reflexivity|].
  cbn [map] in H. injection H as Hxy Hl.
  apply N2Z.inj in Hxy.
  apply (f_equal ascii_of_N) in Hxy. rewrite !ascii_N_embedding in Hxy.
  subst. f_equal. now apply IH.
Qed.

Lemma str_of_int_inj (i j : Z) : Py.str_of_int i = Py.str_of_int j -> i = j.
Proof.
  unfold Py.str_of_int. intros H. apply str_of_inj in H.
  apply DecimalZ.to_int_inj.
  assert (forall n, Z.to_int n <> Decimal.Pos Decimal.Nil
                    /\ Z.to_int n <> Decimal.Neg Decimal.Nil) as Hnn.
  { intros [|p|p]; cbn; split; try discriminate;
      intros E; injection E; apply DecimalPos.Unsigned.to_uint_nonnil. }
  apply (f_equal DecimalString.NilZero.int_of_string) in H.
  rewrite !DecimalString.NilZero.isi in H by apply Hnn.
  now injection H.
Qed.

(** X20: records with different indices get different placeholders. *)
Theorem X20_placeholders_distinct (i j : Z) :
  placeholder i = placeholder j -> i = j.
Proof.
  unfold placeholder. intros H.
  apply app_inv_head in H. apply app_inv_tail in H.
  now apply str_of_int_inj.
Qed.

Lemma X20_placeholders_distinct_witness :
  placeholder 7 = Py.str_of "module_7.js" /\ placeholder 7 <> placeholder 70.
Proof.
  split; [reflexivity|]. intros H.
  apply X20_placeholders_distinct in H. discriminate.
Defined.

(** ** A listing of the usual shape *)

Lemma scan_state_eta (st : ScanState) :
  mkScan (in_bun_seg st) (in_bun_sect st) (offset st) (size st) = st.
Proof. now destruct st. Qed.

Lemma scan_line_segment (int : Z -> str -> option Z) (st : ScanState)
  (line : str) :
  is_segment_line line ->
  scan_line int st line =
  Returned (inl (mkScan true (in_bun_sect st) (offset st) (size st))).
Proof.
  unfold is_segment_line, scan_line. cbv zeta. now intros ->.
Qed.

Lemma scan_line_section (int : Z -> str -> option Z) (st : ScanState)
  (line : str) :
  ~ is_segment_line line -> is_section_line line -> in_bun_seg st = true ->
  scan_line int st line =
  Returned (inl (mkScan true true (offset st) (size st))).
Proof.
  unfold is_segment_line, is_section_line, scan_line. cbv zeta.
  intros Hseg -> ->. apply not_true_is_false in Hseg. now rewrite Hseg.
Qed.

(** Before the section line nothing is read. *)
Lemma scan_prefix (int : Z -> str -> option Z) (pre more : list str) :
  forall st,
  in_bun_sect st = false ->
  Forall (fun line => ~ is_section_line line) pre ->
  exists st',
    scan_lines int st (pre ++ more) = scan_lines int st' more
    /\ in_bun_sect st' = false
    /\ offset st' = offset st /\ size st' = size st
    /\ (in_bun_seg st = true \/ Exists is_segment_line pre ->
        in_bun_seg st' = true).
Proof.
  induction pre as [|line pre IH]; intros st Hst Hall.
  - exists st. repeat split; try assumption.
    intros [H | H]; [exact H | inversion H].
  - inversion Hall as [|? ? Hline Hpre]; subst. cbn [app scan_lines].
    destruct (Py.contains (Py.strip_ws line) (Py.str_of "segname __BUN"))
      eqn:Eseg.
    + rewrite (scan_line_segment int st line Eseg).
      destruct (IH (mkScan true (in_bun_sect st) (offset st) (size st))
                  Hst Hpre) as (st' & Hrun & Hs & Ho & Hz & Hg).
      exists st'. repeat split; try assumption.
      intros _. apply Hg. now left.
    + assert (scan_line int st line = Returned (inl st)) as ->.
      { unfold scan_line. cbv zeta. rewrite Eseg.
        replace (Py.contains (Py.strip_ws line) (Py.str_of "sectname __bun"))
          with false by (symmetry; now apply not_true_is_false).
        now rewrite andb_false_r, Hst. }
      destruct (IH st Hst Hpre) as (st' & Hrun & Hs & Ho & Hz & Hg).
      exists st'. repeat split; try assumption.
      intros [H | H]; apply Hg; [now left|].
      inversion H as [? ? H1 | ? ? H1]; subst; [|now right].
      unfold is_segment_line in H1. congruence.
Qed.

(** In the section, quiet lines change nothing while a field is missing. *)
Lemma scan_quiet (int : Z -> str -> option Z) (quiet more : list str)
  (st : ScanState) :
  in_bun_seg st = true -> in_bun_sect st = true ->
  offset st = None \/ size st = None ->
  Forall is_quiet_line quiet ->
  scan_lines int st (quiet ++ more) = scan_lines int st more.
Proof.
  intros Hseg Hsect Hmiss Hall.
  induction Hall as [|line quiet Hline Hquiet IH]; [reflexivity|].
  cbn [app scan_lines].
  assert (scan_line int st line = Returned (inl st)) as ->; [|exact IH].
  destruct (Py.contains (Py.strip_ws line) (Py.str_of "segname __BUN"))
    eqn:Eseg.
  { rewrite (scan_line_segment int st line Eseg), <- Hseg.
    now rewrite scan_state_eta. }
  destruct (Py.contains (Py.strip_ws line) (Py.str_of "sectname __bun"))
    eqn:Esec.
  { rewrite (scan_line_section int st line); try assumption.
    - rewrite <- Hseg at 1. rewrite <- Hsect at 1.
      now rewrite scan_state_eta.
    - unfold is_segment_line. congruence. }
  destruct Hline as [H | [H | [Ho Hs]]];
    [unfold is_segment_line in H; congruence
    | unfold is_section_line in H; congruence |].
  unfold scan_line. cbv zeta.
  rewrite Eseg, Esec, andb_false_r, Hsect. unfold assign_field.
  rewrite Ho, Hs.
  destruct Hmiss as [-> | ->]; [reflexivity | now destruct (offset st)].
Qed.

Lemma scan_line_field (int : Z -> str -> option Z) (st : ScanState)
  (line : str) :
  ~ is_segment_line line -> ~ is_section_line line ->
  in_bun_sect st = true ->
  scan_line int st line =
  match assign_field int st (Py.strip_ws line) with
  | Returned st' =>
      match offset st', size st' with
      | Some o, Some z => Returned (inr (o, z))
      | _, _ => Returned (inl st')
      end
  | SystemExit m => SystemExit m
  | ValueError => ValueError
  | IndexError => IndexError
  end.
Proof.
  unfold is_segment_line, is_section_line, scan_line. cbv zeta.
  intros Hseg Hsec ->.
  apply not_true_is_false in Hseg, Hsec.
  now rewrite Hseg, Hsec, andb_false_r.
Qed.

Lemma assign_offset (int : Z -> str -> option Z) (st : ScanState)
  (line : str) (v : Z) :
  is_field_line int (Py.str_of "offset ") 10 (Some v) line ->
  assign_field int st (Py.strip_ws line) =
  Returned (mkScan (in_bun_seg st) (in_bun_sect st) (Some v) (size st)).
Proof.
  intros (Hs & token & Ht & Hv). unfold assign_field, last_field.
  now rewrite Hs, Ht, Hv.
Qed.

Lemma assign_size (int : Z -> str -> option Z) (st : ScanState)
  (line : str) (v : Z) :
  is_field_line int (Py.str_of "size ") 16 (Some v) line ->
  assign_field int st (Py.strip_ws line) =
  Returned (mkScan (in_bun_seg st) (in_bun_sect st) (offset st) (Some v)).
Proof.
  intros (Hs & token & Ht & Hv). unfold assign_field, last_field.
  assert (Py.startswith (Py.strip_ws line) (Py.str_of "offset ") = false)
    as ->.
  { apply not_true_is_false. intros Ho.
    apply startswith_iff in Ho, Hs. destruct Ho as [q Hq], Hs as [q' Hq'].
    rewrite Hq in Hq'. discriminate. }
  now rewrite Hs, Ht, Hv.
Qed.

(** X21: on a listing of the usual shape the section is found.  When a
    line that names the segment comes before the first line that names
    the section, and that line is followed, among lines that are not
    read as fields, by a [size] line and then an [offset] line, the
    function returns the offset and the size that [int] reads from the
    last words of those two lines. *)
Theorem X21_standard_listing
  (int : Z -> str -> option Z) (result : CompletedProcess)
  (pre : list str) (sect : str) (q1 : list str) (size_line : str)
  (q2 : list str) (offset_line : str) (rest : list str) (o z : Z) :
  returncode result = 0 ->
  Py.split_char 10 (stdout result)
  = pre ++ sect :: q1 ++ size_line :: q2 ++ offset_line :: rest ->
  Exists is_segment_line pre ->
  Forall (fun line => ~ is_section_line line) pre ->
  ~ is_segment_line sect -> is_section_line sect ->
  Forall is_quiet_line q1 -> Forall is_quiet_line q2 ->
  reads_field int (Py.str_of "size ") 16 z size_line ->
  reads_field int (Py.str_of "offset ") 10 o offset_line ->
  get_bun_section int result = Returned (o, z).
Proof.
  intros Hrc Hlines Hseg Hpre Hsect1 Hsect2 Hq1 Hq2
         (Hz1 & Hz2 & Hz) (Ho1 & Ho2 & Ho).
  unfold get_bun_section. rewrite Hrc, Hlines. cbn [Z.eqb negb].
  destruct (scan_prefix int pre
              (sect :: q1 ++ size_line :: q2 ++ offset_line :: rest)
              (mkScan false false None None) eq_refl Hpre)
    as (st & -> & Hs & Hoff & Hsz & Hg).
  specialize (Hg (or_intror Hseg)). cbn [offset size] in Hoff, Hsz.
  cbn [scan_lines]. rewrite (scan_line_section int st sect Hsect1 Hsect2 Hg).
  rewrite Hoff, Hsz.
  rewrite scan_quiet; [|reflexivity | reflexivity | now left | exact Hq1].
  cbn [scan_lines].
  rewrite (scan_line_field int (mkScan true true None None) size_line
             Hz1 Hz2 eq_refl).
  rewrite (assign_size int _ size_line z Hz).
  cbn [offset size in_bun_seg in_bun_sect].
  rewrite scan_quiet; [|reflexivity | reflexivity | now left | exact Hq2].
  cbn [scan_lines].
  rewrite (scan_line_field int (mkScan true true None (Some z)) offset_line
             Ho1 Ho2 eq_refl).
  rewrite (assign_offset int _ offset_line o Ho). reflexivity.
Qed.

Lemma X21_standard_listing_witness :
  get_bun_section plain_int (mkProcess 0 sample_listing [])
  = Returned (10502144, 8000).
Proof.
  apply (X21_standard_listing plain_int (mkProcess 0 sample_listing [])
           [Py.str_of "Load command 4"; Py.str_of "      cmd LC_SEGMENT_64";
            Py.str_of "  segname __BUN"; Py.str_of "Section"]
           (Py.str_of "  sectname __bun")
           [Py.str_of "   segname __BUN";
            Py.str_of "      addr 0x0000000100a04000"]
           (Py.str_of "      size 0x0000000000001f40")
           []
           (Py.str_of "    offset 10502144")
           [Py.str_of "     align 2^14 (16384)"; []]).
  - reflexivity.
  - reflexivity.
  - apply Exists_cons_tl, Exists_cons_tl, Exists_cons_hd. reflexivity.
  - repeat constructor; intros H; vm_compute in H; discriminate.
  - intros H. vm_compute in H. discriminate.
  - reflexivity.
  - constructor; [left; reflexivity|].
    constructor; [|constructor]. right. right. split; reflexivity.
  - constructor.
  - split; [intros H; vm_compute in H; discriminate|].
    split; [intros H; vm_compute in H; discriminate|].
    split; [reflexivity|]. eexists. split; reflexivity.
  - split; [intros H; vm_compute in H; discriminate|].
    split; [intros H; vm_compute in H; discriminate|].
    split; [reflexivity|]. eexists. split; reflexivity.
Defined.
